(** * padeopsIO.turbine: actuator-disk turbine model

    A shallow embedding of [src/padeopsIO/turbine.py] over the real numbers.
    Python floats are read as reals ([R]); numpy arrays as (nested) lists;
    [None] as [option]; raised exceptions as the [Raise] case of [result];
    attribute writes on [self] as explicit state passing.

    Floating point is outside the model.  Where numpy divides by zero it
    carries on with [inf] or [nan] and a warning; the model carries on with
    Rocq's total division, and every statement that rests on a quotient
    says that its divisor is not zero, or says what the divisor is. *)

From Stdlib Require Import Reals Lra Lia String ZArith Bool List Sorted.
Import ListNotations.

Open Scope R_scope.

(** ** Python runtime: exceptions and results *)

Inductive exn : Type :=
| AttributeError (name : string)
| ValueError (msg : string)
| KeyError (key : string)
| IndexError
| TypeError
| ZeroDivisionError.

Inductive result (A : Type) : Type :=
| Ok (a : A)
| Raise (e : exn).

Arguments Ok {A} a.
Arguments Raise {A} e.

Definition rbind {A B : Type} (r : result A) (k : A -> result B) : result B :=
  match r with
  | Ok a => k a
  | Raise e => Raise e
  end.

Declare Scope result_scope.
Delimit Scope result_scope with result.
Notation "'let?' x ':=' r 'in' k" :=
  (rbind r (fun x => k))
    (at level 10, x pattern, r at level 100, k at level 200)
  : result_scope.
Open Scope result_scope.

(** ** Numbers and truth values read from a namelist

    A namelist entry is a number or a logical.  Python's [bool] is a
    subtype of [int]: [True] counts as 1 and [False] as 0 in arithmetic, and
    a number is falsy exactly when it is zero. *)

Inductive value : Type :=
| VNum (r : R)
| VBool (b : bool).

Definition num (v : value) : R :=
  match v with
  | VNum r => r
  | VBool true => 1
  | VBool false => 0
  end.

Coercion num : value >-> R.

Definition Rltb (a b : R) : bool := if Rlt_dec a b then true else false.
Definition Reqb (a b : R) : bool := if Req_dec_T a b then true else false.

Definition truthy (v : value) : bool :=
  match v with
  | VNum r => negb (Reqb r 0)
  | VBool b => b
  end.

(** [not x] for a value that may be [None]. *)
Definition py_not (v : option value) : bool :=
  match v with
  | None => true
  | Some v => negb (truthy v)
  end.

(** ** numpy arrays *)

Definition Axis : Type := list R.
Definition Array3 : Type := list (list (list R)).

Definition sum1 (l : list R) : R := fold_right Rplus 0 l.
Definition sum2 (l : list (list R)) : R := sum1 (map sum1 l).
(** [np.sum] of a three-dimensional array. *)
Definition sum3 (l : Array3) : R := sum1 (map sum2 l).

Definition map3 (f : R -> R) (K : Array3) : Array3 :=
  map (map (map f)) K.

Fixpoint imap_from {A B : Type} (f : nat -> A -> B) (i : nat) (l : list A) : list B :=
  match l with
  | [] => []
  | a :: l' => f i a :: imap_from f (S i) l'
  end.

(** [imap f l] is [[f 0 l0; f 1 l1; ...]]. *)
Definition imap {A B : Type} (f : nat -> A -> B) (l : list A) : list B :=
  imap_from f 0 l.

Fixpoint mapM {A B : Type} (f : A -> result B) (l : list A) : result (list B) :=
  match l with
  | [] => Ok []
  | a :: l' => let? b := f a in let? bs := mapM f l' in Ok (b :: bs)
  end.

Fixpoint zipM {A B C : Type} (f : A -> B -> result C) (la : list A) (lb : list B)
  : result (list C) :=
  match la, lb with
  | a :: la', b :: lb' => let? c := f a b in let? cs := zipM f la' lb' in Ok (c :: cs)
  | _, _ => Ok []
  end.

(** One axis of numpy broadcasting for a binary operation: equal extents are
    paired, an extent of one is stretched, anything else is the
    "operands could not be broadcast together" [ValueError]. *)
Definition broadcast {A B C : Type} (f : A -> B -> result C)
           (la : list A) (lb : list B) : result (list C) :=
  if Nat.eqb (length la) (length lb) then zipM f la lb
  else match la, lb with
       | [a], _ => mapM (f a) lb
       | _, [b] => mapM (fun a => f a b) la
       | _, _ => Raise (ValueError "operands could not be broadcast together")
       end.

(** [a * b] for two three-dimensional arrays. *)
Definition np_mul (a b : Array3) : result Array3 :=
  broadcast (broadcast (broadcast (fun u v => Ok (u * v)))) a b.

(** [a[i]] for a non-negative constant index [i]. *)
Definition index (a : Axis) (i : nat) : result R :=
  match nth_error a i with
  | Some v => Ok v
  | None => Raise IndexError
  end.

(** [a[start:stop]] with non-negative bounds: the slice is clipped to the
    array. *)
Definition slice : Type := (nat * nat)%type.

Definition in_slice (s : slice) (i : nat) : bool :=
  Nat.leb (fst s) i && Nat.ltb i (snd s).

(** Python's builtin [min] and [max] over a sequence: empty input raises. *)
Definition py_min (l : list R) : result R :=
  match l with
  | [] => Raise (ValueError "min() arg is an empty sequence")
  | a :: l' => Ok (fold_left Rmin l' a)
  end.

Definition py_max (l : list R) : result R :=
  match l with
  | [] => Raise (ValueError "max() arg is an empty sequence")
  | a :: l' => Ok (fold_left Rmax l' a)
  end.

(** [np.arange(lo, hi)] for integral bounds. *)
Definition arange (lo hi : Z) : list R :=
  map (fun k => IZR (lo + Z.of_nat k)) (seq 0 (Z.to_nat (hi - lo))).

(** Boolean-mask indexing [a[mask]]. *)
Fixpoint select (mask : list bool) (a : list R) : list R :=
  match mask, a with
  | m :: mask', v :: a' => if m then v :: select mask' a' else select mask' a'
  | _, _ => []
  end.

Definition count_true (mask : list bool) : nat :=
  length (filter (fun b => b) mask).

Fixpoint zip_with {A B C : Type} (f : A -> B -> C) (la : list A) (lb : list B) : list C :=
  match la, lb with
  | a :: la', b :: lb' => f a b :: zip_with f la' lb'
  | _, _ => []
  end.

(** A grid axis: at least two nodes, strictly increasing. *)
Definition grid_axis (a : Axis) : Prop :=
  (2 <= length a)%nat /\ Sorted Rlt a.

(** ** Module-level functions (turbine.py, lines 14-59) *)

(** [get_correction(CT, fwidth, D)], line 19. *)
Definition get_correction (CT fwidth D : R) : R :=
  1 / (1 + CT / 2 * fwidth / sqrt (3 * PI) / D).

(** [a.size]: the number of nodes of an array. *)
Definition size (a : Array3) : nat := length (concat (concat a)).

(** [get_REWS(ufield, kernel, M)], line 40: [np.sum(ufield * kernel) * M].
    The method below passes [self.kernel] and [self.M], either of which may
    be [None]; multiplying a number by [None] is a [TypeError].  The
    product [ufield * None] multiplies node by node, so it raises on the
    first node of a field that has one, and is an empty array, whose sum
    is 0, on a field that has none. *)
Definition get_REWS (ufield : Array3) (kernel : option Array3) (M : option R)
  : result R :=
  match kernel with
  | None =>
      match size ufield with
      | O => match M with
             | None => Raise TypeError
             | Some m => Ok (0 * m)
             end
      | S _ => Raise TypeError
      end
  | Some k =>
      let? p := np_mul ufield k in
      match M with
      | None => Raise TypeError
      | Some m => Ok (sum3 p * m)
      end
  end.

(** [get_power(ud, D, rho, cpp)], line 59. *)
Definition get_power (ud D rho cpp : R) : R :=
  0.5 * rho * D ^ 2 / 4 * PI * cpp * ud ^ 3.

(** ** class Turbine (turbine.py, lines 62-388) *)

Module Turbine.
Section Collaborators.

(** The namelist type with its recursive key search ([utils.io_utils]) and
    the resolution of a bounding box to index ranges ([gridslice]) are
    imported by turbine.py and are not part of it: they are parameters.
    [key_search_r nml key] is [None] when no entry is found. *)
Variable Nml : Type.
Variable key_search_r : Nml -> string -> option value.
Variable get_xids :
  Axis -> Axis -> Axis -> R * R -> R * R -> R * R -> slice * slice * slice.

(** The instance attributes.  [yaw], [tilt], [filterwidth] and
    [usecorrection] are set only when the namelist has them (lines 100-103):
    [None] there means the attribute does not exist on the object.  For
    [kernel], [M] and [ud] the attribute exists and [None] is its value. *)
Record t : Type := mk {
  verbose : bool;
  input_nml : Nml;
  kernel : option Array3;
  M : option R;
  ud : option R;
  xloc : value;
  yloc : value;
  zloc : value;
  ct : value;
  diam : value;
  yaw : option value;
  tilt : option value;
  filterwidth : option value;
  usecorrection : option value;
  sort_by : string;
  n : Z;
  pos : value * value * value
}.

(** Attribute values as Python objects, for the accesses that go through
    [self.__dict__]. *)
Inductive pyobj : Type :=
| PNone
| PVal (v : value)
| PStr (s : string)
| PArray (K : Array3)
| PTuple (p : value * value * value)
| PNml (d : Nml).

Definition of_option {A : Type} (f : A -> pyobj) (o : option A) : pyobj :=
  match o with
  | Some a => f a
  | None => PNone
  end.

Definition optional (name : string) (o : option value) : list (string * pyobj) :=
  match o with
  | Some v => [(name, PVal v)]
  | None => []
  end.

(** [self.__dict__], in insertion order. *)
Definition __dict__ (self : t) : list (string * pyobj) :=
  [ ("verbose", PVal (VBool (verbose self)));
    ("input_nml", PNml (input_nml self));
    ("kernel", of_option PArray (kernel self));
    ("M", of_option (fun m => PVal (VNum m)) (M self));
    ("ud", of_option (fun u => PVal (VNum u)) (ud self));
    ("xloc", PVal (xloc self));
    ("yloc", PVal (yloc self));
    ("zloc", PVal (zloc self));
    ("ct", PVal (ct self));
    ("diam", PVal (diam self)) ]%string
  ++ optional "yaw" (yaw self)
  ++ optional "tilt" (tilt self)
  ++ optional "filterwidth" (filterwidth self)
  ++ optional "usecorrection" (usecorrection self)
  ++ [ ("sort_by", PStr (sort_by self));
       ("n", PVal (VNum (IZR (n self))));
       ("pos", PTuple (pos self)) ]%string.

Fixpoint dict_get (d : list (string * pyobj)) (key : string) : option pyobj :=
  match d with
  | [] => None
  | (k, v) :: d' => if String.eqb k key then Some v else dict_get d' key
  end.

(** [key in d]. *)
Definition dict_in (key : string) (d : list (string * pyobj)) : bool :=
  match dict_get d key with
  | Some _ => true
  | None => false
  end.

(** *** Methods: state passing over [self]

    The state also carries a call counter for [_get_ctrl_pts], the
    observation a test makes by wrapping that method. *)
Record state : Type := mkState {
  self : t;
  ctrl_pts_calls : nat
}.

Definition Py (A : Type) : Type := state -> result A * state.

Definition ret {A : Type} (a : A) : Py A := fun s => (Ok a, s).
Definition raise {A : Type} (e : exn) : Py A := fun s => (Raise e, s).
Definition bind {A B : Type} (c : Py A) (k : A -> Py B) : Py B :=
  fun s => match c s with
           | (Ok a, s') => k a s'
           | (Raise e, s') => (Raise e, s')
           end.
Definition lift {A : Type} (r : result A) : Py A := fun s => (r, s).
Definition get_self : Py t := fun s => (Ok (self s), s).
Definition modify (f : t -> t) : Py unit :=
  fun s => (Ok tt, mkState (f (self s)) (ctrl_pts_calls s)).

(** The state once one more call of [_get_ctrl_pts] is counted. *)
Definition ticked (s : state) : state :=
  mkState (self s) (S (ctrl_pts_calls s)).
Definition tick : Py unit := fun s => (Ok tt, ticked s).

Notation "x <- c ;; k" := (bind c (fun x => k))
  (at level 61, c at next level, right associativity).
Notation "' p <- c ;; k" := (bind c (fun x => match x with p => k end))
  (at level 61, p pattern, c at next level, right associativity).
Notation "c ;;; k" := (bind c (fun _ => k))
  (at level 61, right associativity).

(** [self.name] for an attribute that may not exist. *)
Definition getattr (name : string) (o : option value) : Py value :=
  match o with
  | Some v => ret v
  | None => raise (AttributeError name)
  end.

Definition set_sort_by (sort : string) (o : t) : t :=
  mk (verbose o) (input_nml o) (kernel o) (M o) (ud o) (xloc o) (yloc o) (zloc o)
     (ct o) (diam o) (yaw o) (tilt o) (filterwidth o) (usecorrection o)
     sort (n o) (pos o).

Definition set_M (m : R) (o : t) : t :=
  mk (verbose o) (input_nml o) (kernel o) (Some m) (ud o) (xloc o) (yloc o) (zloc o)
     (ct o) (diam o) (yaw o) (tilt o) (filterwidth o) (usecorrection o)
     (sort_by o) (n o) (pos o).

Definition set_kernel (K : Array3) (o : t) : t :=
  mk (verbose o) (input_nml o) (Some K) (M o) (ud o) (xloc o) (yloc o) (zloc o)
     (ct o) (diam o) (yaw o) (tilt o) (filterwidth o) (usecorrection o)
     (sort_by o) (n o) (pos o).

(** Lines 93-98: a required variable, or the [AttributeError] naming it. *)
Definition required (nml : Nml) (req : string) : result value :=
  match key_search_r nml req with
  | Some v => Ok v
  | None => Raise (AttributeError req)
  end.

(** [Turbine.__init__(nml, n, verbose, sort)], lines 76-119.  The
    [verbose] branch only prints. *)
Definition __init__ (nml : Nml) (n : Z) (verbose : bool) (sort : string)
  : result t :=
  let? xloc := required nml "xloc" in
  let? yloc := required nml "yloc" in
  let? zloc := required nml "zloc" in
  let? ct := required nml "ct" in
  let? diam := required nml "diam" in
  Ok {| verbose := verbose;
        input_nml := nml;
        kernel := None;
        M := None;
        ud := None;
        xloc := xloc; yloc := yloc; zloc := zloc; ct := ct; diam := diam;
        yaw := key_search_r nml "yaw";
        tilt := key_search_r nml "tilt";
        filterwidth := key_search_r nml "filterwidth";
        usecorrection := key_search_r nml "usecorrection";
        sort_by := sort;
        n := n;
        pos := (xloc, yloc, zloc) |}.

(** [Turbine.set_sort(sort)], lines 121-130. *)
Definition set_sort (sort : string) : Py unit :=
  o <- get_self ;;
  if dict_in sort (__dict__ o) then modify (set_sort_by sort)
  else raise (ValueError
    "Turbine.set_sort(): given variable does not exist for the turbine object").

(** [Turbine.get_correction(return_correction)], lines 132-152.  The
    default of [return_correction] is [True]. *)
Definition get_correction (return_correction : bool) : Py (option R) :=
  o <- get_self ;;
  let fwidth := key_search_r (input_nml o) "filterwidth" in
  let use_corr := key_search_r (input_nml o) "usecorrection" in
  let m := match fwidth with
           | None => 1
           | Some fw =>
               if py_not use_corr then 1
               else get_correction (ct o) fw (diam o)
           end in
  if return_correction then ret (Some m)
  else modify (set_M m) ;;; ret None.

Definition is_none {A : Type} (o : option A) : bool :=
  match o with
  | None => true
  | Some _ => false
  end.

(** [Turbine.get_REWS(ufield, kernel)], lines 154-166. *)
Definition get_REWS (ufield : Array3) (kernel_arg : option Array3) : Py R :=
  o <- get_self ;;
  if is_none (kernel o) && is_none kernel_arg
  then raise (ValueError "Turbine.get_REWS(): No kernel found")
  else
    (if is_none (M o) then get_correction true ;;; ret tt else ret tt) ;;;
    o <- get_self ;;
    lift (get_REWS ufield (kernel o) (M o)).

(** [Turbine.get_power(ud, ufield)], lines 168-176. *)
Definition get_power (ud_arg : option R) (ufield : option Array3) : Py R :=
  ud' <- match ud_arg, ufield with
         | None, Some u => r <- get_REWS u None ;; ret (Some r)
         | _, _ => ret ud_arg
         end ;;
  o <- get_self ;;
  match ud' with
  | Some v => ret (get_power v (diam o) 1 (ct o))
  | None => raise TypeError
  end.

(** [Turbine._rotate_ctrl_pts(xc, yc, zc)], lines 337-370.  The
    arithmetic is element-wise on arrays; the only caller passes three
    arrays of one length. *)
Definition _rotate_ctrl_pts (xc yc zc : list R)
  : Py (list R * list R * list R) :=
  o <- get_self ;;
  yaw0 <- getattr "yaw" (yaw o) ;;
  skip <- (if Reqb yaw0 0
           then tilt0 <- getattr "tilt" (tilt o) ;; ret (Reqb tilt0 0)
           else ret false) ;;
  if skip then ret (xc, yc, zc)
  else
    tilt0 <- getattr "tilt" (tilt o) ;;
    let yaw := yaw0 * PI / 180 in
    let tilt := tilt0 * PI / 180 in
    let xtmp := zip_with (fun x y =>
      (x - xloc o) * cos yaw - (y - yloc o) * sin yaw + xloc o) xc yc in
    let ytmp := zip_with (fun x y =>
      (x - xloc o) * sin yaw + (y - yloc o) * cos yaw + yloc o) xc yc in
    let ztmp := zc in
    let xc' := zip_with (fun x z =>
      (x - xloc o) * cos tilt + (z - zloc o) * sin tilt + xloc o) xtmp ztmp in
    let yc' := ytmp in
    let zc' := zip_with (fun x z =>
      - (x - xloc o) * sin tilt + (z - zloc o) * cos tilt + zloc o) xtmp ztmp in
    ret (xc', yc', zc').

(** [a[1] - a[0]]. *)
Definition spacing (a : Axis) : result R :=
  let? a1 := index a 1 in
  let? a0 := index a 0 in
  Ok (a1 - a0).

(** Lines 315-324: the lattice of offsets in the disk plane, unravelled in
    row-major order, and the mask of the points inside the disk. *)
Definition lattice_axis (R0 d : R) : list R :=
  let per_R := Zceil (R0 / d) in
  map (fun v => v * d) (arange (- per_R) (per_R + 1)).

Definition yravel (ys zs : list R) : list R :=
  flat_map (fun yv => map (fun _ => yv) zs) ys.

Definition zravel (ys zs : list R) : list R :=
  flat_map (fun _ => zs) ys.

Definition disk_mask (R0 : R) (yr zr : list R) : list bool :=
  zip_with (fun yv zv => Rltb (yv ^ 2 + zv ^ 2) (R0 ^ 2)) yr zr.

(** [Turbine._get_ctrl_pts(x, y, z)], lines 299-335. *)
Definition _get_ctrl_pts (x y z : Axis) : Py (list R * list R * list R) :=
  tick ;;;
  o <- get_self ;;
  dx <- lift (spacing x) ;;
  dy <- lift (spacing y) ;;
  dz <- lift (spacing z) ;;
  let R0 := diam o / 2 in
  let ys := lattice_axis R0 dy in
  let zs := lattice_axis R0 dz in
  let mask := disk_mask R0 (yravel ys zs) (zravel ys zs) in
  let xctrl := map (fun v => v + xloc o) (repeat 0 (count_true mask)) in
  let yctrl := map (fun v => v + yloc o) (select mask (yravel ys zs)) in
  let zctrl := map (fun v => v + zloc o) (select mask (zravel ys zs)) in
  _rotate_ctrl_pts xctrl yctrl zctrl.

(** [zip(xcs, ycs, zcs)]. *)
Fixpoint zip3 (xs ys zs : list R) : list (R * R * R) :=
  match xs, ys, zs with
  | a :: xs', b :: ys', c :: zs' => (a, b, c) :: zip3 xs' ys' zs'
  | _, _, _ => []
  end.

(** [np.zeros((nx, ny, nz))]. *)
Definition zeros (nx ny nz : nat) : Array3 :=
  repeat (repeat (repeat 0 nz) ny) nx.

(** Lines 267-269, one pass of the loop: the Gaussian centred at the
    control point [c] is added on the index ranges [xids], [yids], [zids];
    [X], [Y], [Z] of the mesh are the axis values at those indices. *)
Definition gaussian (C1 fwidth : R) (x y z : Axis) (c : R * R * R)
           (i j k : nat) : R :=
  let '(xc, yc, zc) := c in
  C1 * exp (- 6 / fwidth ^ 2 *
            ((nth i x 0 - xc) ^ 2 + (nth j y 0 - yc) ^ 2 + (nth k z 0 - zc) ^ 2)).

Definition add_gaussian (C1 fwidth : R) (x y z : Axis)
           (ids : slice * slice * slice) (K : Array3) (c : R * R * R) : Array3 :=
  let '(xids, yids, zids) := ids in
  imap (fun i => imap (fun j => imap (fun k v =>
    if in_slice xids i && in_slice yids j && in_slice zids k
    then v + gaussian C1 fwidth x y z c i j k
    else v))) K.

(** Lines 271-273. *)
Definition floor_small (v : R) : R := if Rltb v 1e-10 then 0 else v.

(** Line 239: [(6 / np.pi / fwidth**2) ** 1.5].  The filter width is a
    Python float, as a namelist yields it, and the division of a float by
    the float zero raises. *)
Definition normalising_constant (fwidth : R) : result R :=
  if Reqb (fwidth ^ 2) 0 then Raise ZeroDivisionError
  else Ok (Rpower (6 / PI / fwidth ^ 2) 1.5).

(** Lines 237-273: the accumulated field after the [1e-10] floor and before
    normalisation. *)
Definition accumulate (x y z : Axis) (fwidth buffer_fact : R) : Py Array3 :=
  '(xcs, ycs, zcs) <- _get_ctrl_pts x y z ;;
  C1 <- lift (normalising_constant fwidth) ;;
  let kernel0 := zeros (length x) (length y) (length z) in
  let buff := buffer_fact * fwidth in
  xmin <- lift (py_min xcs) ;;
  xmax <- lift (py_max xcs) ;;
  ymin <- lift (py_min ycs) ;;
  ymax <- lift (py_max ycs) ;;
  zmin <- lift (py_min zcs) ;;
  zmax <- lift (py_max zcs) ;;
  let ids := get_xids x y z (xmin - buff, xmax + buff)
               (ymin - buff, ymax + buff) (zmin - buff, zmax + buff) in
  let kernel1 := fold_left (add_gaussian C1 fwidth x y z ids)
                   (zip3 xcs ycs zcs) kernel0 in
  ret (map3 floor_small kernel1).

(** Lines 275-285. *)
Definition normalise (normalize : bool) (x y z : Axis) (K : Array3)
  : result Array3 :=
  let? dx := spacing x in
  let? dy := spacing y in
  let? dz := spacing z in
  if normalize then Ok (map3 (fun v => v / sum3 K) K)
  else Ok (map3 (fun v => v / (sum3 K * dx * dy * dz)) K).

(** Lines 229-234: the filter width is the argument or, failing that, the
    namelist's. *)
Definition resolve_fwidth (fwidth : option R) : Py R :=
  o <- get_self ;;
  match fwidth with
  | Some fw => ret fw
  | None =>
      match key_search_r (input_nml o) "filterwidth" with
      | Some fw => ret (num fw)
      | None => raise (ValueError
          "Turbine.get_kernel(): no filterwidth found in the turbine input file")
      end
  end.

(** [Turbine.get_kernel(x, y, z, ADM_type, fwidth, buffer_fact,
    return_kernel, normalize, overwrite)], lines 178-297. *)
Definition get_kernel (x y z : Axis) (ADM_type : Z) (fwidth : option R)
           (buffer_fact : R) (return_kernel normalize overwrite : bool)
  : Py (option Array3) :=
  o <- get_self ;;
  if negb (is_none (kernel o)) && negb overwrite then
    if return_kernel then ret (kernel o) else ret None
  else if Z.eqb ADM_type 5 then
    fw <- resolve_fwidth fwidth ;;
    K0 <- accumulate x y z fw buffer_fact ;;
    K <- lift (normalise normalize x y z K0) ;;
    if return_kernel then ret (Some K)
    else modify (set_kernel K) ;;; ret None
  else raise (ValueError
    "Turbine.get_kernel(): No other ADM types are currently set up").

(** Python's [<] on two attribute values reached through [__dict__]: the
    ordering of numbers, strings, tuples and arrays is the interpreter's. *)
Variable py_lt : pyobj -> pyobj -> result bool.

Definition getitem (d : list (string * pyobj)) (key : string) : result pyobj :=
  match dict_get d key with
  | Some v => Ok v
  | None => Raise (KeyError key)
  end.

(** [Turbine.__lt__(other)], lines 372-383. *)
Definition __lt__ (o other : t) : result bool :=
  if String.eqb (sort_by o) "xloc" then
    if Reqb (xloc o) (xloc other) then Ok (Rltb (yloc o) (yloc other))
    else Ok (Rltb (xloc o) (xloc other))
  else
    let? a := getitem (__dict__ o) (sort_by o) in
    let? b := getitem (__dict__ other) (sort_by o) in
    py_lt a b.

End Collaborators.
End Turbine.

Arguments Turbine.mk {Nml}.
Arguments Turbine.verbose {Nml}.
Arguments Turbine.input_nml {Nml}.
Arguments Turbine.kernel {Nml}.
Arguments Turbine.M {Nml}.
Arguments Turbine.ud {Nml}.
Arguments Turbine.xloc {Nml}.
Arguments Turbine.yloc {Nml}.
Arguments Turbine.zloc {Nml}.
Arguments Turbine.ct {Nml}.
Arguments Turbine.diam {Nml}.
Arguments Turbine.yaw {Nml}.
Arguments Turbine.tilt {Nml}.
Arguments Turbine.filterwidth {Nml}.
Arguments Turbine.usecorrection {Nml}.
Arguments Turbine.sort_by {Nml}.
Arguments Turbine.n {Nml}.
Arguments Turbine.pos {Nml}.
Arguments Turbine.__dict__ {Nml}.
Arguments Turbine.dict_get {Nml}.
Arguments Turbine.dict_in {Nml}.
Arguments Turbine.mkState {Nml}.
Arguments Turbine.ticked {Nml}.
Arguments Turbine.resolve_fwidth {Nml}.
Arguments Turbine.self {Nml}.
Arguments Turbine.ctrl_pts_calls {Nml}.
Arguments Turbine.set_sort_by {Nml}.
Arguments Turbine.set_M {Nml}.
Arguments Turbine.set_kernel {Nml}.
Arguments Turbine.__init__ {Nml}.
Arguments Turbine.set_sort {Nml}.
Arguments Turbine.get_correction {Nml}.
Arguments Turbine.get_REWS {Nml}.
Arguments Turbine.get_power {Nml}.
Arguments Turbine._rotate_ctrl_pts {Nml}.
Arguments Turbine._get_ctrl_pts {Nml}.
Arguments Turbine.accumulate {Nml}.
Arguments Turbine.get_kernel {Nml}.
Arguments Turbine.__lt__ {Nml}.

(** ** A small installation for the examples

    The turbine of the specification's example scenario, [diam = 1],
    [ct = 2], [filterwidth = 0.2], on two-node axes. *)

Module Example.

Definition Nml : Type := list (string * value).

(** Modelled from the spec: [key_search_r] of [utils/io_utils.py], which
    is not among the sources, on a namelist without nesting, where the
    recursive search for a key is the lookup of the first entry under it. *)
Fixpoint key_search_r (nml : Nml) (key : string) : option value :=
  match nml with
  | [] => None
  | (k, v) :: nml' => if String.eqb k key then Some v else key_search_r nml' key
  end.

(** Index ranges that keep every node of every axis: the coarsest answer
    [get_xids] can give for a bounding box. *)
Definition whole_grid (x y z : Axis) (_ _ _ : R * R) : slice * slice * slice :=
  ((0%nat, length x), (0%nat, length y), (0%nat, length z)).

Definition geometry (xloc yloc zloc : R) : Nml :=
  [ ("xloc", VNum xloc); ("yloc", VNum yloc); ("zloc", VNum zloc);
    ("ct", VNum 2); ("diam", VNum 1) ]%string.

(** Required variables, filter width and correction switch; no [yaw], no
    [tilt]. *)
Definition nml_unrotated : Nml :=
  geometry 0 0 0 ++ [ ("filterwidth", VNum 0.2); ("usecorrection", VBool true) ]%string.

(** The full namelist, with the disk centre at [(c, c, c)]. *)
Definition nml_at (c : R) : Nml :=
  geometry c c c
  ++ [ ("yaw", VNum 0); ("tilt", VNum 0);
       ("filterwidth", VNum 0.2); ("usecorrection", VBool true) ]%string.

Definition turbine_of (nml : Nml) (kernel : option Array3) (M : option R)
           (xloc yloc zloc : R) (yaw tilt : option value) : Turbine.t Nml :=
  {| Turbine.verbose := false;
     Turbine.input_nml := nml;
     Turbine.kernel := kernel;
     Turbine.M := M;
     Turbine.ud := None;
     Turbine.xloc := VNum xloc;
     Turbine.yloc := VNum yloc;
     Turbine.zloc := VNum zloc;
     Turbine.ct := VNum 2;
     Turbine.diam := VNum 1;
     Turbine.yaw := yaw;
     Turbine.tilt := tilt;
     Turbine.filterwidth := Some (VNum 0.2);
     Turbine.usecorrection := Some (VBool true);
     Turbine.sort_by := "xloc";
     Turbine.n := (-1)%Z;
     Turbine.pos := (VNum xloc, VNum yloc, VNum zloc) |}.

(** [Turbine(nml_at c)], as the constructor leaves it. *)
Definition fresh (c : R) : Turbine.t Nml :=
  turbine_of (nml_at c) None None c c c (Some (VNum 0)) (Some (VNum 0)).

(** [Turbine(nml_unrotated)]. *)
Definition unrotated : Turbine.t Nml :=
  turbine_of nml_unrotated None None 0 0 0 None None.

(** A one-node field and a one-node kernel. *)
Definition one_node (v : R) : Array3 := [[[v]]].

(** A turbine that already holds a kernel. *)
Definition with_kernel : Turbine.t Nml :=
  turbine_of (nml_at 0) (Some (one_node 1)) None 0 0 0
             (Some (VNum 0)) (Some (VNum 0)).

(** A grid of spacing 2 whose nodes are the corners of a cube around
    [(1, 1, 1)]. *)
Definition coarse_axis : Axis := [0; 2].

(** A grid of unit spacing with a node at the origin. *)
Definition unit_axis : Axis := [0; 1].

End Example.

(** ** Vocabulary of the further properties *)

(** [Turbine.req_vars] and [Turbine.opt_vars], lines 68-74. *)
Definition req_vars : list string := ["xloc"; "yloc"; "zloc"; "ct"; "diam"]%string.
Definition opt_vars : list string :=
  ["yaw"; "tilt"; "filterwidth"; "usecorrection"]%string.

(** Two objects agree on everything but the values of [kernel], [M] and
    [sort_by]. *)
Definition same_parameters {Nml : Type} (o o' : Turbine.t Nml) : Prop :=
  Turbine.verbose o' = Turbine.verbose o
  /\ Turbine.input_nml o' = Turbine.input_nml o
  /\ Turbine.ud o' = Turbine.ud o
  /\ Turbine.xloc o' = Turbine.xloc o
  /\ Turbine.yloc o' = Turbine.yloc o
  /\ Turbine.zloc o' = Turbine.zloc o
  /\ Turbine.ct o' = Turbine.ct o
  /\ Turbine.diam o' = Turbine.diam o
  /\ Turbine.yaw o' = Turbine.yaw o
  /\ Turbine.tilt o' = Turbine.tilt o
  /\ Turbine.filterwidth o' = Turbine.filterwidth o
  /\ Turbine.usecorrection o' = Turbine.usecorrection o
  /\ Turbine.n o' = Turbine.n o
  /\ Turbine.pos o' = Turbine.pos o.

(** The squared distance of a point from a centre. *)
Definition dist2 (p c : R * R * R) : R :=
  let '(px, py, pz) := p in
  let '(cx, cy, cz) := c in
  (px - cx) ^ 2 + (py - cy) ^ 2 + (pz - cz) ^ 2.

(** The disk centre of a turbine. *)
Definition centre {Nml : Type} (o : Turbine.t Nml) : R * R * R :=
  (num (Turbine.xloc o), num (Turbine.yloc o), num (Turbine.zloc o)).

(** An array of [nx] planes of [ny] rows of [nz] nodes. *)
Definition has_shape (nx ny nz : nat) (K : Array3) : Prop :=
  length K = nx
  /\ Forall (fun plane => length plane = ny
                          /\ Forall (fun row => length row = nz) plane) K.

(** Every node of an array satisfies [P]. *)
Definition all_nodes (P : R -> Prop) (K : Array3) : Prop :=
  Forall (Forall (Forall P)) K.

(** What lines 346-368 do to one control point [(x, y, z)] of a turbine
    centred at [(x0, y0, z0)], for angles in degrees: yaw about the
    vertical through the centre, then tilt about the horizontal. *)
Definition rotate_point (c : R * R * R) (yaw_deg tilt_deg : R) (p : R * R * R)
  : R * R * R :=
  let '(x0, y0, z0) := c in
  let '(x, y, z) := p in
  let yaw := yaw_deg * PI / 180 in
  let tilt := tilt_deg * PI / 180 in
  let xtmp := (x - x0) * cos yaw - (y - y0) * sin yaw + x0 in
  let ytmp := (x - x0) * sin yaw + (y - y0) * cos yaw + y0 in
  ((xtmp - x0) * cos tilt + (z - z0) * sin tilt + x0,
   ytmp,
   - (xtmp - x0) * sin tilt + (z - z0) * cos tilt + z0).

(** The node [(i, j, k)] of an array; 0 outside of it. *)
Definition cell (K : Array3) (i j k : nat) : R :=
  nth k (nth j (nth i K []) []) 0.

(** Whether a node lies in the index ranges. *)
Definition in_box (ids : slice * slice * slice) (i j k : nat) : bool :=
  let '(xids, yids, zids) := ids in
  in_slice xids i && in_slice yids j && in_slice zids k.

(** [lo] and [hi] are what [min] and [max] return on a sequence. *)
Definition extent (l : list R) (lo hi : R) : Prop :=
  py_min l = Ok lo /\ py_max l = Ok hi.

(** The sum of the Gaussians of the control points [cs] at the node
    [(i, j, k)] when the node lies in the index ranges, and 0 when not. *)
Definition superposition (C1 fwidth : R) (x y z : Axis) (ids : slice * slice * slice)
           (cs : list (R * R * R)) (i j k : nat) : R :=
  if in_box ids i j k
  then sum1 (map (fun c => Turbine.gaussian C1 fwidth x y z c i j k) cs)
  else 0.

(** What the kernel is divided by, lines 279-285. *)
Definition divisor (normalize : bool) (K0 : Array3) (dx dy dz : R) : R :=
  if normalize then sum3 K0 else sum3 K0 * dx * dy * dz.

(** * Properties *)

Ltac run :=
  cbv beta delta
    [Turbine.bind Turbine.ret Turbine.raise Turbine.lift Turbine.get_self
     Turbine.modify Turbine.tick Turbine.getattr] in *;
  cbn beta iota zeta delta [Turbine.self Turbine.ctrl_pts_calls fst snd] in *.

Lemma self_ticked {Nml : Type} (s : Turbine.state Nml) :
  Turbine.self (Turbine.ticked s) = Turbine.self s.
Proof. reflexivity. Qed.

(** ** Arithmetic of the module-level functions *)

(** C9: for all inputs [get_power] is
    [0.5 * rho * (pi * D^2 / 4) * cp_prime * disk_speed^3], and
    [get_power(ud=2, D=1, rho=1, cpp=2)] is [2 * pi]. *)
Theorem get_power_formula :
  (forall ud D rho cpp : R,
      get_power ud D rho cpp = 0.5 * rho * (PI * D ^ 2 / 4) * cpp * ud ^ 3)
  /\ get_power 2 1 1 2 = 2 * PI.
Proof.
  split.
  - intros ud D rho cpp. unfold get_power.
    replace 0.5 with (1 / 2) by lra. field.
  - unfold get_power. replace 0.5 with (1 / 2) by lra. field.
Qed.

(** ** Errors of the array product *)

Lemma mapM_raise {A B : Type} (P : exn -> Prop) (f : A -> result B) (l : list A) (e : exn) :
  (forall a e', f a = Raise e' -> P e') -> mapM f l = Raise e -> P e.
Proof.
  intros Hf. induction l as [| a l IH]; cbn; [discriminate |].
  destruct (f a) eqn:Ea; cbn.
  - destruct (mapM f l); cbn; [discriminate |].
    intros H. injection H as <-. apply IH. reflexivity.
  - intros H. injection H as <-. apply (Hf a). exact Ea.
Qed.

Lemma zipM_raise {A B C : Type} (P : exn -> Prop) (f : A -> B -> result C)
      (la : list A) (lb : list B) (e : exn) :
  (forall a b e', f a b = Raise e' -> P e') -> zipM f la lb = Raise e -> P e.
Proof.
  intros Hf. revert lb. induction la as [| a la IH]; intros [| b lb]; cbn;
    try discriminate.
  destruct (f a b) eqn:Eab; cbn.
  - destruct (zipM f la lb) eqn:Ez; cbn; [discriminate |].
    intros H. injection H as <-. apply (IH lb). exact Ez.
  - intros H. injection H as <-. apply (Hf a b). exact Eab.
Qed.

Lemma broadcast_raise {A B C : Type} (P : exn -> Prop) (f : A -> B -> result C)
      (la : list A) (lb : list B) (e : exn) :
  P (ValueError "operands could not be broadcast together") ->
  (forall a b e', f a b = Raise e' -> P e') -> broadcast f la lb = Raise e -> P e.
Proof.
  intros HP Hf. unfold broadcast.
  destruct (Nat.eqb (length la) (length lb)).
  - apply zipM_raise. exact Hf.
  - destruct la as [| a [| a' la]].
    + destruct lb as [| b [| b' lb]].
      * intros H. injection H as <-. exact HP.
      * apply mapM_raise. intros a0. apply Hf.
      * intros H. injection H as <-. exact HP.
    + apply mapM_raise. intros b. apply Hf.
    + destruct lb as [| b [| b' lb]].
      * intros H. injection H as <-. exact HP.
      * apply mapM_raise. intros a0. apply Hf.
      * intros H. injection H as <-. exact HP.
Qed.

(** The product of two arrays raises nothing but the broadcasting error. *)
Lemma np_mul_raise (a b : Array3) (e : exn) :
  np_mul a b = Raise e -> e = ValueError "operands could not be broadcast together".
Proof.
  unfold np_mul.
  apply (broadcast_raise (fun e => e = ValueError _)); [reflexivity |].
  intros a1 b1 e1.
  apply (broadcast_raise (fun e => e = ValueError _)); [reflexivity |].
  intros a2 b2 e2.
  apply (broadcast_raise (fun e => e = ValueError _)); [reflexivity |].
  intros u v e3. discriminate.
Qed.

(** ** Comparisons on reals *)

Lemma Rltb_true (a b : R) : a < b -> Rltb a b = true.
Proof. intros H. unfold Rltb. destruct (Rlt_dec a b); [reflexivity | contradiction]. Qed.

Lemma Rltb_false (a b : R) : b <= a -> Rltb a b = false.
Proof. intros H. unfold Rltb. destruct (Rlt_dec a b); [lra | reflexivity]. Qed.

Lemma Reqb_true (a b : R) : a = b -> Reqb a b = true.
Proof. intros H. unfold Reqb. destruct (Req_dec_T a b); [reflexivity | contradiction]. Qed.

Lemma Reqb_false (a b : R) : a <> b -> Reqb a b = false.
Proof. intros H. unfold Reqb. destruct (Req_dec_T a b); [contradiction | reflexivity]. Qed.

(** ** Grid axes and the lattice of the disk plane *)

Lemma spacing_grid_axis (a : Axis) :
  grid_axis a -> exists d, Turbine.spacing a = Ok d /\ 0 < d.
Proof.
  intros [Hlen Hsorted].
  destruct a as [| a0 [| a1 a]]; cbn in Hlen; try lia.
  exists (a1 - a0). split; [reflexivity |].
  inversion Hsorted as [| ? ? _ Hhd]; subst.
  inversion Hhd; subst. lra.
Qed.

Lemma arange_In (lo hi k : Z) :
  (lo <= k < hi)%Z -> In (IZR k) (arange lo hi).
Proof.
  intros H. unfold arange. apply in_map_iff.
  exists (Z.to_nat (k - lo)). split.
  - f_equal. lia.
  - apply in_seq. lia.
Qed.

Lemma Zceil_pos (r : R) : 0 < r -> (1 <= Zceil r)%Z.
Proof.
  intros H. destruct (Zceil_bound r) as [_ Hle].
  assert (0 < IZR (Zceil r)) by lra.
  apply lt_IZR in H0. lia.
Qed.

(** The lattice axis holds the offset 0 of the disk centre. *)
Lemma lattice_axis_zero (R0 d : R) :
  0 < R0 -> 0 < d -> In 0 (Turbine.lattice_axis R0 d).
Proof.
  intros HR Hd. unfold Turbine.lattice_axis. apply in_map_iff.
  exists (IZR 0). split; [lra |].
  apply arange_In.
  assert (1 <= Zceil (R0 / d))%Z by (apply Zceil_pos, Rdiv_lt_0_compat; assumption).
  lia.
Qed.

Lemma zip_with_app {A B C : Type} (f : A -> B -> C) (a1 a2 : list A) (b1 b2 : list B) :
  length a1 = length b1 ->
  zip_with f (a1 ++ a2) (b1 ++ b2) = zip_with f a1 b1 ++ zip_with f a2 b2.
Proof.
  revert b1. induction a1 as [| a a1 IH]; intros [| b b1] H; cbn in *; try discriminate.
  - reflexivity.
  - f_equal. apply IH. lia.
Qed.

Lemma zip_with_const_l {A B C : Type} (f : A -> B -> C) (a : A) (l : list B) :
  zip_with f (map (fun _ => a) l) l = map (f a) l.
Proof. induction l as [| b l IH]; cbn; [reflexivity | f_equal; exact IH]. Qed.

Lemma length_zip_with {A B C : Type} (f : A -> B -> C) (la : list A) (lb : list B) :
  length la = length lb -> length (zip_with f la lb) = length la.
Proof.
  revert lb. induction la as [| a la IH]; intros [| b lb] H; cbn in *; try discriminate.
  - reflexivity.
  - f_equal. apply IH. lia.
Qed.

Lemma length_ravel (ys zs : list R) :
  length (Turbine.yravel ys zs) = length (Turbine.zravel ys zs).
Proof.
  unfold Turbine.yravel, Turbine.zravel.
  induction ys as [| a ys IH]; cbn; [reflexivity |].
  rewrite !length_app, length_map, IH. reflexivity.
Qed.

(** Every pair of a lattice row and a lattice column is a point of the
    unravelled mesh. *)
Lemma zip_with_ravel_In {C : Type} (f : R -> R -> C) (ys zs : list R) (yv zv : R) :
  In yv ys -> In zv zs ->
  In (f yv zv) (zip_with f (Turbine.yravel ys zs) (Turbine.zravel ys zs)).
Proof.
  intros Hy Hz. unfold Turbine.yravel, Turbine.zravel.
  induction ys as [| a ys IH]; [contradiction |].
  cbn. rewrite zip_with_app by apply length_map.
  rewrite zip_with_const_l. apply in_or_app.
  destruct Hy as [-> | Hy].
  - left. apply in_map. exact Hz.
  - right. apply IH. exact Hy.
Qed.

Lemma count_true_pos (mask : list bool) : In true mask -> (0 < count_true mask)%nat.
Proof.
  unfold count_true. induction mask as [| b mask IH]; [contradiction |].
  intros [-> | H]; cbn; [lia |].
  destruct b; cbn; [lia | apply IH; exact H].
Qed.

Lemma length_select (mask : list bool) (a : list R) :
  length mask = length a -> length (select mask a) = count_true mask.
Proof.
  unfold count_true. revert a.
  induction mask as [| b mask IH]; intros [| v a] H; cbn in *; try discriminate.
  - reflexivity.
  - destruct b; cbn; [f_equal |]; apply IH; lia.
Qed.

(** The centre offset [(0, 0)] passes the strict filter of the disk. *)
Lemma disk_mask_centre (R0 dy dz : R) :
  0 < R0 -> 0 < dy -> 0 < dz ->
  In true (Turbine.disk_mask R0
             (Turbine.yravel (Turbine.lattice_axis R0 dy) (Turbine.lattice_axis R0 dz))
             (Turbine.zravel (Turbine.lattice_axis R0 dy) (Turbine.lattice_axis R0 dz))).
Proof.
  intros HR Hdy Hdz. unfold Turbine.disk_mask.
  replace true with (Rltb (0 ^ 2 + 0 ^ 2) (R0 ^ 2)) by (apply Rltb_true; nra).
  apply (zip_with_ravel_In (fun yv zv => Rltb (yv ^ 2 + zv ^ 2) (R0 ^ 2)));
    apply lattice_axis_zero; assumption.
Qed.

Lemma length_disk_mask (R0 : R) (ys zs : list R) :
  length (Turbine.disk_mask R0 (Turbine.yravel ys zs) (Turbine.zravel ys zs))
  = length (Turbine.yravel ys zs).
Proof. unfold Turbine.disk_mask. apply length_zip_with, length_ravel. Qed.

(** ** Sums of arrays *)

Lemma sum1_scale (c : R) (l : list R) :
  sum1 (map (fun v => v / c) l) = sum1 l / c.
Proof.
  unfold sum1. induction l as [| v l IH]; cbn.
  - unfold Rdiv. ring.
  - rewrite IH. unfold Rdiv. ring.
Qed.

Lemma sum2_scale (c : R) (l : list (list R)) :
  sum2 (map (map (fun v => v / c)) l) = sum2 l / c.
Proof.
  unfold sum2. rewrite map_map.
  induction l as [| r l IH]; cbn.
  - unfold Rdiv. ring.
  - fold (sum1 (map (fun x => sum1 (map (fun v => v / c) x)) l)).
    fold (sum1 (map sum1 l)).
    rewrite IH, sum1_scale. unfold Rdiv. ring.
Qed.

(** Dividing every node by [c] divides the total by [c]. *)
Lemma sum3_scale (c : R) (K : Array3) :
  sum3 (map3 (fun v => v / c) K) = sum3 K / c.
Proof.
  unfold sum3, map3. rewrite map_map.
  induction K as [| p K IH]; cbn.
  - unfold Rdiv. ring.
  - fold (sum1 (map (fun x => sum2 (map (map (fun v => v / c)) x)) K)).
    fold (sum1 (map sum2 K)).
    rewrite IH, sum2_scale. unfold Rdiv. ring.
Qed.

Lemma floor_small_nonneg (v : R) : 0 <= Turbine.floor_small v.
Proof.
  unfold Turbine.floor_small, Rltb. destruct (Rlt_dec v 1e-10); lra.
Qed.

Lemma floor_small_keeps (v : R) : 1e-10 <= v -> Turbine.floor_small v = v.
Proof.
  intros H. unfold Turbine.floor_small. rewrite Rltb_false by exact H. reflexivity.
Qed.

Lemma floor_small_drops (v : R) : v < 1e-10 -> Turbine.floor_small v = 0.
Proof.
  intros H. unfold Turbine.floor_small. rewrite Rltb_true by exact H. reflexivity.
Qed.

Lemma sum1_map_nonneg {A : Type} (g : A -> R) (l : list A) :
  (forall a, 0 <= g a) -> 0 <= sum1 (map g l).
Proof.
  intros Hg. unfold sum1. induction l as [| a l IH]; cbn; [lra |].
  specialize (Hg a). lra.
Qed.

(** A sum of non-negative terms is not zero exactly when one term is not. *)
Lemma sum1_map_nonzero {A : Type} (g : A -> R) (l : list A) :
  (forall a, 0 <= g a) ->
  sum1 (map g l) <> 0 <-> exists a, In a l /\ g a <> 0.
Proof.
  intros Hg. induction l as [| a l IH].
  - cbn. split; [intros H; exfalso; apply H; reflexivity | intros (a & [] & _)].
  - pose proof (sum1_map_nonneg g l Hg) as Hl. pose proof (Hg a) as Ha.
    change (sum1 (map g (a :: l))) with (g a + sum1 (map g l)).
    split.
    + intros H. destruct (Req_dec (g a) 0) as [E | E].
      * assert (H' : sum1 (map g l) <> 0) by lra.
        apply IH in H'. destruct H' as (b & Hb & Hgb).
        exists b. split; [right; exact Hb | exact Hgb].
      * exists a. split; [left; reflexivity | exact E].
    + intros (b & [<- | Hb] & Hgb); [lra |].
      assert (sum1 (map g l) <> 0) by (apply IH; exists b; auto).
      lra.
Qed.

Lemma floor_small_nonzero (v : R) : Turbine.floor_small v <> 0 <-> 1e-10 <= v.
Proof.
  unfold Turbine.floor_small, Rltb. destruct (Rlt_dec v 1e-10); split; lra.
Qed.

(** The floored field has a non-zero total exactly when some node reaches
    the floor of [1e-10]. *)
Lemma sum3_floor_nonzero (K : Array3) :
  sum3 (map3 Turbine.floor_small K) <> 0
  <-> exists plane row v, In plane K /\ In row plane /\ In v row /\ 1e-10 <= v.
Proof.
  unfold sum3, map3, sum2. rewrite !map_map.
  rewrite (sum1_map_nonzero
             (fun p => sum1 (map sum1 (map (map Turbine.floor_small) p))) K).
  - split.
    + intros (plane & Hp & H). rewrite map_map in H.
      apply (sum1_map_nonzero (fun r => sum1 (map Turbine.floor_small r))) in H.
      * destruct H as (row & Hr & H).
        apply (sum1_map_nonzero Turbine.floor_small) in H; [| apply floor_small_nonneg].
        destruct H as (v & Hv & H). apply floor_small_nonzero in H.
        exists plane, row, v. auto.
      * intros r. apply sum1_map_nonneg, floor_small_nonneg.
    + intros (plane & row & v & Hp & Hr & Hv & H).
      exists plane. split; [exact Hp |]. rewrite map_map.
      apply (sum1_map_nonzero (fun r => sum1 (map Turbine.floor_small r))).
      * intros r. apply sum1_map_nonneg, floor_small_nonneg.
      * exists row. split; [exact Hr |].
        apply (sum1_map_nonzero Turbine.floor_small); [apply floor_small_nonneg |].
        exists v. split; [exact Hv |]. apply floor_small_nonzero. exact H.
  - intros p. rewrite map_map.
    apply (sum1_map_nonneg (fun r => sum1 (map Turbine.floor_small r))).
    intros r. apply sum1_map_nonneg, floor_small_nonneg.
Qed.

Section Properties.

Set Default Proof Using "Type".

Context {Nml : Type}.
Variable key_search_r : Nml -> string -> option value.
Variable get_xids :
  Axis -> Axis -> Axis -> R * R -> R * R -> R * R -> slice * slice * slice.

Local Abbreviation state := (Turbine.state Nml).

(** *** The correction factor *)

Lemma get_correction_value (return_correction : bool) (s : state) :
  Turbine.get_correction key_search_r return_correction s =
  let o := Turbine.self s in
  let m := match key_search_r (Turbine.input_nml o) "filterwidth" with
           | None => 1
           | Some fw =>
               if py_not (key_search_r (Turbine.input_nml o) "usecorrection")
               then 1
               else get_correction (Turbine.ct o) fw (Turbine.diam o)
           end in
  if return_correction then (Ok (Some m), s)
  else (Ok None, Turbine.mkState (Turbine.set_M m o) (Turbine.ctrl_pts_calls s)).
Proof.
  unfold Turbine.get_correction. run. destruct return_correction; reflexivity.
Qed.

(** C8: [Turbine.get_correction] returns exactly 1 when the namelist has
    no filter width or [usecorrection] is falsy; otherwise, when [diam] is
    not zero and the denominator of the formula is not zero, it returns
    [1 / (1 + ct/2 * filterwidth / sqrt(3 pi) / diam)], which is the pure
    [get_correction(ct, filterwidth, diam)].  The object is left as it
    was. *)
Theorem get_correction_policy (s : state) :
  let o := Turbine.self s in
  let fwidth := key_search_r (Turbine.input_nml o) "filterwidth" in
  let use_corr := key_search_r (Turbine.input_nml o) "usecorrection" in
  (fwidth = None \/ py_not use_corr = true ->
   Turbine.get_correction key_search_r true s = (Ok (Some 1), s))
  /\ (forall fw : value,
        fwidth = Some fw -> py_not use_corr = false ->
        num (Turbine.diam o) <> 0 ->
        1 + Turbine.ct o / 2 * fw / sqrt (3 * PI) / Turbine.diam o <> 0 ->
        Turbine.get_correction key_search_r true s =
          (Ok (Some (1 / (1 + Turbine.ct o / 2 * fw / sqrt (3 * PI) / Turbine.diam o))), s)
        /\ 1 / (1 + Turbine.ct o / 2 * fw / sqrt (3 * PI) / Turbine.diam o)
           = get_correction (Turbine.ct o) fw (Turbine.diam o)).
Proof.
  intros o fwidth use_corr. subst o fwidth use_corr.
  rewrite get_correction_value. cbn zeta.
  split.
  - intros [H | H].
    + rewrite H. reflexivity.
    + rewrite H. destruct (key_search_r _ "filterwidth"); reflexivity.
  - intros fw Hfw Huse _ _. rewrite Hfw, Huse. split; reflexivity.
Qed.

(** *** Rotor-equivalent wind speed *)

(** What [Turbine.get_REWS] computes: the call of [get_correction()] on
    the way neither fails nor changes the object. *)
Lemma get_REWS_value (s : state) (ufield : Array3) (kernel : option Array3) :
  Turbine.get_REWS key_search_r ufield kernel s =
  if Turbine.is_none (Turbine.kernel (Turbine.self s)) && Turbine.is_none kernel
  then (Raise (ValueError "Turbine.get_REWS(): No kernel found"), s)
  else (get_REWS ufield (Turbine.kernel (Turbine.self s)) (Turbine.M (Turbine.self s)), s).
Proof.
  unfold Turbine.get_REWS. run.
  destruct (Turbine.is_none (Turbine.kernel (Turbine.self s)) && Turbine.is_none kernel);
    [reflexivity |].
  destruct (Turbine.is_none (Turbine.M (Turbine.self s))).
  - rewrite get_correction_value. reflexivity.
  - reflexivity.
Qed.

(** C1: on a turbine that holds a kernel and whose [M] is still [None],
    [Turbine.get_REWS(ufield)] calls [get_correction()] with its default
    [return_correction=True], which returns the factor without storing it:
    [self.M] is [None] after the call as before, and the product with
    [None] raises, so no wind speed is returned. *)
Theorem get_REWS_never_caches_M (s : state) (ufield K : Array3) :
  Turbine.kernel (Turbine.self s) = Some K ->
  Turbine.M (Turbine.self s) = None ->
  Turbine.get_REWS key_search_r ufield None s =
    (match np_mul ufield K with
     | Ok _ => Raise TypeError
     | Raise e => Raise e
     end, s)
  /\ Turbine.M (Turbine.self (snd (Turbine.get_REWS key_search_r ufield None s))) = None.
Proof.
  intros HK HM. rewrite get_REWS_value, HK, HM. cbn.
  split; [| exact HM].
  destruct (np_mul ufield K); reflexivity.
Qed.

(** The guard of [Turbine.get_REWS]: the "No kernel found" error is raised
    exactly when neither a cached nor an explicit kernel is there. *)
Lemma get_REWS_missing_kernel_iff (s : state) (ufield : Array3) (kernel : option Array3) :
  fst (Turbine.get_REWS key_search_r ufield kernel s)
    = Raise (ValueError "Turbine.get_REWS(): No kernel found")
  <-> Turbine.kernel (Turbine.self s) = None /\ kernel = None.
Proof.
  rewrite get_REWS_value.
  destruct (Turbine.kernel (Turbine.self s)) as [K |], kernel as [K' |]; cbn.
  - split; [| intros [H _]; discriminate].
    destruct (np_mul ufield K) eqn:E; cbn; [destruct (Turbine.M _); discriminate |].
    apply np_mul_raise in E. subst e. discriminate.
  - split; [| intros [H _]; discriminate].
    destruct (np_mul ufield K) eqn:E; cbn; [destruct (Turbine.M _); discriminate |].
    apply np_mul_raise in E. subst e. discriminate.
  - split; [| intros [_ H]; discriminate].
    unfold get_REWS.
    destruct (size ufield); [destruct (Turbine.M _) |]; discriminate.
  - split; auto.
Qed.

(** C2: with no cached kernel, an explicit kernel passes the guard of
    [Turbine.get_REWS] and is then dropped: the weighted sum is taken with
    [self.kernel], which is [None], and on a wind field with at least one
    node the call raises a [TypeError] whatever kernel was supplied. *)
Theorem get_REWS_ignores_explicit_kernel (s : state) (ufield K : Array3) :
  Turbine.kernel (Turbine.self s) = None ->
  (0 < size ufield)%nat ->
  Turbine.get_REWS key_search_r ufield (Some K) s = (Raise TypeError, s).
Proof.
  intros HK Hnode. rewrite get_REWS_value, HK. cbn [Turbine.is_none andb].
  unfold get_REWS. destruct (size ufield); [lia | reflexivity].
Qed.

(** *** Kernel requests: cache and kernel family *)

Lemma get_kernel_cached (s : state) (x y z : Axis) (ADM_type : Z)
      (fwidth : option R) (buffer_fact : R) (return_kernel normalize : bool)
      (K : Array3) :
  Turbine.kernel (Turbine.self s) = Some K ->
  Turbine.get_kernel key_search_r get_xids x y z ADM_type fwidth buffer_fact
                     return_kernel normalize false s
  = (Ok (if return_kernel then Some K else None), s).
Proof.
  intros HK. unfold Turbine.get_kernel. run. rewrite HK. cbn.
  destruct return_kernel; reflexivity.
Qed.

(** Past the cache guard, a kernel family other than 5 is refused. *)
Lemma get_kernel_other_type (s : state) (x y z : Axis) (ADM_type : Z)
      (fwidth : option R) (buffer_fact : R)
      (return_kernel normalize overwrite : bool) :
  ADM_type <> 5%Z ->
  Turbine.kernel (Turbine.self s) = None \/ overwrite = true ->
  Turbine.get_kernel key_search_r get_xids x y z ADM_type fwidth buffer_fact
                     return_kernel normalize overwrite s
  = (Raise (ValueError
       "Turbine.get_kernel(): No other ADM types are currently set up"), s).
Proof.
  intros HA Hsynth. apply Z.eqb_neq in HA.
  unfold Turbine.get_kernel. run. rewrite HA.
  destruct Hsynth as [-> | ->]; [reflexivity |].
  rewrite andb_false_r. reflexivity.
Qed.

(** C3, as the code has it: a request for a kernel family other than 5
    raises the "No other ADM types" error when it reaches the synthesis,
    that is when no kernel is cached or [overwrite] is set; on a turbine that
    holds a kernel and without [overwrite] the request returns at the cache
    guard, whatever [ADM_type] is. *)
Theorem get_kernel_unsupported_type (s : state) (x y z : Axis) (ADM_type : Z)
        (fwidth : option R) (buffer_fact : R)
        (return_kernel normalize overwrite : bool) :
  ADM_type <> 5%Z ->
  Turbine.get_kernel key_search_r get_xids x y z ADM_type fwidth buffer_fact
                     return_kernel normalize overwrite s
  = match Turbine.kernel (Turbine.self s), overwrite with
    | Some K, false => (Ok (if return_kernel then Some K else None), s)
    | _, _ => (Raise (ValueError
                 "Turbine.get_kernel(): No other ADM types are currently set up"), s)
    end.
Proof.
  intros HA. apply Z.eqb_neq in HA.
  unfold Turbine.get_kernel. run. rewrite HA.
  destruct (Turbine.kernel (Turbine.self s)), overwrite, return_kernel; reflexivity.
Qed.

(** *** Sort key *)

Lemma init_sort_independent (nml : Nml) (n : Z) (verbose : bool) (sort sort' : string)
      (o : Turbine.t Nml) :
  Turbine.__init__ key_search_r nml n verbose sort = Ok o ->
  Turbine.__init__ key_search_r nml n verbose sort' = Ok (Turbine.set_sort_by sort' o).
Proof.
  unfold Turbine.__init__, Turbine.required.
  destruct (key_search_r nml "xloc"); cbn; [| discriminate].
  destruct (key_search_r nml "yloc"); cbn; [| discriminate].
  destruct (key_search_r nml "zloc"); cbn; [| discriminate].
  destruct (key_search_r nml "ct"); cbn; [| discriminate].
  destruct (key_search_r nml "diam"); cbn; [| discriminate].
  intros H. injection H as <-. reflexivity.
Qed.

(** C5: [set_sort] refuses a name that is not an attribute, but the
    constructor stores its [sort] argument unchecked: a construction that
    succeeds does so with any [sort], the name ends up in [sort_by], and
    when it names no attribute the error comes from the comparison, as a
    [KeyError]. *)
Theorem init_stores_sort_unchecked
        (py_lt : Turbine.pyobj Nml -> Turbine.pyobj Nml -> result bool)
        (nml : Nml) (n : Z) (verbose : bool) (sort : string)
        (o other : Turbine.t Nml) (calls : nat) :
  Turbine.__init__ key_search_r nml n verbose sort = Ok o ->
  Turbine.dict_in sort (Turbine.__dict__ o) = false ->
  Turbine.sort_by o = sort
  /\ Turbine.set_sort sort (Turbine.mkState o calls)
     = (Raise (ValueError
          "Turbine.set_sort(): given variable does not exist for the turbine object"),
        Turbine.mkState o calls)
  /\ Turbine.__lt__ py_lt o other = Raise (KeyError sort).
Proof.
  intros Hinit Hin.
  assert (Hs : Turbine.sort_by o = sort).
  { revert Hinit. unfold Turbine.__init__, Turbine.required.
    destruct (key_search_r nml "xloc"); cbn; [| discriminate].
    destruct (key_search_r nml "yloc"); cbn; [| discriminate].
    destruct (key_search_r nml "zloc"); cbn; [| discriminate].
    destruct (key_search_r nml "ct"); cbn; [| discriminate].
    destruct (key_search_r nml "diam"); cbn; [| discriminate].
    intros H. injection H as <-. reflexivity. }
  split; [exact Hs |]. split.
  - unfold Turbine.set_sort. run. rewrite Hin. reflexivity.
  - unfold Turbine.__lt__. rewrite Hs.
    destruct (String.eqb sort "xloc") eqn:E.
    + apply String.eqb_eq in E. rewrite E in Hin.
      unfold Turbine.dict_in in Hin. cbn in Hin. discriminate.
    + unfold Turbine.getitem. unfold Turbine.dict_in in Hin.
      destruct (Turbine.dict_get (Turbine.__dict__ o) sort); [discriminate | reflexivity].
Qed.

(** *** Control points *)

Lemma rotate_missing_yaw (s : state) (xc yc zc : list R) :
  Turbine.yaw (Turbine.self s) = None ->
  Turbine._rotate_ctrl_pts xc yc zc s = (Raise (AttributeError "yaw"), s).
Proof.
  intros Hyaw. unfold Turbine._rotate_ctrl_pts. run. rewrite Hyaw. reflexivity.
Qed.

(** With both angles exactly zero the rotation hands the three arrays
    back untouched. *)
Lemma rotate_identity (s : state) (xc yc zc : list R) (yaw tilt : value) :
  Turbine.yaw (Turbine.self s) = Some yaw ->
  Turbine.tilt (Turbine.self s) = Some tilt ->
  num yaw = 0 -> num tilt = 0 ->
  Turbine._rotate_ctrl_pts xc yc zc s = (Ok (xc, yc, zc), s).
Proof.
  intros Hyaw Htilt Hy Ht. unfold Turbine._rotate_ctrl_pts. run.
  rewrite Hyaw. cbn. rewrite (Reqb_true _ _ Hy), Htilt. cbn.
  rewrite (Reqb_true _ _ Ht). reflexivity.
Qed.

Lemma rotate_lengths (s s' : state) (xc yc zc xc' yc' zc' : list R) :
  Turbine._rotate_ctrl_pts xc yc zc s = (Ok (xc', yc', zc'), s') ->
  length yc = length xc -> length zc = length xc ->
  s' = s /\ length xc' = length xc /\ length yc' = length xc /\ length zc' = length xc.
Proof.
  unfold Turbine._rotate_ctrl_pts. run. intros H Hy Hz.
  destruct (Turbine.yaw (Turbine.self s)) as [yaw |]; cbn in H; [| discriminate].
  destruct (Turbine.tilt (Turbine.self s)) as [tilt |]; cbn in H.
  - destruct (Reqb yaw 0); cbn in H; [destruct (Reqb tilt 0); cbn in H |];
      injection H as <- <- <- <-;
      rewrite ?length_zip_with; rewrite ?length_zip_with; auto.
  - destruct (Reqb yaw 0); cbn in H; discriminate.
Qed.

Lemma rotate_total (s : state) (xc yc zc : list R) (yaw tilt : value) :
  Turbine.yaw (Turbine.self s) = Some yaw ->
  Turbine.tilt (Turbine.self s) = Some tilt ->
  exists pts, Turbine._rotate_ctrl_pts xc yc zc s = (Ok pts, s).
Proof.
  intros Hyaw Htilt. unfold Turbine._rotate_ctrl_pts. run.
  rewrite Hyaw, Htilt. cbn.
  destruct (Reqb yaw 0); cbn; [destruct (Reqb tilt 0); cbn |]; eexists; reflexivity.
Qed.

(** [_get_ctrl_pts] on axes with a spacing: count the call, build the
    masked lattice around the centre, rotate. *)
Lemma get_ctrl_pts_unfold (s : state) (x y z : Axis) (dx dy dz : R) :
  Turbine.spacing x = Ok dx -> Turbine.spacing y = Ok dy -> Turbine.spacing z = Ok dz ->
  Turbine._get_ctrl_pts x y z s =
  let o := Turbine.self s in
  let R0 := Turbine.diam o / 2 in
  let ys := Turbine.lattice_axis R0 dy in
  let zs := Turbine.lattice_axis R0 dz in
  let mask := Turbine.disk_mask R0 (Turbine.yravel ys zs) (Turbine.zravel ys zs) in
  Turbine._rotate_ctrl_pts
    (map (fun v => v + Turbine.xloc o) (repeat 0 (count_true mask)))
    (map (fun v => v + Turbine.yloc o) (select mask (Turbine.yravel ys zs)))
    (map (fun v => v + Turbine.zloc o) (select mask (Turbine.zravel ys zs)))
    (Turbine.ticked s).
Proof.
  intros Hx Hy Hz. unfold Turbine._get_ctrl_pts. run.
  rewrite Hx, Hy, Hz. reflexivity.
Qed.

Lemma get_ctrl_pts_nonempty (s s' : state) (x y z : Axis) (xc yc zc : list R) :
  0 < Turbine.diam (Turbine.self s) ->
  grid_axis x -> grid_axis y -> grid_axis z ->
  Turbine._get_ctrl_pts x y z s = (Ok (xc, yc, zc), s') ->
  s' = Turbine.ticked s /\ xc <> [] /\ length yc = length xc /\ length zc = length xc.
Proof.
  intros Hd Gx Gy Gz.
  destruct (spacing_grid_axis x Gx) as (dx & Hx & Hdx).
  destruct (spacing_grid_axis y Gy) as (dy & Hy & Hdy).
  destruct (spacing_grid_axis z Gz) as (dz & Hz & Hdz).
  rewrite (get_ctrl_pts_unfold s x y z dx dy dz Hx Hy Hz). cbn zeta.
  intros H. apply rotate_lengths in H.
  - destruct H as (-> & Hxc & Hyc & Hzc).
    rewrite length_map, repeat_length in Hxc, Hyc, Hzc.
    split; [reflexivity |]. split; [| lia].
    intros ->. cbn in Hxc.
    assert (0 < count_true
              (Turbine.disk_mask (Turbine.diam (Turbine.self s) / 2)
                 (Turbine.yravel (Turbine.lattice_axis (Turbine.diam (Turbine.self s) / 2) dy)
                                 (Turbine.lattice_axis (Turbine.diam (Turbine.self s) / 2) dz))
                 (Turbine.zravel (Turbine.lattice_axis (Turbine.diam (Turbine.self s) / 2) dy)
                                 (Turbine.lattice_axis (Turbine.diam (Turbine.self s) / 2) dz))))%nat
      by (apply count_true_pos, disk_mask_centre; lra).
    lia.
  - rewrite !length_map, repeat_length. apply length_select, length_disk_mask.
  - rewrite !length_map, repeat_length. apply length_select.
    rewrite length_disk_mask. apply length_ravel.
Qed.

Lemma get_ctrl_pts_total (s : state) (x y z : Axis) (yaw tilt : value) :
  grid_axis x -> grid_axis y -> grid_axis z ->
  Turbine.yaw (Turbine.self s) = Some yaw ->
  Turbine.tilt (Turbine.self s) = Some tilt ->
  exists pts, Turbine._get_ctrl_pts x y z s = (Ok pts, Turbine.ticked s).
Proof.
  intros Gx Gy Gz Hyaw Htilt.
  destruct (spacing_grid_axis x Gx) as (dx & Hx & Hdx).
  destruct (spacing_grid_axis y Gy) as (dy & Hy & Hdy).
  destruct (spacing_grid_axis z Gz) as (dz & Hz & Hdz).
  rewrite (get_ctrl_pts_unfold s x y z dx dy dz Hx Hy Hz). cbn zeta.
  apply (rotate_total (Turbine.ticked s) _ _ _ yaw tilt); assumption.
Qed.

(** C10: for a turbine with [diam > 0] on strictly increasing axes, the
    lattice of [_get_ctrl_pts] holds the centre offset [(0, 0)], which
    passes the strict filter [0 < R^2]; so whenever [_get_ctrl_pts] returns
    control points there is at least one of them, in three arrays of one
    length, and it does return them when the [yaw] and [tilt] that the
    rotation reads are there. *)
Theorem ctrl_pts_nonempty (s : state) (x y z : Axis) :
  0 < Turbine.diam (Turbine.self s) ->
  grid_axis x -> grid_axis y -> grid_axis z ->
  (exists dy dz,
      Turbine.spacing y = Ok dy /\ Turbine.spacing z = Ok dz /\
      let R0 := Turbine.diam (Turbine.self s) / 2 in
      let ys := Turbine.lattice_axis R0 dy in
      let zs := Turbine.lattice_axis R0 dz in
      In 0 ys /\ In 0 zs /\ Rltb (0 ^ 2 + 0 ^ 2) (R0 ^ 2) = true /\
      (0 < count_true (Turbine.disk_mask R0 (Turbine.yravel ys zs)
                                         (Turbine.zravel ys zs)))%nat)
  /\ (forall xc yc zc s',
         Turbine._get_ctrl_pts x y z s = (Ok (xc, yc, zc), s') ->
         xc <> [] /\ length yc = length xc /\ length zc = length xc)
  /\ (forall yaw tilt,
         Turbine.yaw (Turbine.self s) = Some yaw ->
         Turbine.tilt (Turbine.self s) = Some tilt ->
         exists xc yc zc,
           Turbine._get_ctrl_pts x y z s = (Ok (xc, yc, zc), Turbine.ticked s) /\ xc <> []).
Proof.
  intros Hd Gx Gy Gz. split; [| split].
  - destruct (spacing_grid_axis y Gy) as (dy & Hy & Hdy).
    destruct (spacing_grid_axis z Gz) as (dz & Hz & Hdz).
    exists dy, dz. cbn zeta. repeat split; try assumption.
    + apply lattice_axis_zero; lra.
    + apply lattice_axis_zero; lra.
    + apply Rltb_true. nra.
    + apply count_true_pos, disk_mask_centre; lra.
  - intros xc yc zc s' H.
    destruct (get_ctrl_pts_nonempty s s' x y z xc yc zc Hd Gx Gy Gz H)
      as (_ & Hne & Hy & Hz).
    auto.
  - intros yaw tilt Hyaw Htilt.
    destruct (get_ctrl_pts_total s x y z yaw tilt Gx Gy Gz Hyaw Htilt)
      as ([[xc yc] zc] & H).
    exists xc, yc, zc. split; [exact H |].
    destruct (get_ctrl_pts_nonempty s _ x y z xc yc zc Hd Gx Gy Gz H)
      as (_ & Hne & _).
    exact Hne.
Qed.

(** C4: a namelist without [yaw] builds a turbine on which the attribute
    does not exist, and the rotation step reads [self.yaw] all the same:
    [_rotate_ctrl_pts], [_get_ctrl_pts] and a kernel request of type 5 all
    raise [AttributeError] instead of behaving as with [yaw = 0]. *)
Theorem omitted_yaw_raises (nml : Nml) (n : Z) (verbose : bool) (sort : string)
        (o : Turbine.t Nml) (calls : nat) (x y z : Axis) :
  key_search_r nml "yaw" = None ->
  Turbine.__init__ key_search_r nml n verbose sort = Ok o ->
  grid_axis x -> grid_axis y -> grid_axis z ->
  Turbine.yaw o = None
  /\ (forall xc yc zc,
         Turbine._rotate_ctrl_pts xc yc zc (Turbine.mkState o calls)
         = (Raise (AttributeError "yaw"), Turbine.mkState o calls))
  /\ Turbine._get_ctrl_pts x y z (Turbine.mkState o calls)
     = (Raise (AttributeError "yaw"), Turbine.mkState o (S calls))
  /\ (forall fw buffer_fact return_kernel normalize overwrite,
         Turbine.get_kernel key_search_r get_xids x y z 5 (Some fw) buffer_fact
                            return_kernel normalize overwrite (Turbine.mkState o calls)
         = (Raise (AttributeError "yaw"), Turbine.mkState o (S calls))).
Proof.
  intros Hnml Hinit Gx Gy Gz.
  assert (Hyaw : Turbine.yaw o = None /\ Turbine.kernel o = None).
  { revert Hinit. unfold Turbine.__init__, Turbine.required.
    destruct (key_search_r nml "xloc"); cbn; [| discriminate].
    destruct (key_search_r nml "yloc"); cbn; [| discriminate].
    destruct (key_search_r nml "zloc"); cbn; [| discriminate].
    destruct (key_search_r nml "ct"); cbn; [| discriminate].
    destruct (key_search_r nml "diam"); cbn; [| discriminate].
    intros H. injection H as <-. cbn. auto. }
  destruct Hyaw as [Hyaw Hker].
  assert (Hctrl : Turbine._get_ctrl_pts x y z (Turbine.mkState o calls)
                  = (Raise (AttributeError "yaw"), Turbine.mkState o (S calls))).
  { destruct (spacing_grid_axis x Gx) as (dx & Hx & Hdx).
    destruct (spacing_grid_axis y Gy) as (dy & Hy & Hdy).
    destruct (spacing_grid_axis z Gz) as (dz & Hz & Hdz).
    rewrite (get_ctrl_pts_unfold _ x y z dx dy dz Hx Hy Hz). cbn zeta.
    apply rotate_missing_yaw. exact Hyaw. }
  split; [exact Hyaw |]. split; [| split].
  - intros xc yc zc. apply rotate_missing_yaw. exact Hyaw.
  - exact Hctrl.
  - intros fw buffer_fact return_kernel normalize overwrite.
    unfold Turbine.get_kernel, Turbine.accumulate, Turbine.resolve_fwidth. run.
    rewrite Hker. cbn [Turbine.is_none negb andb Z.eqb Pos.eqb].
    rewrite Hctrl. reflexivity.
Qed.

(** *** Kernel synthesis *)

(** The methods below read the object and leave it alone: their result is
    the one computed on the object alone, and the only trace left on the
    state is the count of [_get_ctrl_pts]. *)
Lemma rotate_reader (s : state) (xc yc zc : list R) :
  Turbine._rotate_ctrl_pts xc yc zc s
  = (fst (Turbine._rotate_ctrl_pts xc yc zc (Turbine.mkState (Turbine.self s) 0)), s).
Proof.
  unfold Turbine._rotate_ctrl_pts. run.
  destruct (Turbine.yaw (Turbine.self s)) as [yaw |]; cbn; [| reflexivity].
  destruct (Turbine.tilt (Turbine.self s)) as [tilt |]; cbn.
  - destruct (Reqb yaw 0); cbn; [destruct (Reqb tilt 0); cbn |]; reflexivity.
  - destruct (Reqb yaw 0); cbn; reflexivity.
Qed.

Lemma get_ctrl_pts_reader (s : state) (x y z : Axis) :
  Turbine._get_ctrl_pts x y z s
  = (fst (Turbine._get_ctrl_pts x y z (Turbine.mkState (Turbine.self s) 0)),
     Turbine.ticked s).
Proof.
  unfold Turbine._get_ctrl_pts. run.
  destruct (Turbine.spacing x); [| reflexivity].
  destruct (Turbine.spacing y); [| reflexivity].
  destruct (Turbine.spacing z); [| reflexivity].
  rewrite rotate_reader. rewrite (rotate_reader (Turbine.ticked (Turbine.mkState _ _))).
  reflexivity.
Qed.

Lemma accumulate_reader (s : state) (x y z : Axis) (fw buffer_fact : R) :
  Turbine.accumulate get_xids x y z fw buffer_fact s
  = (fst (Turbine.accumulate get_xids x y z fw buffer_fact
            (Turbine.mkState (Turbine.self s) 0)),
     Turbine.ticked s).
Proof.
  unfold Turbine.accumulate. run.
  rewrite (get_ctrl_pts_reader s).
  rewrite (get_ctrl_pts_reader (Turbine.mkState (Turbine.self s) 0)).
  cbn [Turbine.self].
  destruct (fst (Turbine._get_ctrl_pts x y z (Turbine.mkState (Turbine.self s) 0)))
    as [[[xcs ycs] zcs] | e]; [| reflexivity].
  cbn beta iota zeta delta [fst].
  destruct (Turbine.normalising_constant fw); [| reflexivity].
  destruct (py_min xcs); [| reflexivity].
  destruct (py_max xcs); [| reflexivity].
  destruct (py_min ycs); [| reflexivity].
  destruct (py_max ycs); [| reflexivity].
  destruct (py_min zcs); [| reflexivity].
  destruct (py_max zcs); reflexivity.
Qed.

Lemma resolve_fwidth_reader (s : state) (fwidth : option R) :
  Turbine.resolve_fwidth key_search_r fwidth s
  = (fst (Turbine.resolve_fwidth key_search_r fwidth
            (Turbine.mkState (Turbine.self s) 0)), s).
Proof.
  unfold Turbine.resolve_fwidth. run.
  destruct fwidth; [reflexivity |].
  destruct (key_search_r _ "filterwidth"); reflexivity.
Qed.

(** What a request that reaches the synthesis computes: the accumulated
    field of the object, normalised, then returned or stored. *)
Lemma get_kernel_synth (s : state) (x y z : Axis) (fwidth : option R)
      (buffer_fact : R) (return_kernel normalize overwrite : bool) :
  Turbine.kernel (Turbine.self s) = None \/ overwrite = true ->
  Turbine.get_kernel key_search_r get_xids x y z 5 fwidth buffer_fact
                     return_kernel normalize overwrite s
  = match fst (Turbine.resolve_fwidth key_search_r fwidth
                 (Turbine.mkState (Turbine.self s) 0)) with
    | Raise e => (Raise e, s)
    | Ok fw =>
        match fst (Turbine.accumulate get_xids x y z fw buffer_fact
                     (Turbine.mkState (Turbine.self s) 0)) with
        | Raise e => (Raise e, Turbine.ticked s)
        | Ok K0 =>
            match Turbine.normalise normalize x y z K0 with
            | Raise e => (Raise e, Turbine.ticked s)
            | Ok K =>
                if return_kernel then (Ok (Some K), Turbine.ticked s)
                else (Ok None,
                      Turbine.mkState (Turbine.set_kernel K (Turbine.self s))
                                      (S (Turbine.ctrl_pts_calls s)))
            end
        end
    end.
Proof.
  intros Hsynth. unfold Turbine.get_kernel. run.
  assert (E : negb (Turbine.is_none (Turbine.kernel (Turbine.self s))) && negb overwrite
              = false).
  { destruct Hsynth as [-> | ->]; [reflexivity | apply andb_false_r]. }
  rewrite E. cbn [Z.eqb Pos.eqb].
  rewrite (resolve_fwidth_reader s).
  destruct (fst (Turbine.resolve_fwidth key_search_r fwidth _)) as [fw | e];
    [| reflexivity].
  rewrite (accumulate_reader s).
  destruct (fst (Turbine.accumulate get_xids x y z fw buffer_fact _)) as [K0 | e];
    [| reflexivity].
  destruct (Turbine.normalise normalize x y z K0) as [K | e]; [| reflexivity].
  destruct return_kernel; reflexivity.
Qed.

Lemma normalising_constant_ok (fw : R) :
  fw <> 0 -> Turbine.normalising_constant fw = Ok (Rpower (6 / PI / fw ^ 2) 1.5).
Proof.
  intros H. unfold Turbine.normalising_constant.
  rewrite Reqb_false; [reflexivity |].
  apply pow_nonzero. exact H.
Qed.

(** The accumulation succeeds on a turbine with [diam > 0], [yaw] and
    [tilt], over grid axes and with a filter width that is not zero: there
    are control points, so [min] and [max] have something to range over. *)
Lemma accumulate_ok (s : state) (x y z : Axis) (fw buffer_fact : R) (yaw tilt : value) :
  fw <> 0 ->
  0 < Turbine.diam (Turbine.self s) ->
  grid_axis x -> grid_axis y -> grid_axis z ->
  Turbine.yaw (Turbine.self s) = Some yaw ->
  Turbine.tilt (Turbine.self s) = Some tilt ->
  exists K1,
    Turbine.accumulate get_xids x y z fw buffer_fact s
    = (Ok (map3 Turbine.floor_small K1), Turbine.ticked s).
Proof.
  intros Hfw Hd Gx Gy Gz Hyaw Htilt.
  destruct (get_ctrl_pts_total s x y z yaw tilt Gx Gy Gz Hyaw Htilt)
    as ([[xcs ycs] zcs] & H).
  destruct (get_ctrl_pts_nonempty s _ x y z xcs ycs zcs Hd Gx Gy Gz H)
    as (_ & Hne & Hy & Hz).
  unfold Turbine.accumulate. run. rewrite H, (normalising_constant_ok fw Hfw).
  destruct xcs as [| xc0 xcs]; [contradiction |].
  destruct ycs as [| yc0 ycs]; [discriminate |].
  destruct zcs as [| zc0 zcs]; [discriminate |].
  cbn [py_min py_max]. eexists. reflexivity.
Qed.

Lemma normalise_sum (x y z : Axis) (K0 : Array3) :
  grid_axis x -> grid_axis y -> grid_axis z ->
  Turbine.normalise true x y z K0 = Ok (map3 (fun v => v / sum3 K0) K0).
Proof.
  intros Gx Gy Gz.
  destruct (spacing_grid_axis x Gx) as (dx & Hx & _).
  destruct (spacing_grid_axis y Gy) as (dy & Hy & _).
  destruct (spacing_grid_axis z Gz) as (dz & Hz & _).
  unfold Turbine.normalise. rewrite Hx, Hy, Hz. reflexivity.
Qed.

(** C7, as the code has it: when the request reaches the synthesis (no
    kernel cached, or [overwrite]) on a turbine with [diam > 0], [yaw],
    [tilt] and a filter width other than zero, over strictly increasing
    axes, the field of accumulated Gaussians is produced and floored; if at
    least one of its nodes reaches the floor of [1e-10], the kernel
    returned, and likewise the kernel stored, with [normalize=True] sums to
    exactly 1. *)
Theorem normalised_kernel_sums_to_one (s : state) (x y z : Axis)
        (fwidth : option R) (fw buffer_fact : R) (overwrite : bool) (yaw tilt : value) :
  0 < Turbine.diam (Turbine.self s) ->
  grid_axis x -> grid_axis y -> grid_axis z ->
  Turbine.yaw (Turbine.self s) = Some yaw ->
  Turbine.tilt (Turbine.self s) = Some tilt ->
  Turbine.resolve_fwidth key_search_r fwidth s = (Ok fw, s) ->
  fw <> 0 ->
  Turbine.kernel (Turbine.self s) = None \/ overwrite = true ->
  exists K1,
    Turbine.accumulate get_xids x y z fw buffer_fact s
    = (Ok (map3 Turbine.floor_small K1), Turbine.ticked s)
    /\ ((exists plane row v,
            In plane K1 /\ In row plane /\ In v row /\ 1e-10 <= v) ->
        exists K,
          Turbine.get_kernel key_search_r get_xids x y z 5 fwidth buffer_fact
                             true true overwrite s
          = (Ok (Some K), Turbine.ticked s)
          /\ Turbine.kernel (Turbine.self (snd
               (Turbine.get_kernel key_search_r get_xids x y z 5 fwidth buffer_fact
                                   false true overwrite s))) = Some K
          /\ sum3 K = 1).
Proof.
  intros Hd Gx Gy Gz Hyaw Htilt Hfw Hfw0 Hsynth.
  destruct (accumulate_ok s x y z fw buffer_fact yaw tilt Hfw0 Hd Gx Gy Gz Hyaw Htilt)
    as (K1 & Hacc).
  exists K1. split; [exact Hacc |].
  intros Hnode. apply sum3_floor_nonzero in Hnode.
  exists (map3 (fun v => v / sum3 (map3 Turbine.floor_small K1))
               (map3 Turbine.floor_small K1)).
  rewrite !get_kernel_synth by exact Hsynth.
  rewrite resolve_fwidth_reader in Hfw. injection Hfw as Hfw. rewrite Hfw.
  rewrite accumulate_reader in Hacc. injection Hacc as Hacc. rewrite Hacc.
  rewrite normalise_sum by assumption.
  split; [reflexivity |]. split; [reflexivity |].
  rewrite sum3_scale. field. exact Hnode.
Qed.

(** C6, as the code has it.  A storing request ([return_kernel=False]) that
    succeeds leaves a kernel on the object after at most one synthesis, and
    the same request again is served from the cache: no call of
    [_get_ctrl_pts], no change of the object, and the stored kernel is what
    a returning request then hands out.  A returning request
    ([return_kernel=True]) on a turbine without a kernel stores nothing:
    when it succeeds the object is as before, and repeating it synthesises
    once more and returns the same values. *)
Theorem get_kernel_twice (s : state) (x y z : Axis) (ADM_type : Z)
        (fwidth : option R) (buffer_fact : R) (normalize : bool) :
  (forall r1 s1,
      Turbine.get_kernel key_search_r get_xids x y z ADM_type fwidth buffer_fact
                         false normalize false s = (Ok r1, s1) ->
      r1 = None
      /\ (Turbine.ctrl_pts_calls s1 <= S (Turbine.ctrl_pts_calls s))%nat
      /\ exists K,
          Turbine.kernel (Turbine.self s1) = Some K
          /\ Turbine.get_kernel key_search_r get_xids x y z ADM_type fwidth buffer_fact
                                false normalize false s1 = (Ok None, s1)
          /\ Turbine.get_kernel key_search_r get_xids x y z ADM_type fwidth buffer_fact
                                true normalize false s1 = (Ok (Some K), s1))
  /\ (forall r1 s1,
         Turbine.kernel (Turbine.self s) = None ->
         Turbine.get_kernel key_search_r get_xids x y z ADM_type fwidth buffer_fact
                            true normalize false s = (Ok r1, s1) ->
         s1 = Turbine.ticked s
         /\ Turbine.get_kernel key_search_r get_xids x y z ADM_type fwidth buffer_fact
                               true normalize false s1 = (Ok r1, Turbine.ticked s1)).
Proof.
  split.
  - intros r1 s1 H.
    destruct (Turbine.kernel (Turbine.self s)) as [K |] eqn:HK.
    + rewrite (get_kernel_cached s x y z ADM_type fwidth buffer_fact false normalize K HK)
        in H.
      injection H as <- <-. split; [reflexivity |]. split; [lia |].
      exists K. split; [exact HK |].
      split.
      * exact (get_kernel_cached s x y z ADM_type fwidth buffer_fact false normalize K HK).
      * exact (get_kernel_cached s x y z ADM_type fwidth buffer_fact true normalize K HK).
    + destruct (Z.eq_dec ADM_type 5) as [-> | Hne].
      * rewrite get_kernel_synth in H by (left; exact HK).
        destruct (fst (Turbine.resolve_fwidth _ _ _)); [| discriminate].
        destruct (fst (Turbine.accumulate _ _ _ _ _ _ _)); [| discriminate].
        destruct (Turbine.normalise _ _ _ _ _) as [K |]; [| discriminate].
        injection H as <- <-. split; [reflexivity |]. split; [cbn; lia |].
        exists K. split; [reflexivity |].
        split.
        -- apply (get_kernel_cached _ x y z 5 fwidth buffer_fact false normalize K).
           reflexivity.
        -- apply (get_kernel_cached _ x y z 5 fwidth buffer_fact true normalize K).
           reflexivity.
      * rewrite get_kernel_other_type in H by (auto; left; exact HK).
        discriminate.
  - intros r1 s1 HK H.
    destruct (Z.eq_dec ADM_type 5) as [-> | Hne].
    + rewrite get_kernel_synth in H by (left; exact HK).
      destruct (fst (Turbine.resolve_fwidth _ _ (Turbine.mkState (Turbine.self s) 0)))
        as [fw |] eqn:Efw; [| discriminate].
      destruct (fst (Turbine.accumulate _ _ _ _ _ _ (Turbine.mkState (Turbine.self s) 0)))
        as [K0 |] eqn:Eacc; [| discriminate].
      destruct (Turbine.normalise _ _ _ _ _) as [K |] eqn:Enorm; [| discriminate].
      injection H as <- <-. split; [reflexivity |].
      rewrite get_kernel_synth by (left; exact HK).
      rewrite self_ticked, Efw, Eacc, Enorm. reflexivity.
    + rewrite get_kernel_other_type in H by (auto; left; exact HK).
      discriminate.
Qed.

(** *** A disk no wider than the grid spacing

    When the radius does not exceed the spacing, the lattice is the 3 x 3
    block around the centre and the centre is its only point inside the
    disk. *)

Lemma lattice_axis_coarse (R0 d : R) :
  0 < R0 -> R0 <= d -> Turbine.lattice_axis R0 d = [-1 * d; 0 * d; 1 * d].
Proof.
  intros HR Hd. unfold Turbine.lattice_axis.
  assert (E : Zceil (R0 / d) = 1%Z).
  { apply Zceil_eq.
    assert (0 < R0 / d) by (apply Rdiv_lt_0_compat; lra).
    assert (R0 / d <= 1).
    { apply (Rmult_le_reg_r d); [lra |].
      unfold Rdiv. rewrite Rmult_assoc, Rinv_l by lra. lra. }
    lra. }
  rewrite E. reflexivity.
Qed.

Lemma disk_mask_coarse (R0 dy dz : R) :
  0 < R0 -> R0 <= dy -> R0 <= dz ->
  Turbine.disk_mask R0
    (Turbine.yravel [-1 * dy; 0 * dy; 1 * dy] [-1 * dz; 0 * dz; 1 * dz])
    (Turbine.zravel [-1 * dy; 0 * dy; 1 * dy] [-1 * dz; 0 * dz; 1 * dz])
  = [false; false; false; false; true; false; false; false; false].
Proof.
  intros HR Hdy Hdz.
  assert (Hy2 : R0 * R0 <= dy * dy) by nra.
  assert (Hz2 : R0 * R0 <= dz * dz) by nra.
  unfold Turbine.disk_mask, Turbine.yravel, Turbine.zravel.
  cbn [flat_map map app zip_with pow].
  repeat match goal with
         | |- context [Rltb ?a ?b] =>
             first [ rewrite (Rltb_true a b) by nra
                   | rewrite (Rltb_false a b) by nra ]
         end.
  reflexivity.
Qed.

Lemma get_ctrl_pts_single (s : state) (x y z : Axis) (dx dy dz : R) (yaw tilt : value) :
  Turbine.spacing x = Ok dx -> Turbine.spacing y = Ok dy -> Turbine.spacing z = Ok dz ->
  0 < Turbine.diam (Turbine.self s) ->
  Turbine.diam (Turbine.self s) / 2 <= dy ->
  Turbine.diam (Turbine.self s) / 2 <= dz ->
  Turbine.yaw (Turbine.self s) = Some yaw -> Turbine.tilt (Turbine.self s) = Some tilt ->
  num yaw = 0 -> num tilt = 0 ->
  Turbine._get_ctrl_pts x y z s
  = (Ok ([0 + Turbine.xloc (Turbine.self s)],
         [0 * dy + Turbine.yloc (Turbine.self s)],
         [0 * dz + Turbine.zloc (Turbine.self s)]),
     Turbine.ticked s).
Proof.
  intros Hx Hy Hz Hd Hdy Hdz Hyaw Htilt Hy0 Ht0.
  rewrite (get_ctrl_pts_unfold s x y z dx dy dz Hx Hy Hz). cbn zeta.
  rewrite !lattice_axis_coarse by lra.
  rewrite disk_mask_coarse by lra.
  apply (rotate_identity (Turbine.ticked s) _ _ _ yaw tilt); assumption.
Qed.

(** With a single control point the loop of [accumulate] runs once. *)
Lemma accumulate_single (s s' : state) (x y z : Axis) (fw buffer_fact a b c : R) :
  fw <> 0 ->
  Turbine._get_ctrl_pts x y z s = (Ok ([a], [b], [c]), s') ->
  Turbine.accumulate get_xids x y z fw buffer_fact s
  = (Ok (map3 Turbine.floor_small
           (Turbine.add_gaussian (Rpower (6 / PI / fw ^ 2) 1.5) fw x y z
              (get_xids x y z
                 (a - buffer_fact * fw, a + buffer_fact * fw)
                 (b - buffer_fact * fw, b + buffer_fact * fw)
                 (c - buffer_fact * fw, c + buffer_fact * fw))
              (Turbine.zeros (length x) (length y) (length z))
              (a, b, c))), s').
Proof.
  intros Hfw H. unfold Turbine.accumulate. run.
  rewrite H, (normalising_constant_ok fw Hfw). reflexivity.
Qed.

End Properties.

(** ** Bounds on the Gaussian of the example

    With [filterwidth = 0.2] the normalising constant
    [(6 / pi / 0.2^2)^1.5] lies between 1 and 2500, and a node at squared
    distance 3 from the control point sees [exp (-450)] of it. *)

Lemma filter_base_bounds : 1 <= 6 / PI / 0.2 ^ 2 <= 50.
Proof.
  pose proof PI_4 as H4. pose proof PI2_3_2 as H3.
  assert (E : 6 / PI / 0.2 ^ 2 = 150 / PI)
    by (replace 0.2 with (1 / 5) by lra; field; lra).
  rewrite E. split.
  - apply (Rmult_le_reg_r PI); [lra |].
    unfold Rdiv. rewrite Rmult_assoc, Rinv_l by lra. lra.
  - apply (Rmult_le_reg_r PI); [lra |].
    unfold Rdiv. rewrite Rmult_assoc, Rinv_l by lra. lra.
Qed.

Lemma constant_at_least_one : 1 <= Rpower (6 / PI / 0.2 ^ 2) 1.5.
Proof.
  destruct filter_base_bounds as [Hlo _].
  rewrite <- (Rpower_O (6 / PI / 0.2 ^ 2)) at 1 by lra.
  apply Rle_Rpower; lra.
Qed.

Lemma constant_at_most : Rpower (6 / PI / 0.2 ^ 2) 1.5 <= 2500.
Proof.
  destruct filter_base_bounds as [Hlo Hhi].
  apply Rle_trans with (Rpower (6 / PI / 0.2 ^ 2) 2).
  - apply Rle_Rpower; lra.
  - replace (Rpower (6 / PI / 0.2 ^ 2) 2) with (Rpower (6 / PI / 0.2 ^ 2) (INR 2))
      by (f_equal; cbn; lra).
    rewrite Rpower_pow by lra.
    apply Rle_trans with (50 ^ 2); [apply pow_incr; lra | lra].
Qed.

Lemma exp_nat_mult (k : nat) (x : R) : exp (INR k * x) = exp x ^ k.
Proof.
  induction k as [| k IH].
  - cbn. rewrite Rmult_0_l. apply exp_0.
  - rewrite S_INR, Rmult_plus_distr_r, Rmult_1_l, exp_plus, IH. cbn. ring.
Qed.

Lemma exp_450 : 46 ^ 10 <= exp 450.
Proof.
  replace 450 with (INR 10 * 45) by (cbn; lra).
  rewrite exp_nat_mult. apply pow_incr.
  pose proof (exp_ineq1_le 45). lra.
Qed.

Lemma gaussian_far (d2 : R) :
  d2 = 3 -> Rpower (6 / PI / 0.2 ^ 2) 1.5 * exp (- 6 / 0.2 ^ 2 * d2) < 1e-10.
Proof.
  intros ->.
  replace (- 6 / 0.2 ^ 2 * 3) with (Ropp 450)
    by (replace 0.2 with (1 / 5) by lra; field).
  rewrite exp_Ropp.
  pose proof constant_at_most as HC. pose proof constant_at_least_one as HC1.
  pose proof exp_450 as HE.
  assert (H46 : 25e12 < 46 ^ 10) by lra.
  assert (Hpos : 0 < exp 450) by apply exp_pos.
  apply (Rmult_lt_reg_r (exp 450)); [exact Hpos |].
  rewrite Rmult_assoc, Rinv_l by lra.
  nra.
Qed.

Lemma gaussian_near (d2 : R) :
  d2 = 0 -> 1e-10 <= 0 + Rpower (6 / PI / 0.2 ^ 2) 1.5 * exp (- 6 / 0.2 ^ 2 * d2).
Proof.
  intros ->. rewrite Rmult_0_r, exp_0.
  pose proof constant_at_least_one. lra.
Qed.

(** A node that receives less than the floor, or nothing, is zero after
    the floor. *)
Lemma floor_cell (inside : bool) (g : R) :
  g < 1e-10 -> Turbine.floor_small (if inside then 0 + g else 0) = 0.
Proof.
  intros H. apply floor_small_drops. destruct inside; lra.
Qed.

(** ** The example turbine on two-node axes *)

Lemma grid_axis_pair (a b : R) : a < b -> grid_axis [a; b].
Proof.
  intros H. split; [cbn; lia |].
  repeat constructor. exact H.
Qed.

Lemma example_resolve (c : R) (calls : nat) :
  Turbine.resolve_fwidth Example.key_search_r None
                         (Turbine.mkState (Example.fresh c) calls)
  = (Ok 0.2, Turbine.mkState (Example.fresh c) calls).
Proof. reflexivity. Qed.

(** One control point, the centre, on axes whose spacing is at least the
    radius. *)
Lemma example_ctrl_pts (c a b : R) (calls : nat) :
  1 / 2 <= b - a ->
  Turbine._get_ctrl_pts [a; b] [a; b] [a; b] (Turbine.mkState (Example.fresh c) calls)
  = (Ok ([0 + c], [0 * (b - a) + c], [0 * (b - a) + c]),
     Turbine.mkState (Example.fresh c) (S calls)).
Proof.
  intros H.
  apply (get_ctrl_pts_single (Turbine.mkState (Example.fresh c) calls)
           [a; b] [a; b] [a; b] (b - a) (b - a) (b - a) (VNum 0) (VNum 0));
    try reflexivity; cbn [Turbine.self Turbine.diam Example.fresh Example.turbine_of num];
    lra.
Qed.

(** On the unit grid the centre node receives the whole normalising
    constant, so the floored field has a positive total. *)
Lemma example_accumulate :
  exists K0,
    0 < sum3 K0
    /\ Turbine.accumulate Example.whole_grid
         Example.unit_axis Example.unit_axis Example.unit_axis 0.2 3
         (Turbine.mkState (Example.fresh 0) 0)
       = (Ok K0, Turbine.mkState (Example.fresh 0) 1).
Proof.
  unfold Example.unit_axis. eexists. split; cycle 1.
  - apply (accumulate_single Example.whole_grid _ _ _ _ _ 0.2 _ _ _ _
             ltac:(lra) (example_ctrl_pts 0 0 1 0 ltac:(lra))).
  - cbn [Turbine.add_gaussian Example.whole_grid Turbine.zeros repeat length
         imap imap_from map3 map in_slice fst snd Nat.leb Nat.ltb andb
         sum3 sum2 sum1 fold_right].
    rewrite (floor_small_keeps (0 + Turbine.gaussian _ _ _ _ _ _ 0 0 0)).
    + unfold Turbine.gaussian at 1. cbn [nth].
      repeat match goal with
             | |- context [Turbine.floor_small ?v] =>
                 pose proof (floor_small_nonneg v);
                 generalize dependent (Turbine.floor_small v); intros
             end.
      pose proof (gaussian_near
        ((0 - (0 + 0)) ^ 2 + (0 - (0 * (1 - 0) + 0)) ^ 2 + (0 - (0 * (1 - 0) + 0)) ^ 2)
        ltac:(cbn [pow]; lra)).
      lra.
    + unfold Turbine.gaussian. cbn [nth]. apply gaussian_near. cbn [pow]. lra.
Qed.

(** The kernel a request on the unit grid computes, returned or stored;
    each such request counts one more call of [_get_ctrl_pts]. *)
Lemma example_request :
  exists K,
    forall (return_kernel : bool) (calls : nat),
      Turbine.get_kernel Example.key_search_r Example.whole_grid
        Example.unit_axis Example.unit_axis Example.unit_axis 5 None 3
        return_kernel true false (Turbine.mkState (Example.fresh 0) calls)
      = if return_kernel
        then (Ok (Some K), Turbine.mkState (Example.fresh 0) (S calls))
        else (Ok None,
              Turbine.mkState (Turbine.set_kernel K (Example.fresh 0)) (S calls)).
Proof.
  destruct example_accumulate as (K0 & _ & Hacc).
  exists (map3 (fun v => v / sum3 K0) K0).
  intros return_kernel calls.
  rewrite get_kernel_synth by (left; reflexivity).
  cbn [Turbine.self]. rewrite example_resolve. cbn [fst].
  rewrite Hacc. cbn [fst].
  unfold Example.unit_axis.
  rewrite normalise_sum by (apply grid_axis_pair; lra).
  destruct return_kernel; reflexivity.
Qed.

(** ** The claims on the example turbine *)

(** C1 on a turbine holding a one-node kernel: the call raises and [M] is
    still unset. *)
Lemma get_REWS_never_caches_M_witness :
  Turbine.get_REWS Example.key_search_r (Example.one_node 3) None
                   (Turbine.mkState Example.with_kernel 0)
  = (Raise TypeError, Turbine.mkState Example.with_kernel 0)
  /\ Turbine.M (Turbine.self (snd
       (Turbine.get_REWS Example.key_search_r (Example.one_node 3) None
                         (Turbine.mkState Example.with_kernel 0)))) = None.
Proof.
  exact (get_REWS_never_caches_M Example.key_search_r
           (Turbine.mkState Example.with_kernel 0)
           (Example.one_node 3) (Example.one_node 1) eq_refl eq_refl).
Defined.

(** C2 on the freshly built turbine: the supplied kernel is not used. *)
Lemma get_REWS_ignores_explicit_kernel_witness :
  Turbine.get_REWS Example.key_search_r (Example.one_node 3)
                   (Some (Example.one_node 1))
                   (Turbine.mkState (Example.fresh 0) 0)
  = (Raise TypeError, Turbine.mkState (Example.fresh 0) 0).
Proof.
  exact (get_REWS_ignores_explicit_kernel Example.key_search_r
           (Turbine.mkState (Example.fresh 0) 0)
           (Example.one_node 3) (Example.one_node 1) eq_refl Nat.lt_0_1).
Defined.

(** C3 as stated fails: on a turbine that holds a kernel, a request for
    ADM type 4 without [overwrite] raises nothing; it returns [None], or the
    cached kernel when [return_kernel] is set. *)
Lemma cached_kernel_hides_unsupported_type :
  Turbine.get_kernel Example.key_search_r Example.whole_grid
    Example.unit_axis Example.unit_axis Example.unit_axis 4 None 3
    false true false (Turbine.mkState Example.with_kernel 0)
  = (Ok None, Turbine.mkState Example.with_kernel 0)
  /\ Turbine.get_kernel Example.key_search_r Example.whole_grid
       Example.unit_axis Example.unit_axis Example.unit_axis 4 None 3
       true true false (Turbine.mkState Example.with_kernel 0)
     = (Ok (Some (Example.one_node 1)), Turbine.mkState Example.with_kernel 0).
Proof.
  split.
  - exact (get_kernel_cached Example.key_search_r Example.whole_grid
             (Turbine.mkState Example.with_kernel 0) _ _ _ 4 None 3 false true
             (Example.one_node 1) eq_refl).
  - exact (get_kernel_cached Example.key_search_r Example.whole_grid
             (Turbine.mkState Example.with_kernel 0) _ _ _ 4 None 3 true true
             (Example.one_node 1) eq_refl).
Qed.

(** C3 on the freshly built turbine: ADM type 4 is refused. *)
Lemma get_kernel_unsupported_type_witness :
  Turbine.get_kernel Example.key_search_r Example.whole_grid
    Example.unit_axis Example.unit_axis Example.unit_axis 4 None 3
    false true false (Turbine.mkState (Example.fresh 0) 0)
  = (Raise (ValueError
       "Turbine.get_kernel(): No other ADM types are currently set up"),
     Turbine.mkState (Example.fresh 0) 0).
Proof.
  exact (get_kernel_unsupported_type Example.key_search_r Example.whole_grid
           (Turbine.mkState (Example.fresh 0) 0)
           Example.unit_axis Example.unit_axis Example.unit_axis 4 None 3
           false true false ltac:(discriminate)).
Defined.

(** C4 on the namelist without [yaw] and [tilt]: the construction
    succeeds, the control points cannot be made. *)
Lemma omitted_yaw_raises_witness :
  Turbine.__init__ Example.key_search_r Example.nml_unrotated (-1) false "xloc"
  = Ok Example.unrotated
  /\ Turbine._get_ctrl_pts Example.unit_axis Example.unit_axis Example.unit_axis
       (Turbine.mkState Example.unrotated 0)
     = (Raise (AttributeError "yaw"), Turbine.mkState Example.unrotated 1)
  /\ Turbine.get_kernel Example.key_search_r Example.whole_grid
       Example.unit_axis Example.unit_axis Example.unit_axis 5 (Some 0.2) 3
       false true false (Turbine.mkState Example.unrotated 0)
     = (Raise (AttributeError "yaw"), Turbine.mkState Example.unrotated 1).
Proof.
  split; [reflexivity |].
  destruct (omitted_yaw_raises Example.key_search_r Example.whole_grid
              Example.nml_unrotated (-1) false "xloc" Example.unrotated 0
              Example.unit_axis Example.unit_axis Example.unit_axis
              eq_refl eq_refl
              (grid_axis_pair 0 1 ltac:(lra)) (grid_axis_pair 0 1 ltac:(lra))
              (grid_axis_pair 0 1 ltac:(lra)))
    as (_ & _ & Hctrl & Hker).
  split; [exact Hctrl | apply Hker].
Defined.

(** C5 on the example namelist with [sort="bogus"]. *)
Lemma init_stores_sort_unchecked_witness :
  Turbine.__init__ Example.key_search_r (Example.nml_at 0) (-1) false "bogus"
  = Ok (Turbine.set_sort_by "bogus" (Example.fresh 0))
  /\ Turbine.sort_by (Turbine.set_sort_by "bogus" (Example.fresh 0)) = "bogus"%string
  /\ Turbine.set_sort "bogus"
       (Turbine.mkState (Turbine.set_sort_by "bogus" (Example.fresh 0)) 0)
     = (Raise (ValueError
          "Turbine.set_sort(): given variable does not exist for the turbine object"),
        Turbine.mkState (Turbine.set_sort_by "bogus" (Example.fresh 0)) 0)
  /\ Turbine.__lt__ (fun _ _ => Ok false)
       (Turbine.set_sort_by "bogus" (Example.fresh 0)) (Example.fresh 0)
     = Raise (KeyError "bogus").
Proof.
  split; [reflexivity |].
  exact (init_stores_sort_unchecked Example.key_search_r (fun _ _ => Ok false)
           (Example.nml_at 0) (-1) false "bogus"
           (Turbine.set_sort_by "bogus" (Example.fresh 0)) (Example.fresh 0) 0
           eq_refl eq_refl).
Defined.

(** C6 as stated fails: two returning requests ([return_kernel=True]) with
    the same arguments and no [overwrite] return the same kernel, and
    [_get_ctrl_pts] runs for each of them: the count goes from 0 to 1 to 2,
    and the object holds no kernel in between. *)
Lemma returning_request_synthesises_twice :
  exists K,
    Turbine.get_kernel Example.key_search_r Example.whole_grid
      Example.unit_axis Example.unit_axis Example.unit_axis 5 None 3
      true true false (Turbine.mkState (Example.fresh 0) 0)
    = (Ok (Some K), Turbine.mkState (Example.fresh 0) 1)
    /\ Turbine.get_kernel Example.key_search_r Example.whole_grid
         Example.unit_axis Example.unit_axis Example.unit_axis 5 None 3
         true true false (Turbine.mkState (Example.fresh 0) 1)
       = (Ok (Some K), Turbine.mkState (Example.fresh 0) 2)
    /\ Turbine.kernel (Example.fresh 0) = None.
Proof.
  destruct example_request as (K & H).
  exists K.
  split; [apply (H true) |]. split; [apply (H true) | reflexivity].
Qed.

(** C6 on the example: the storing request synthesises once, and the
    requests that follow are served from the cache. *)
Lemma get_kernel_twice_witness :
  exists K s1,
    Turbine.get_kernel Example.key_search_r Example.whole_grid
      Example.unit_axis Example.unit_axis Example.unit_axis 5 None 3
      false true false (Turbine.mkState (Example.fresh 0) 0)
    = (Ok None, s1)
    /\ Turbine.ctrl_pts_calls s1 = 1%nat
    /\ Turbine.kernel (Turbine.self s1) = Some K
    /\ Turbine.get_kernel Example.key_search_r Example.whole_grid
         Example.unit_axis Example.unit_axis Example.unit_axis 5 None 3
         false true false s1
       = (Ok None, s1)
    /\ Turbine.get_kernel Example.key_search_r Example.whole_grid
         Example.unit_axis Example.unit_axis Example.unit_axis 5 None 3
         true true false s1
       = (Ok (Some K), s1).
Proof.
  destruct example_request as (K0 & H).
  destruct (get_kernel_twice Example.key_search_r Example.whole_grid
              (Turbine.mkState (Example.fresh 0) 0)
              Example.unit_axis Example.unit_axis Example.unit_axis 5 None 3 true)
    as [Hstore _].
  destruct (Hstore None _ (H false 0%nat)) as (_ & _ & K & HK & H1 & H2).
  exists K. eexists. split; [apply (H false) |].
  split; [reflexivity |]. split; [exact HK |]. split; [exact H1 | exact H2].
Defined.

(** C7 as stated fails: the example turbine at [(1, 1, 1)], whose disk lies
    within the axes [[0; 2]], has every grid node at squared distance 3 from
    its one control point; whatever index ranges [get_xids] answers, every
    node stays below [1e-10] and the floor leaves a field of zeros, so the
    kernel that is returned is that field divided by its total 0, and it
    does not sum to 1. *)
Lemma coarse_grid_kernel_not_normalised :
  0 < Turbine.diam (Example.fresh 1)
  /\ Example.key_search_r (Turbine.input_nml (Example.fresh 1)) "filterwidth"
     = Some (VNum 0.2)
  /\ grid_axis Example.coarse_axis
  /\ 0 < Turbine.yloc (Example.fresh 1) - Turbine.diam (Example.fresh 1) / 2
  /\ Turbine.yloc (Example.fresh 1) + Turbine.diam (Example.fresh 1) / 2 < 2
  /\ (forall get_xids,
         exists K,
           Turbine.accumulate get_xids
             Example.coarse_axis Example.coarse_axis Example.coarse_axis 0.2 3
             (Turbine.mkState (Example.fresh 1) 0)
           = (Ok (Turbine.zeros 2 2 2), Turbine.mkState (Example.fresh 1) 1)
           /\ Turbine.get_kernel Example.key_search_r get_xids
                Example.coarse_axis Example.coarse_axis Example.coarse_axis 5 None 3
                true true false (Turbine.mkState (Example.fresh 1) 0)
              = (Ok (Some K), Turbine.mkState (Example.fresh 1) 1)
           /\ K = map3 (fun v => v / sum3 (Turbine.zeros 2 2 2)) (Turbine.zeros 2 2 2)
           /\ sum3 (Turbine.zeros 2 2 2) = 0
           /\ sum3 K <> 1).
Proof.
  split; [cbn; lra |]. split; [reflexivity |].
  split; [apply grid_axis_pair; lra |].
  split; [cbn; lra |]. split; [cbn; lra |].
  intros get_xids. unfold Example.coarse_axis.
  assert (Hacc : Turbine.accumulate get_xids [0; 2] [0; 2] [0; 2] 0.2 3
                   (Turbine.mkState (Example.fresh 1) 0)
                 = (Ok (Turbine.zeros 2 2 2), Turbine.mkState (Example.fresh 1) 1)).
  { rewrite (accumulate_single get_xids _ _ _ _ _ 0.2 _ _ _ _
               ltac:(lra) (example_ctrl_pts 1 0 2 0 ltac:(lra))).
    destruct (get_xids _ _ _ _ _ _) as [[xids yids] zids].
    cbn [Turbine.add_gaussian Turbine.zeros repeat length imap imap_from map3 map].
    rewrite !floor_cell
      by (unfold Turbine.gaussian; cbn [nth]; apply gaussian_far; cbn [pow]; lra).
    reflexivity. }
  assert (Hzero : sum3 (Turbine.zeros 2 2 2) = 0)
    by (cbn [Turbine.zeros repeat sum3 sum2 sum1 map fold_right]; lra).
  eexists. split; [exact Hacc |]. split; [| split; [reflexivity |]].
  - rewrite get_kernel_synth by (left; reflexivity).
    cbn [Turbine.self]. rewrite example_resolve. cbn [fst].
    rewrite Hacc. cbn [fst].
    rewrite normalise_sum by (apply grid_axis_pair; lra).
    reflexivity.
  - split; [exact Hzero |].
    rewrite sum3_scale, Hzero. unfold Rdiv. rewrite Rmult_0_l. lra.
Qed.

(** C7 on the example turbine at the origin of the unit grid, where the
    centre node receives the whole normalising constant: the returned
    kernel sums to 1. *)
Lemma normalised_kernel_sums_to_one_witness :
  exists K,
    Turbine.get_kernel Example.key_search_r Example.whole_grid
      Example.unit_axis Example.unit_axis Example.unit_axis 5 None 3
      true true false (Turbine.mkState (Example.fresh 0) 0)
    = (Ok (Some K), Turbine.mkState (Example.fresh 0) 1)
    /\ sum3 K = 1.
Proof.
  destruct (normalised_kernel_sums_to_one Example.key_search_r Example.whole_grid
              (Turbine.mkState (Example.fresh 0) 0)
              Example.unit_axis Example.unit_axis Example.unit_axis
              None 0.2 3 false (VNum 0) (VNum 0))
    as (K1 & Hacc & Hsum).
  - cbn. lra.
  - apply grid_axis_pair. lra.
  - apply grid_axis_pair. lra.
  - apply grid_axis_pair. lra.
  - reflexivity.
  - reflexivity.
  - reflexivity.
  - lra.
  - left. reflexivity.
  - destruct Hsum as (K & HK & _ & Hone).
    + apply sum3_floor_nonzero.
      destruct example_accumulate as (K0 & Hpos & H).
      rewrite H in Hacc. injection Hacc as <-. lra.
    + exists K. split; [exact HK | exact Hone].
Defined.

(** C8 on the example turbine, whose namelist has [filterwidth = 0.2] and
    [usecorrection] set: the factor of the formula is returned. *)
Lemma get_correction_policy_witness :
  Turbine.get_correction Example.key_search_r true (Turbine.mkState (Example.fresh 0) 0)
  = (Ok (Some (get_correction 2 0.2 1)), Turbine.mkState (Example.fresh 0) 0).
Proof.
  destruct (get_correction_policy Example.key_search_r
              (Turbine.mkState (Example.fresh 0) 0)) as [_ H].
  destruct (H (VNum 0.2) eq_refl eq_refl) as [H1 _].
  - cbn. lra.
  - cbn.
    assert (Hs : 0 < sqrt (3 * PI)) by (apply sqrt_lt_R0; pose proof PI_RGT_0; lra).
    pose proof (Rinv_0_lt_compat _ Hs) as Hi.
    unfold Rdiv. rewrite Rinv_1. nra.
  - exact H1.
Defined.

(** C10 on the example turbine over the unit grid. *)
Lemma ctrl_pts_nonempty_witness :
  exists xc yc zc,
    Turbine._get_ctrl_pts Example.unit_axis Example.unit_axis Example.unit_axis
      (Turbine.mkState (Example.fresh 0) 0)
    = (Ok (xc, yc, zc), Turbine.mkState (Example.fresh 0) 1)
    /\ xc <> [].
Proof.
  destruct (ctrl_pts_nonempty (Turbine.mkState (Example.fresh 0) 0)
              Example.unit_axis Example.unit_axis Example.unit_axis)
    as (_ & _ & H).
  - cbn. lra.
  - apply grid_axis_pair. lra.
  - apply grid_axis_pair. lra.
  - apply grid_axis_pair. lra.
  - exact (H (VNum 0) (VNum 0) eq_refl eq_refl).
Defined.

(** * Further properties of the code *)

(** ** The correction factor, the wind speed and the power as functions *)

Lemma correction_term_nonneg (CT fwidth D : R) :
  0 <= CT -> 0 <= fwidth -> 0 < D -> 0 <= CT / 2 * fwidth / sqrt (3 * PI) / D.
Proof.
  intros HCT Hfw HD.
  assert (Hs : 0 < sqrt (3 * PI)) by (apply sqrt_lt_R0; pose proof PI_RGT_0; lra).
  unfold Rdiv.
  repeat apply Rmult_le_pos; try lra; apply Rlt_le, Rinv_0_lt_compat; assumption.
Qed.

(** For a thrust coefficient and a filter width that are not negative and a
    positive diameter, [get_correction] lies in (0, 1]; it is exactly 1 when
    the filter width or the thrust coefficient is zero. *)
Theorem get_correction_bounds (CT fwidth D : R) :
  0 <= CT -> 0 <= fwidth -> 0 < D ->
  0 < get_correction CT fwidth D <= 1
  /\ get_correction CT 0 D = 1
  /\ get_correction 0 fwidth D = 1.
Proof.
  intros HCT Hfw HD.
  pose proof (correction_term_nonneg CT fwidth D HCT Hfw HD) as Ht.
  unfold get_correction. split; [split |].
  - apply Rdiv_lt_0_compat; lra.
  - apply (Rmult_le_reg_r (1 + CT / 2 * fwidth / sqrt (3 * PI) / D)); [lra |].
    unfold Rdiv at 1. rewrite Rmult_assoc, Rinv_l by lra. lra.
  - split.
    + replace (CT / 2 * 0 / sqrt (3 * PI) / D) with 0 by (unfold Rdiv; ring).
      replace (1 + 0) with 1 by ring. unfold Rdiv. rewrite Rinv_1. ring.
    + replace (0 / 2 * fwidth / sqrt (3 * PI) / D) with 0 by (unfold Rdiv; ring).
      replace (1 + 0) with 1 by ring. unfold Rdiv. rewrite Rinv_1. ring.
Qed.

Lemma get_correction_bounds_witness :
  0 < get_correction 2 0.2 1 <= 1
  /\ get_correction 2 0 1 = 1
  /\ get_correction 0 0.2 1 = 1.
Proof.
  apply (get_correction_bounds 2 0.2 1); lra.
Defined.

(** A wider filter, or a larger thrust coefficient, never raises the
    correction factor, and a larger diameter never lowers it. *)
Theorem get_correction_monotone (CT CT' fwidth fwidth' D D' : R) :
  0 <= CT <= CT' -> 0 <= fwidth <= fwidth' -> 0 < D' <= D ->
  get_correction CT' fwidth' D' <= get_correction CT fwidth D.
Proof.
  intros [HCT HCT'] [Hfw Hfw'] [HD' HD].
  assert (Hs : 0 < sqrt (3 * PI)) by (apply sqrt_lt_R0; pose proof PI_RGT_0; lra).
  pose proof (correction_term_nonneg CT fwidth D HCT Hfw ltac:(lra)) as Ht.
  assert (Hle : CT / 2 * fwidth / sqrt (3 * PI) / D
                <= CT' / 2 * fwidth' / sqrt (3 * PI) / D').
  { unfold Rdiv.
    assert (HiD : / D <= / D') by (apply Rinv_le_contravar; lra).
    assert (0 < / D) by (apply Rinv_0_lt_compat; lra).
    assert (0 < / sqrt (3 * PI)) by (apply Rinv_0_lt_compat; lra).
    apply Rmult_le_compat; try lra.
    - repeat apply Rmult_le_pos; lra.
    - apply Rmult_le_compat_r; [lra |].
      apply Rmult_le_compat; try lra. }
  unfold get_correction, Rdiv. rewrite !Rmult_1_l.
  apply Rinv_le_contravar; lra.
Qed.

Lemma get_correction_monotone_witness :
  get_correction 2 0.4 1 <= get_correction 2 0.2 1.
Proof.
  apply (get_correction_monotone 2 2 0.2 0.4 1 1); lra.
Defined.

(** The power is cubic in the disk velocity and quadratic in the diameter,
    linear in density and power coefficient; it is odd in the velocity and
    vanishes with it. *)
Theorem get_power_scaling (a ud D rho cpp : R) :
  get_power (a * ud) D rho cpp = a ^ 3 * get_power ud D rho cpp
  /\ get_power ud (a * D) rho cpp = a ^ 2 * get_power ud D rho cpp
  /\ get_power ud D (a * rho) cpp = a * get_power ud D rho cpp
  /\ get_power ud D rho (a * cpp) = a * get_power ud D rho cpp
  /\ get_power (- ud) D rho cpp = - get_power ud D rho cpp
  /\ get_power 0 D rho cpp = 0.
Proof.
  unfold get_power. replace 0.5 with (1 / 2) by lra.
  repeat split; field.
Qed.

(** *** The array product under a change of its operands *)

Section BroadcastMap.

Context {A A' B B' C C' : Type}.
Variables (f : A -> B -> result C) (f' : A' -> B' -> result C').
Variables (g : A -> A') (g' : B -> B') (h : C -> C').
Hypothesis f_f' : forall a b c, f a b = Ok c -> f' (g a) (g' b) = Ok (h c).

Lemma zipM_map2 (la : list A) (lb : list B) (lc : list C) :
  zipM f la lb = Ok lc -> zipM f' (map g la) (map g' lb) = Ok (map h lc).
Proof using f_f'.
  revert lb lc. induction la as [| a la IH]; intros [| b lb] lc; cbn;
    try (intros H; injection H as <-; reflexivity).
  destruct (f a b) as [c |] eqn:Ec; cbn; [| discriminate].
  destruct (zipM f la lb) as [cs |] eqn:Ecs; cbn; [| discriminate].
  intros H. injection H as <-.
  rewrite (f_f' a b c Ec), (IH lb cs Ecs). reflexivity.
Qed.

Lemma mapM_map2_l (a : A) (lb : list B) (lc : list C) :
  mapM (f a) lb = Ok lc -> mapM (f' (g a)) (map g' lb) = Ok (map h lc).
Proof using f_f'.
  revert lc. induction lb as [| b lb IH]; intros lc; cbn;
    [intros H; injection H as <-; reflexivity |].
  destruct (f a b) as [c |] eqn:Ec; cbn; [| discriminate].
  destruct (mapM (f a) lb) as [cs |] eqn:Ecs; cbn; [| discriminate].
  intros H. injection H as <-.
  rewrite (f_f' a b c Ec), (IH cs eq_refl). reflexivity.
Qed.

Lemma mapM_map2_r (b : B) (la : list A) (lc : list C) :
  mapM (fun a => f a b) la = Ok lc ->
  mapM (fun a => f' a (g' b)) (map g la) = Ok (map h lc).
Proof using f_f'.
  revert lc. induction la as [| a la IH]; intros lc; cbn;
    [intros H; injection H as <-; reflexivity |].
  destruct (f a b) as [c |] eqn:Ec; cbn; [| discriminate].
  destruct (mapM (fun a => f a b) la) as [cs |] eqn:Ecs; cbn; [| discriminate].
  intros H. injection H as <-.
  rewrite (f_f' a b c Ec), (IH cs eq_refl). reflexivity.
Qed.

(** Broadcasting looks at the extents only, and [map] keeps them. *)
Lemma broadcast_map2 (la : list A) (lb : list B) (lc : list C) :
  broadcast f la lb = Ok lc ->
  broadcast f' (map g la) (map g' lb) = Ok (map h lc).
Proof using f_f'.
  unfold broadcast. rewrite !length_map.
  destruct (Nat.eqb (length la) (length lb)).
  - apply zipM_map2.
  - destruct la as [| a [| a' la]]; cbn [map].
    + destruct lb as [| b [| b' lb]]; cbn [map]; try discriminate.
      apply (mapM_map2_r b []).
    + apply mapM_map2_l.
    + destruct lb as [| b [| b' lb]]; cbn [map]; try discriminate.
      apply (mapM_map2_r b (a :: a' :: la)).
Qed.

End BroadcastMap.

Lemma np_mul_map3 (gu gk hp : R -> R) (u k p : Array3) :
  (forall a b, gu a * gk b = hp (a * b)) ->
  np_mul u k = Ok p -> np_mul (map3 gu u) (map3 gk k) = Ok (map3 hp p).
Proof.
  intros Hmul. unfold np_mul, map3.
  apply broadcast_map2. intros a1 b1 c1.
  apply broadcast_map2. intros a2 b2 c2.
  apply broadcast_map2. intros a b c H. injection H as <-.
  rewrite Hmul. reflexivity.
Qed.

Lemma map3_id (K : Array3) : map3 (fun v => v) K = K.
Proof.
  unfold map3. induction K as [| p K IH]; cbn; [reflexivity |].
  rewrite IH. f_equal.
  induction p as [| r p IHp]; cbn; [reflexivity |].
  rewrite IHp, map_id. reflexivity.
Qed.

Lemma sum1_times (a : R) (l : list R) :
  sum1 (map (fun v => a * v) l) = a * sum1 l.
Proof.
  unfold sum1. induction l as [| v l IH]; cbn; [ring | rewrite IH; ring].
Qed.

Lemma sum3_times (a : R) (K : Array3) :
  sum3 (map3 (fun v => a * v) K) = a * sum3 K.
Proof.
  unfold sum3, map3, sum2. rewrite !map_map.
  induction K as [| p K IH]; cbn; [ring |].
  fold (sum1 (map (fun x => sum1 (map sum1 (map (map (fun v => a * v)) x))) K)).
  fold (sum1 (map (fun x => sum1 (map sum1 x)) K)).
  rewrite IH. clear IH.
  assert (E : sum1 (map sum1 (map (map (fun v => a * v)) p)) = a * sum1 (map sum1 p)).
  { rewrite map_map. induction p as [| r p IHp]; cbn; [ring |].
    fold (sum1 (map (fun x => sum1 (map (fun v => a * v) x)) p)).
    fold (sum1 (map sum1 p)).
    rewrite IHp, sum1_times. fold (sum1 r). ring. }
  rewrite E. ring.
Qed.

(** The product of an array with one of its own shape pairs node with
    node. *)
Lemma np_mul_same_shape (gu : R -> R) (K : Array3) :
  np_mul (map3 gu K) K = Ok (map3 (fun v => gu v * v) K).
Proof.
  assert (Hz : forall {A C : Type} (F : A -> A -> result C) (G : A -> A) (H : A -> C)
                      (l : list A),
             (forall a, In a l -> F (G a) a = Ok (H a)) ->
             broadcast F (map G l) l = Ok (map H l)).
  { intros A C F G H l HF. unfold broadcast.
    rewrite length_map, Nat.eqb_refl.
    induction l as [| a l IH]; cbn; [reflexivity |].
    rewrite (HF a (or_introl eq_refl)). cbn.
    rewrite IH by (intros b Hb; apply HF; right; exact Hb). reflexivity. }
  unfold np_mul, map3.
  apply Hz. intros p _. apply Hz. intros r _. apply Hz. intros v _. reflexivity.
Qed.

(** A uniform wind field of speed [c] on the grid of the kernel has the
    rotor-equivalent wind speed [c * sum(kernel) * M]: with a kernel that
    sums to 1, the speed itself, corrected by [M]. *)
Theorem get_REWS_uniform_field (c m : R) (K : Array3) :
  get_REWS (map3 (fun _ => c) K) (Some K) (Some m) = Ok (c * sum3 K * m)
  /\ (sum3 K = 1 -> get_REWS (map3 (fun _ => c) K) (Some K) (Some m) = Ok (c * m)).
Proof.
  assert (E : get_REWS (map3 (fun _ => c) K) (Some K) (Some m) = Ok (c * sum3 K * m)).
  { unfold get_REWS. rewrite np_mul_same_shape. cbn [rbind].
    rewrite sum3_times. reflexivity. }
  split; [exact E |].
  intros H1. rewrite E, H1. apply f_equal. ring.
Qed.

Lemma get_REWS_uniform_field_witness :
  get_REWS (map3 (fun _ => 8) [[[0.25; 0.75]]]) (Some [[[0.25; 0.75]]]) (Some 1) = Ok (8 * 1).
Proof.
  destruct (get_REWS_uniform_field 8 1 [[[0.25; 0.75]]]) as [_ H].
  apply H. cbn. lra.
Defined.

(** The rotor-equivalent wind speed is linear in the wind field, in the
    kernel and in the correction factor: scaling any one of them by [a]
    scales the result by [a], errors apart. *)
Theorem get_REWS_linear (a m r : R) (u k : Array3) :
  get_REWS u (Some k) (Some m) = Ok r ->
  get_REWS (map3 (fun v => a * v) u) (Some k) (Some m) = Ok (a * r)
  /\ get_REWS u (Some (map3 (fun v => a * v) k)) (Some m) = Ok (a * r)
  /\ get_REWS u (Some k) (Some (a * m)) = Ok (a * r).
Proof.
  unfold get_REWS. destruct (np_mul u k) as [p |] eqn:Ep; cbn [rbind]; [| discriminate].
  intros H. injection H as <-.
  split; [| split].
  - pose proof (np_mul_map3 (fun v => a * v) (fun v => v) (fun v => a * v) u k p
                  ltac:(intros; cbv beta; ring) Ep) as E.
    rewrite map3_id in E. rewrite E. cbn [rbind]. rewrite sum3_times. apply f_equal. ring.
  - pose proof (np_mul_map3 (fun v => v) (fun v => a * v) (fun v => a * v) u k p
                  ltac:(intros; cbv beta; ring) Ep) as E.
    rewrite map3_id in E. rewrite E. cbn [rbind]. rewrite sum3_times. apply f_equal. ring.
  - apply f_equal. ring.
Qed.

Lemma get_REWS_linear_witness :
  get_REWS (map3 (fun v => 2 * v) [[[3; 5]]]) (Some [[[0.25; 0.75]]]) (Some 1)
  = Ok (2 * ((3 * 0.25 + (5 * 0.75 + 0) + 0 + 0) * 1)).
Proof.
  apply (get_REWS_linear 2 1 _ [[[3; 5]]] [[[0.25; 0.75]]]). reflexivity.
Defined.

(** ** Nodes and shapes of arrays *)

Lemma length_imap_from {A B : Type} (f : nat -> A -> B) (n : nat) (l : list A) :
  length (imap_from f n l) = length l.
Proof.
  revert n. induction l as [| a l IH]; intros n; cbn; [reflexivity | rewrite IH; reflexivity].
Qed.

Lemma nth_imap_from {A B : Type} (f : nat -> A -> B) (n : nat) (l : list A)
      (i : nat) (d : A) (d' : B) :
  nth i (imap_from f n l) d'
  = if Nat.ltb i (length l) then f (n + i)%nat (nth i l d) else d'.
Proof.
  revert n i. induction l as [| a l IH]; intros n i; cbn [imap_from length].
  - destruct i; reflexivity.
  - destruct i as [| i]; cbn [nth].
    + rewrite Nat.add_0_r. reflexivity.
    + rewrite (IH (S n) i). change (S i <? S (length l))%nat with (i <? length l)%nat.
      replace (S n + i)%nat with (n + S i)%nat by lia. reflexivity.
Qed.

Lemma nth_imap {A B : Type} (f : nat -> A -> B) (l : list A) (i : nat) (d : A) (d' : B) :
  nth i (imap f l) d' = if Nat.ltb i (length l) then f i (nth i l d) else d'.
Proof. unfold imap. rewrite (nth_imap_from f 0 l i d d'). reflexivity. Qed.

Lemma Forall_imap_from {A B : Type} (P : A -> Prop) (Q : B -> Prop)
      (f : nat -> A -> B) (n : nat) (l : list A) :
  (forall i a, P a -> Q (f i a)) -> Forall P l -> Forall Q (imap_from f n l).
Proof.
  intros Hf H. revert n. induction H as [| a l Ha _ IH]; intros n; cbn; constructor; auto.
Qed.

(** One pass of the loop adds the Gaussian to the nodes of the box and to
    no other node, and keeps the shape. *)
Lemma cell_add_gaussian (C1 fwidth : R) (x y z : Axis) (ids : slice * slice * slice)
      (K : Array3) (c : R * R * R) (nx ny nz i j k : nat) :
  has_shape nx ny nz K ->
  cell (Turbine.add_gaussian C1 fwidth x y z ids K c) i j k
  = if Nat.ltb i nx && Nat.ltb j ny && Nat.ltb k nz && in_box ids i j k
    then cell K i j k + Turbine.gaussian C1 fwidth x y z c i j k
    else cell K i j k.
Proof.
  intros [Hx Hyz]. destruct ids as [[xids yids] zids].
  unfold cell, Turbine.add_gaussian, in_box.
  rewrite (nth_imap _ K i [] []). rewrite Hx.
  destruct (Nat.ltb i nx) eqn:Ei; cbn [andb].
  2: { apply Nat.ltb_ge in Ei. rewrite (nth_overflow K []) by lia. reflexivity. }
  apply Nat.ltb_lt in Ei. rewrite <- Hx in Ei.
  pose proof (proj1 (Forall_forall _ K) Hyz (nth i K []) (nth_In K [] Ei)) as [Hy Hz].
  rewrite (nth_imap _ (nth i K []) j [] []). rewrite Hy.
  destruct (Nat.ltb j ny) eqn:Ej; cbn [andb].
  2: { apply Nat.ltb_ge in Ej. rewrite (nth_overflow (nth i K []) []) by lia.
       reflexivity. }
  apply Nat.ltb_lt in Ej. rewrite <- Hy in Ej.
  pose proof (proj1 (Forall_forall _ _) Hz (nth j (nth i K []) []) (nth_In _ [] Ej)) as Hr.
  cbv beta in Hr.
  rewrite (nth_imap _ (nth j (nth i K []) []) k 0 0). rewrite Hr.
  destruct (Nat.ltb k nz) eqn:Ek; cbn [andb].
  2: { apply Nat.ltb_ge in Ek. rewrite (nth_overflow (nth j (nth i K []) []) 0) by lia.
       reflexivity. }
  destruct (in_slice xids i && in_slice yids j && in_slice zids k); reflexivity.
Qed.

Lemma has_shape_add_gaussian (C1 fwidth : R) (x y z : Axis) (ids : slice * slice * slice)
      (K : Array3) (c : R * R * R) (nx ny nz : nat) :
  has_shape nx ny nz K -> has_shape nx ny nz (Turbine.add_gaussian C1 fwidth x y z ids K c).
Proof.
  intros [Hx Hyz]. destruct ids as [[xids yids] zids].
  unfold Turbine.add_gaussian, imap. split; [rewrite length_imap_from; exact Hx |].
  revert Hyz. apply Forall_imap_from. intros i plane [Hy Hz].
  split; [rewrite length_imap_from; exact Hy |].
  revert Hz. apply Forall_imap_from. intros j row Hr.
  rewrite length_imap_from. exact Hr.
Qed.

Lemma has_shape_zeros (nx ny nz : nat) : has_shape nx ny nz (Turbine.zeros nx ny nz).
Proof.
  unfold Turbine.zeros. split; [apply repeat_length |].
  apply Forall_forall. intros plane Hp. apply repeat_spec in Hp. subst plane.
  split; [apply repeat_length |].
  apply Forall_forall. intros row Hr. apply repeat_spec in Hr. subst row.
  apply repeat_length.
Qed.

Lemma has_shape_map3 (f : R -> R) (K : Array3) (nx ny nz : nat) :
  has_shape nx ny nz K -> has_shape nx ny nz (map3 f K).
Proof.
  intros [Hx Hyz]. unfold map3. split; [rewrite length_map; exact Hx |].
  apply Forall_map. revert Hyz. apply Forall_impl. intros plane [Hy Hz].
  split; [rewrite length_map; exact Hy |].
  apply Forall_map. revert Hz. apply Forall_impl. intros row Hr.
  rewrite length_map. exact Hr.
Qed.

Lemma cell_zeros (nx ny nz i j k : nat) : cell (Turbine.zeros nx ny nz) i j k = 0.
Proof.
  unfold cell, Turbine.zeros.
  destruct (Nat.lt_ge_cases i nx) as [Hi | Hi].
  2: { rewrite (nth_overflow (repeat (repeat (repeat 0 nz) ny) nx) [])
         by (rewrite repeat_length; exact Hi).
       destruct j, k; reflexivity. }
  rewrite (@nth_repeat_lt _ (repeat (repeat 0 nz) ny) nx i [] Hi).
  destruct (Nat.lt_ge_cases j ny) as [Hj | Hj].
  2: { rewrite (nth_overflow (repeat (repeat 0 nz) ny) [])
         by (rewrite repeat_length; exact Hj).
       destruct k; reflexivity. }
  rewrite (@nth_repeat_lt _ (repeat 0 nz) ny j [] Hj).
  destruct (Nat.lt_ge_cases k nz) as [Hk | Hk].
  - apply (@nth_repeat_lt _ 0 nz k 0 Hk).
  - apply nth_overflow. rewrite repeat_length. exact Hk.
Qed.

Lemma cell_map3 (f : R -> R) (K : Array3) (i j k : nat) :
  f 0 = 0 -> cell (map3 f K) i j k = f (cell K i j k).
Proof.
  intros H0. unfold cell, map3.
  change (nth i (map (map (map f)) K) [])
    with (nth i (map (map (map f)) K) (map (map f) [])).
  rewrite map_nth.
  change (nth j (map (map f) (nth i K [])) [])
    with (nth j (map (map f) (nth i K [])) (map f [])).
  rewrite map_nth.
  rewrite <- H0 at 1. apply map_nth.
Qed.

(** The loop over the control points adds up their Gaussians on the box
    and leaves every other node alone. *)
Lemma cell_accumulated (C1 fwidth : R) (x y z : Axis) (ids : slice * slice * slice)
      (cs : list (R * R * R)) (K : Array3) (nx ny nz i j k : nat) :
  has_shape nx ny nz K ->
  has_shape nx ny nz (fold_left (Turbine.add_gaussian C1 fwidth x y z ids) cs K)
  /\ cell (fold_left (Turbine.add_gaussian C1 fwidth x y z ids) cs K) i j k
     = if Nat.ltb i nx && Nat.ltb j ny && Nat.ltb k nz && in_box ids i j k
       then cell K i j k + sum1 (map (fun c => Turbine.gaussian C1 fwidth x y z c i j k) cs)
       else cell K i j k.
Proof.
  revert K. induction cs as [| c cs IH]; intros K HK; cbn [fold_left map].
  - split; [exact HK |]. destruct (_ && _); [unfold sum1; cbn; ring | reflexivity].
  - destruct (IH _ (has_shape_add_gaussian C1 fwidth x y z ids K c nx ny nz HK))
      as [Hs Hc].
    split; [exact Hs |]. rewrite Hc, (cell_add_gaussian _ _ _ _ _ _ _ _ nx ny nz i j k HK).
    destruct (_ && _); [| reflexivity].
    change (sum1 (Turbine.gaussian C1 fwidth x y z c i j k
                  :: map (fun c0 => Turbine.gaussian C1 fwidth x y z c0 i j k) cs))
      with (Turbine.gaussian C1 fwidth x y z c i j k
            + sum1 (map (fun c0 => Turbine.gaussian C1 fwidth x y z c0 i j k) cs)).
    ring.
Qed.

(** ** The rotor-equivalent wind speed as a weighted mean *)

Lemma broadcast_bounds {A B : Type} (F : A -> A -> result B) (sA : A -> R) (sB : B -> R)
      (Pu Pk : A -> Prop) (lo hi : R) :
  (forall a b, Pu a -> Pk b ->
               exists c, F a b = Ok c /\ lo * sA b <= sB c <= hi * sA b) ->
  forall u k, length u = length k -> Forall Pu u -> Forall Pk k ->
  exists p, broadcast F u k = Ok p
            /\ lo * sum1 (map sA k) <= sum1 (map sB p) <= hi * sum1 (map sA k).
Proof.
  intros HF u k Hlen. unfold broadcast. rewrite Hlen, Nat.eqb_refl.
  revert k Hlen. induction u as [| a u IH]; intros [| b k] Hlen Hu Hk;
    try discriminate.
  - exists []. cbn. split; [reflexivity | lra].
  - inversion Hu as [| ? ? Ha Hu']; inversion Hk as [| ? ? Hb Hk']; subst.
    destruct (HF a b Ha Hb) as (c & Hc & Hbc).
    destruct (IH k ltac:(cbn in Hlen; lia) Hu' Hk') as (p & Hp & Hbp).
    exists (c :: p). cbn. rewrite Hc. cbn. rewrite Hp. cbn.
    split; [reflexivity |]. unfold sum1 in *. lra.
Qed.

Lemma shaped_nodes (P : R -> Prop) (nx ny nz : nat) (K : Array3) :
  has_shape nx ny nz K -> all_nodes P K ->
  Forall (fun plane =>
            length plane = ny
            /\ Forall (fun row => length row = nz /\ Forall P row) plane) K.
Proof.
  intros [_ Hs] Hn. unfold all_nodes in Hn.
  rewrite Forall_forall in *. intros plane Hp.
  destruct (Hs plane Hp) as [Hlen Hrows]. specialize (Hn plane Hp).
  split; [exact Hlen |].
  rewrite Forall_forall in *. intros row Hr.
  split; [exact (Hrows row Hr) | exact (Hn row Hr)].
Qed.

Lemma np_mul_bounds (nx ny nz : nat) (u K : Array3) (lo hi : R) :
  has_shape nx ny nz u -> has_shape nx ny nz K ->
  all_nodes (fun v => lo <= v <= hi) u -> all_nodes (fun v => 0 <= v) K ->
  exists p, np_mul u K = Ok p /\ lo * sum3 K <= sum3 p <= hi * sum3 K.
Proof.
  intros Hsu HsK Hu HK.
  pose proof (shaped_nodes _ _ _ _ _ Hsu Hu) as Fu.
  pose proof (shaped_nodes _ _ _ _ _ HsK HK) as FK.
  unfold np_mul, sum3.
  apply (broadcast_bounds _ sum2 sum2
           (fun plane => length plane = ny
                         /\ Forall (fun row => length row = nz
                                               /\ Forall (fun v => lo <= v <= hi) row) plane)
           (fun plane => length plane = ny
                         /\ Forall (fun row => length row = nz
                                               /\ Forall (fun v => 0 <= v) row) plane));
    [| destruct Hsu as [-> _]; destruct HsK as [-> _]; reflexivity | exact Fu | exact FK].
  intros a b [Hla Ha] [Hlb Hb]. unfold sum2.
  apply (broadcast_bounds _ sum1 sum1
           (fun row => length row = nz /\ Forall (fun v => lo <= v <= hi) row)
           (fun row => length row = nz /\ Forall (fun v => 0 <= v) row));
    [| congruence | exact Ha | exact Hb].
  intros r r' [Hlr Hr] [Hlr' Hr'].
  destruct (broadcast_bounds (fun u0 v => Ok (u0 * v)) (fun v => v) (fun v => v)
              (fun v => lo <= v <= hi) (fun v => 0 <= v) lo hi) with (u := r) (k := r')
    as (p & Hp & Hb');
    [| congruence | exact Hr | exact Hr' |].
  - intros v w Hv Hw. exists (v * w). split; [reflexivity | nra].
  - exists p. rewrite !map_id in Hb'. split; [exact Hp | exact Hb'].
Qed.

(** The rotor-equivalent wind speed is a weighted mean of the field: with
    a kernel of the shape of the field whose nodes are not negative and sum
    to 1, and a correction factor [M >= 0], [get_REWS] returns a value
    between [lo * M] and [hi * M] whenever every node of the field lies
    between [lo] and [hi]. *)
Theorem get_REWS_weighted_mean (nx ny nz : nat) (ufield K : Array3) (lo hi m : R) :
  has_shape nx ny nz ufield -> has_shape nx ny nz K ->
  all_nodes (fun v => lo <= v <= hi) ufield ->
  all_nodes (fun v => 0 <= v) K ->
  sum3 K = 1 -> 0 <= m ->
  exists r, get_REWS ufield (Some K) (Some m) = Ok r /\ lo * m <= r <= hi * m.
Proof.
  intros Hsu HsK Hu HK H1 Hm.
  destruct (np_mul_bounds nx ny nz ufield K lo hi Hsu HsK Hu HK) as (p & Hp & Hb).
  exists (sum3 p * m). unfold get_REWS. rewrite Hp. cbn [rbind].
  split; [reflexivity |]. rewrite H1 in Hb. nra.
Qed.

Lemma get_REWS_weighted_mean_witness :
  exists r, get_REWS [[[7; 9]]] (Some [[[0.25; 0.75]]]) (Some 1) = Ok r
            /\ 7 * 1 <= r <= 9 * 1.
Proof.
  apply (get_REWS_weighted_mean 1 1 2 [[[7; 9]]] [[[0.25; 0.75]]] 7 9 1).
  - split; [reflexivity |]. repeat constructor.
  - split; [reflexivity |]. repeat constructor.
  - repeat constructor; lra.
  - repeat constructor; lra.
  - cbn. lra.
  - lra.
Defined.

(** ** Nodes of a field that is not negative *)

Lemma sum1_nonneg (l : list R) : Forall (fun a => 0 <= a) l -> 0 <= sum1 l.
Proof.
  unfold sum1. induction 1 as [| a l Ha _ IH]; cbn; lra.
Qed.

Lemma sum1_member_le (l : list R) (v : R) :
  Forall (fun a => 0 <= a) l -> In v l -> 0 <= v <= sum1 l.
Proof.
  unfold sum1. induction 1 as [| a l Ha Hl IH]; cbn; [intros [] |].
  pose proof (sum1_nonneg l Hl) as Hs. unfold sum1 in Hs.
  intros [<- | Hin]; [lra |]. specialize (IH Hin). lra.
Qed.

Lemma node_le_sum3 (K : Array3) :
  all_nodes (fun v => 0 <= v) K -> all_nodes (fun v => 0 <= v <= sum3 K) K.
Proof.
  unfold all_nodes. intros HK.
  assert (H2 : forall plane, In plane K -> Forall (fun a => 0 <= a) (map sum1 plane)).
  { intros plane Hp. rewrite Forall_forall in HK. specialize (HK plane Hp).
    rewrite Forall_forall in *. intros a Ha. apply in_map_iff in Ha.
    destruct Ha as (row & <- & Hr). apply sum1_nonneg, HK, Hr. }
  assert (H3 : Forall (fun a => 0 <= a) (map sum2 K)).
  { rewrite Forall_forall. intros a Ha. apply in_map_iff in Ha.
    destruct Ha as (plane & <- & Hp). apply sum1_nonneg, H2, Hp. }
  rewrite Forall_forall in *. intros plane Hp. specialize (HK plane Hp).
  rewrite Forall_forall in *. intros row Hr. specialize (HK row Hr).
  rewrite Forall_forall in *. intros v Hv.
  pose proof (sum1_member_le row v ltac:(rewrite Forall_forall; exact HK) Hv) as B1.
  pose proof (sum1_member_le (map sum1 plane) (sum1 row) (H2 plane Hp)
                (in_map sum1 plane row Hr)) as B2.
  pose proof (sum1_member_le (map sum2 K) (sum2 plane)
                (proj2 (Forall_forall _ _) H3) (in_map sum2 K plane Hp)) as B3.
  unfold sum3, sum2 in *. lra.
Qed.

Lemma all_nodes_map3 (P Q : R -> Prop) (f : R -> R) (K : Array3) :
  (forall v, P v -> Q (f v)) -> all_nodes P K -> all_nodes Q (map3 f K).
Proof.
  intros Hf. unfold all_nodes, map3. rewrite !Forall_forall.
  intros HK plane Hp. apply in_map_iff in Hp. destruct Hp as (plane0 & <- & Hp).
  specialize (HK plane0 Hp). rewrite !Forall_forall in *.
  intros row Hr. apply in_map_iff in Hr. destruct Hr as (row0 & <- & Hr).
  specialize (HK row0 Hr). rewrite !Forall_forall in *.
  intros v Hv. apply in_map_iff in Hv. destruct Hv as (v0 & <- & Hv).
  apply Hf, HK, Hv.
Qed.

Lemma all_nodes_any (P : R -> Prop) (K : Array3) :
  (forall v, P v) -> all_nodes P K.
Proof.
  intros HP. unfold all_nodes. rewrite Forall_forall. intros plane _.
  rewrite Forall_forall. intros row _. rewrite Forall_forall. intros v _. apply HP.
Qed.

(** ** The turbine object *)

Lemma dict_in_iff {Nml : Type} (key : string) (d : list (string * Turbine.pyobj Nml)) :
  Turbine.dict_in key d = true <-> In key (map fst d).
Proof.
  unfold Turbine.dict_in. induction d as [| [k v] d IH]; cbn.
  - split; [discriminate | contradiction].
  - destruct (String.eqb k key) eqn:E.
    + apply String.eqb_eq in E. split; auto.
    + apply String.eqb_neq in E. rewrite IH. split; [auto | intros [H | H]; [contradiction | exact H]].
Qed.

Lemma in_optional {Nml : Type} (key name : string) (o : option value) :
  In key (map fst (@Turbine.optional Nml name o)) <-> key = name /\ o <> None.
Proof.
  destruct o; cbn.
  - split; [intros [<- | []]; split; [reflexivity | discriminate] | intros [-> _]; auto].
  - split; [contradiction | intros [_ H]; apply H; reflexivity].
Qed.

Section MoreProperties.

Context {Nml : Type}.
Variable key_search_r : Nml -> string -> option value.
Variable get_xids :
  Axis -> Axis -> Axis -> R * R -> R * R -> R * R -> slice * slice * slice.
Variable py_lt : Turbine.pyobj Nml -> Turbine.pyobj Nml -> result bool.

Local Abbreviation state := (Turbine.state Nml).

(** *** Construction *)

(** The constructor succeeds exactly when the namelist holds all five
    required variables; otherwise it raises [AttributeError] for the first
    one that is missing, in the order of [req_vars].  The optional
    variables play no part in this. *)
Theorem init_required (nml : Nml) (n : Z) (verbose : bool) (sort : string) :
  ((exists o, Turbine.__init__ key_search_r nml n verbose sort = Ok o)
   <-> Forall (fun req => key_search_r nml req <> None) req_vars)
  /\ (forall before req after,
         req_vars = before ++ req :: after ->
         Forall (fun r => key_search_r nml r <> None) before ->
         key_search_r nml req = None ->
         Turbine.__init__ key_search_r nml n verbose sort
         = Raise (AttributeError req)).
Proof using Type.
  unfold req_vars. split; [split |].
  - intros [o H]. revert H. unfold Turbine.__init__, Turbine.required.
    destruct (key_search_r nml "xloc") eqn:Ex; cbn; [| discriminate].
    destruct (key_search_r nml "yloc") eqn:Ey; cbn; [| discriminate].
    destruct (key_search_r nml "zloc") eqn:Ez; cbn; [| discriminate].
    destruct (key_search_r nml "ct") eqn:Ect; cbn; [| discriminate].
    destruct (key_search_r nml "diam") eqn:Ed; cbn; [| discriminate].
    intros _. repeat (apply Forall_cons; [congruence |]). apply Forall_nil.
  - intros H.
    repeat match goal with
           | H : Forall _ (_ :: _) |- _ => inversion H; clear H; subst
           end.
    unfold Turbine.__init__, Turbine.required.
    destruct (key_search_r nml "xloc"); [| contradiction].
    destruct (key_search_r nml "yloc"); [| contradiction].
    destruct (key_search_r nml "zloc"); [| contradiction].
    destruct (key_search_r nml "ct"); [| contradiction].
    destruct (key_search_r nml "diam"); [| contradiction].
    eexists. reflexivity.
  - intros before req after Hsplit Hbefore Hreq.
    unfold Turbine.__init__, Turbine.required.
    destruct before as [| b0 [| b1 [| b2 [| b3 [| b4 before]]]]];
      cbn in Hsplit; injection Hsplit; intros; subst;
      repeat match goal with
             | H : Forall _ (_ :: _) |- _ => inversion H; clear H; subst
             end;
      repeat match goal with
             | H : key_search_r nml ?k <> None |- _ =>
                 destruct (key_search_r nml k); [clear H | contradiction]
             end;
      try (rewrite Hreq; reflexivity).
    destruct before; discriminate.
Qed.

(** A constructed turbine holds no kernel, no correction factor and no
    disk velocity, carries the namelist's entries as its attributes, the
    optional ones exactly when the namelist has them, and its [pos] is the
    triple of its coordinates. *)
Theorem init_attributes (nml : Nml) (n : Z) (verbose : bool) (sort : string)
        (o : Turbine.t Nml) :
  Turbine.__init__ key_search_r nml n verbose sort = Ok o ->
  Turbine.kernel o = None /\ Turbine.M o = None /\ Turbine.ud o = None
  /\ Turbine.input_nml o = nml
  /\ key_search_r nml "xloc" = Some (Turbine.xloc o)
  /\ key_search_r nml "yloc" = Some (Turbine.yloc o)
  /\ key_search_r nml "zloc" = Some (Turbine.zloc o)
  /\ key_search_r nml "ct" = Some (Turbine.ct o)
  /\ key_search_r nml "diam" = Some (Turbine.diam o)
  /\ Turbine.yaw o = key_search_r nml "yaw"
  /\ Turbine.tilt o = key_search_r nml "tilt"
  /\ Turbine.filterwidth o = key_search_r nml "filterwidth"
  /\ Turbine.usecorrection o = key_search_r nml "usecorrection"
  /\ Turbine.pos o = (Turbine.xloc o, Turbine.yloc o, Turbine.zloc o)
  /\ (forall key, Turbine.dict_in key (Turbine.__dict__ o) = true
                  <-> In key ["verbose"; "input_nml"; "kernel"; "M"; "ud";
                              "sort_by"; "n"; "pos"]%string
                      \/ In key req_vars
                      \/ (In key opt_vars /\ key_search_r nml key <> None)).
Proof using Type.
  unfold Turbine.__init__, Turbine.required.
  destruct (key_search_r nml "xloc") eqn:Ex; cbn; [| discriminate].
  destruct (key_search_r nml "yloc") eqn:Ey; cbn; [| discriminate].
  destruct (key_search_r nml "zloc") eqn:Ez; cbn; [| discriminate].
  destruct (key_search_r nml "ct") eqn:Ect; cbn; [| discriminate].
  destruct (key_search_r nml "diam") eqn:Ed; cbn; [| discriminate].
  intros H. injection H as <-. cbn [Turbine.kernel Turbine.M Turbine.ud
    Turbine.input_nml Turbine.xloc Turbine.yloc Turbine.zloc Turbine.ct Turbine.diam
    Turbine.yaw Turbine.tilt Turbine.filterwidth Turbine.usecorrection Turbine.pos].
  repeat (split; [reflexivity |]).
  intros key. rewrite dict_in_iff. unfold Turbine.__dict__.
  cbn [Turbine.yaw Turbine.tilt Turbine.filterwidth Turbine.usecorrection].
  cbn [map fst In]. rewrite !map_app, !in_app_iff, !in_optional.
  unfold req_vars, opt_vars. cbn [map fst In].
  split; intros H;
    repeat match goal with
           | H : _ \/ _ |- _ => destruct H
           | H : _ /\ _ |- _ => destruct H
           end;
    subst; try contradiction; auto 25.
Qed.

(** *** Sort key and ordering *)

Lemma keys_set_sort_by (sort : string) (o : Turbine.t Nml) :
  map fst (Turbine.__dict__ (Turbine.set_sort_by sort o))
  = map fst (Turbine.__dict__ o).
Proof using Type.
  destruct o as [? ? ? ? ? ? ? ? ? ? yaw tilt fw uc ? ? ?].
  unfold Turbine.__dict__, Turbine.set_sort_by.
  cbn [Turbine.yaw Turbine.tilt Turbine.filterwidth Turbine.usecorrection].
  rewrite !map_app. reflexivity.
Qed.

Lemma dict_in_getitem (key : string) (d : list (string * Turbine.pyobj Nml)) :
  Turbine.dict_in key d = true -> exists a, Turbine.getitem Nml d key = Ok a.
Proof using Type.
  unfold Turbine.dict_in, Turbine.getitem.
  destruct (Turbine.dict_get d key); [eexists; reflexivity | discriminate].
Qed.

(** [set_sort] accepts exactly the names of existing attributes.  When it
    accepts, only [sort_by] changes and the set of attributes stays the
    same, so a comparison with a turbine that has the attribute too finds
    both values: for the key ["xloc"] it compares [xloc] and breaks ties on
    [yloc], and for every other key it is decided by Python's [<] on the
    two values.  When [set_sort] refuses, the object is left as it was. *)
Theorem set_sort_checked (sort : string) (s : state) :
  (Turbine.dict_in sort (Turbine.__dict__ (Turbine.self s)) = true ->
   Turbine.set_sort sort s
   = (Ok tt, Turbine.mkState (Turbine.set_sort_by sort (Turbine.self s))
                             (Turbine.ctrl_pts_calls s))
   /\ same_parameters (Turbine.self s) (Turbine.set_sort_by sort (Turbine.self s))
   /\ Turbine.kernel (Turbine.set_sort_by sort (Turbine.self s))
      = Turbine.kernel (Turbine.self s)
   /\ Turbine.M (Turbine.set_sort_by sort (Turbine.self s)) = Turbine.M (Turbine.self s)
   /\ forall other,
        Turbine.dict_in sort (Turbine.__dict__ other) = true ->
        (sort = "xloc"%string ->
         Turbine.__lt__ py_lt (Turbine.set_sort_by sort (Turbine.self s)) other
         = Ok (if Reqb (Turbine.xloc (Turbine.self s)) (Turbine.xloc other)
               then Rltb (Turbine.yloc (Turbine.self s)) (Turbine.yloc other)
               else Rltb (Turbine.xloc (Turbine.self s)) (Turbine.xloc other)))
        /\ (sort <> "xloc"%string ->
            exists a b,
              Turbine.getitem Nml
                (Turbine.__dict__ (Turbine.set_sort_by sort (Turbine.self s))) sort = Ok a
              /\ Turbine.getitem Nml (Turbine.__dict__ other) sort = Ok b
              /\ Turbine.__lt__ py_lt (Turbine.set_sort_by sort (Turbine.self s)) other
                 = py_lt a b))
  /\ (Turbine.dict_in sort (Turbine.__dict__ (Turbine.self s)) = false ->
      Turbine.set_sort sort s
      = (Raise (ValueError
           "Turbine.set_sort(): given variable does not exist for the turbine object"),
         s)).
Proof using Type.
  split; intros Hin.
  - split; [unfold Turbine.set_sort; run; rewrite Hin; reflexivity |].
    split; [repeat split |]. split; [reflexivity |]. split; [reflexivity |].
    intros other Hother. split.
    { intros ->. unfold Turbine.__lt__.
      cbn [Turbine.sort_by Turbine.set_sort_by Turbine.xloc Turbine.yloc
           String.eqb Ascii.eqb Bool.eqb].
      destruct (Reqb _ _); reflexivity. }
    intros Hx.
    assert (Hself : Turbine.dict_in sort
                      (Turbine.__dict__ (Turbine.set_sort_by sort (Turbine.self s))) = true).
    { apply dict_in_iff. rewrite keys_set_sort_by. apply dict_in_iff. exact Hin. }
    destruct (dict_in_getitem _ _ Hself) as [a Ha].
    destruct (dict_in_getitem _ _ Hother) as [b Hb].
    exists a, b. split; [exact Ha |]. split; [exact Hb |].
    unfold Turbine.__lt__. cbn [Turbine.sort_by Turbine.set_sort_by].
    apply String.eqb_neq in Hx. rewrite Hx, Ha, Hb. reflexivity.
  - unfold Turbine.set_sort. run. rewrite Hin. reflexivity.
Qed.

(** The check of [set_sort] looks at the object itself only: a key that
    exists on the one turbine and not on the other it is compared with, as
    an optional variable may, raises [KeyError] at comparison time. *)
Theorem lt_key_missing_on_other (o other : Turbine.t Nml) :
  Turbine.sort_by o <> "xloc"%string ->
  Turbine.dict_in (Turbine.sort_by o) (Turbine.__dict__ o) = true ->
  Turbine.dict_in (Turbine.sort_by o) (Turbine.__dict__ other) = false ->
  Turbine.__lt__ py_lt o other = Raise (KeyError (Turbine.sort_by o)).
Proof using Type.
  intros Hx Ho Hother. unfold Turbine.__lt__.
  apply String.eqb_neq in Hx. rewrite Hx.
  destruct (dict_in_getitem _ _ Ho) as [a Ha]. rewrite Ha. cbn [rbind].
  unfold Turbine.getitem. unfold Turbine.dict_in in Hother.
  destruct (Turbine.dict_get (Turbine.__dict__ other) (Turbine.sort_by o));
    [discriminate | reflexivity].
Qed.

Lemma lt_xloc_value (a b : Turbine.t Nml) :
  Turbine.sort_by a = "xloc"%string ->
  Turbine.__lt__ py_lt a b
  = Ok (if Reqb (Turbine.xloc a) (Turbine.xloc b)
        then Rltb (Turbine.yloc a) (Turbine.yloc b)
        else Rltb (Turbine.xloc a) (Turbine.xloc b)).
Proof using Type.
  intros Ha. unfold Turbine.__lt__. rewrite Ha. cbn [String.eqb Ascii.eqb Bool.eqb].
  destruct (Reqb _ _); reflexivity.
Qed.

Lemma lt_xloc_true (a b : Turbine.t Nml) :
  Turbine.sort_by a = "xloc"%string ->
  Turbine.__lt__ py_lt a b = Ok true
  <-> num (Turbine.xloc a) < num (Turbine.xloc b)
      \/ (num (Turbine.xloc a) = num (Turbine.xloc b)
          /\ num (Turbine.yloc a) < num (Turbine.yloc b)).
Proof using Type.
  intros Ha. rewrite (lt_xloc_value a b Ha). unfold Reqb, Rltb.
  destruct (Req_dec_T _ _) as [E | E].
  - destruct (Rlt_dec (Turbine.yloc a) (Turbine.yloc b)); split; intros H;
      first [discriminate | reflexivity | lra | right; split; assumption].
  - destruct (Rlt_dec (Turbine.xloc a) (Turbine.xloc b)); split; intros H;
      first [discriminate | reflexivity | lra | left; assumption].
Qed.

(** With the default key ["xloc"] the comparison never fails and is the
    lexicographic order on [(xloc, yloc)]: a strict order that is
    irreflexive, asymmetric and transitive, and that leaves two turbines
    unordered only when they agree on both coordinates. *)
Theorem lt_default_strict_order (a b c : Turbine.t Nml) :
  Turbine.sort_by a = "xloc"%string ->
  Turbine.sort_by b = "xloc"%string ->
  (Turbine.__lt__ py_lt a b = Ok true
   <-> num (Turbine.xloc a) < num (Turbine.xloc b)
       \/ (num (Turbine.xloc a) = num (Turbine.xloc b)
           /\ num (Turbine.yloc a) < num (Turbine.yloc b)))
  /\ (exists r, Turbine.__lt__ py_lt a b = Ok r)
  /\ Turbine.__lt__ py_lt a a = Ok false
  /\ (Turbine.__lt__ py_lt a b = Ok true -> Turbine.__lt__ py_lt b a = Ok false)
  /\ (Turbine.__lt__ py_lt a b = Ok true -> Turbine.__lt__ py_lt b c = Ok true ->
      Turbine.__lt__ py_lt a c = Ok true)
  /\ (Turbine.__lt__ py_lt a b = Ok false -> Turbine.__lt__ py_lt b a = Ok false ->
      num (Turbine.xloc a) = num (Turbine.xloc b)
      /\ num (Turbine.yloc a) = num (Turbine.yloc b)).
Proof using Type.
  intros Ha Hb.
  assert (Hfalse : forall u v : Turbine.t Nml,
             Turbine.sort_by u = "xloc"%string ->
             Turbine.__lt__ py_lt u v = Ok false
             <-> ~ (num (Turbine.xloc u) < num (Turbine.xloc v)
                    \/ (num (Turbine.xloc u) = num (Turbine.xloc v)
                        /\ num (Turbine.yloc u) < num (Turbine.yloc v)))).
  { intros u v Hu. rewrite <- (lt_xloc_true u v Hu), (lt_xloc_value u v Hu).
    destruct (if Reqb _ _ then _ else _); split; intros H;
      first [congruence | reflexivity | exfalso; apply H; reflexivity]. }
  split; [apply lt_xloc_true; exact Ha |].
  split; [rewrite (lt_xloc_value a b Ha); eexists; reflexivity |].
  split; [apply Hfalse; [exact Ha | lra] |].
  split; [intros H; apply (lt_xloc_true a b Ha) in H; apply Hfalse; [exact Hb | lra] |].
  split.
  - intros H1 H2. apply (lt_xloc_true a b Ha) in H1. apply (lt_xloc_true b c Hb) in H2.
    apply (lt_xloc_true a c Ha). lra.
  - intros H1 H2. apply (Hfalse a b Ha) in H1. apply (Hfalse b a Hb) in H2. lra.
Qed.

(** *** What the methods write *)

Lemma same_parameters_refl (o : Turbine.t Nml) : same_parameters o o.
Proof using Type. repeat split. Qed.

Lemma get_power_value (ud : option R) (ufield : option Array3) (s : state) :
  Turbine.get_power key_search_r ud ufield s
  = match ud, ufield with
    | Some v, _ =>
        (Ok (get_power v (Turbine.diam (Turbine.self s)) 1 (Turbine.ct (Turbine.self s))), s)
    | None, None => (Raise TypeError, s)
    | None, Some u =>
        match fst (Turbine.get_REWS key_search_r u None s) with
        | Ok r =>
            (Ok (get_power r (Turbine.diam (Turbine.self s)) 1
                           (Turbine.ct (Turbine.self s))), s)
        | Raise e => (Raise e, s)
        end
    end.
Proof using Type.
  unfold Turbine.get_power. run.
  destruct ud as [v |]; [destruct ufield; reflexivity |].
  destruct ufield as [u |]; [| reflexivity].
  rewrite get_REWS_value.
  destruct (Turbine.is_none (Turbine.kernel (Turbine.self s)) && Turbine.is_none None);
    cbn [fst]; [reflexivity |].
  destruct (get_REWS u _ _); reflexivity.
Qed.

(** No method touches the parameters of the turbine.  [get_REWS] and
    [get_power] leave the whole state as it was; [set_sort] writes
    [sort_by] only, [get_correction] writes [M] only, and [get_kernel]
    writes [kernel] only, whether they return or raise; so [pos] stays the
    triple of the coordinates for the lifetime of the object. *)
Theorem methods_keep_parameters (s : state) :
  (forall ufield kernel, snd (Turbine.get_REWS key_search_r ufield kernel s) = s)
  /\ (forall ud ufield, snd (Turbine.get_power key_search_r ud ufield s) = s)
  /\ (forall sort,
         let o' := Turbine.self (snd (Turbine.set_sort sort s)) in
         same_parameters (Turbine.self s) o'
         /\ Turbine.kernel o' = Turbine.kernel (Turbine.self s)
         /\ Turbine.M o' = Turbine.M (Turbine.self s))
  /\ (forall return_correction,
         let o' := Turbine.self (snd (Turbine.get_correction key_search_r
                                        return_correction s)) in
         same_parameters (Turbine.self s) o'
         /\ Turbine.kernel o' = Turbine.kernel (Turbine.self s)
         /\ Turbine.sort_by o' = Turbine.sort_by (Turbine.self s))
  /\ (forall x y z ADM_type fwidth buffer_fact return_kernel normalize overwrite,
         let o' := Turbine.self (snd (Turbine.get_kernel key_search_r get_xids x y z
                                        ADM_type fwidth buffer_fact
                                        return_kernel normalize overwrite s)) in
         same_parameters (Turbine.self s) o'
         /\ Turbine.M o' = Turbine.M (Turbine.self s)
         /\ Turbine.sort_by o' = Turbine.sort_by (Turbine.self s)).
Proof using Type.
  split; [| split; [| split; [| split]]].
  - intros ufield kernel. rewrite get_REWS_value.
    destruct (_ && _); reflexivity.
  - intros ud ufield. rewrite get_power_value.
    destruct ud; [reflexivity |]. destruct ufield; [| reflexivity].
    destruct (fst _); reflexivity.
  - intros sort. cbv zeta. unfold Turbine.set_sort. run.
    destruct (Turbine.dict_in sort _); cbn [snd Turbine.self];
      (split; [repeat split | split; reflexivity]).
  - intros return_correction. cbv zeta. rewrite get_correction_value. cbv zeta.
    destruct return_correction; cbn [snd Turbine.self];
      (split; [repeat split | split; reflexivity]).
  - intros x y z ADM_type fwidth buffer_fact return_kernel normalize overwrite.
    cbv zeta.
    assert (Hcases : (exists K, Turbine.kernel (Turbine.self s) = Some K /\ overwrite = false)
                     \/ (Turbine.kernel (Turbine.self s) = None \/ overwrite = true)).
    { destruct (Turbine.kernel (Turbine.self s)) as [K |]; [| auto].
      destruct overwrite; [auto |]. left. exists K. auto. }
    destruct Hcases as [(K & HK & ->) | Hsynth].
    + rewrite (get_kernel_cached key_search_r get_xids s x y z ADM_type fwidth
                 buffer_fact return_kernel normalize K HK).
      cbn [snd]. split; [apply same_parameters_refl | split; reflexivity].
    + destruct (Z.eq_dec ADM_type 5) as [-> | Hne].
      * rewrite get_kernel_synth by exact Hsynth.
        destruct (fst (Turbine.resolve_fwidth _ _ _));
          [| cbn [snd]; split; [apply same_parameters_refl | split; reflexivity]].
        destruct (fst (Turbine.accumulate _ _ _ _ _ _ _));
          [| cbn [snd]; split; [apply same_parameters_refl | split; reflexivity]].
        destruct (Turbine.normalise _ _ _ _ _);
          [| cbn [snd]; split; [apply same_parameters_refl | split; reflexivity]].
        destruct return_kernel; cbn [snd Turbine.self];
          (split; [repeat split | split; reflexivity]).
      * rewrite get_kernel_other_type by assumption.
        cbn [snd]. split; [apply same_parameters_refl | split; reflexivity].
Qed.

(** *** Power of the turbine *)

(** [Turbine.get_power] with a disk velocity ignores the wind field and
    uses the turbine's diameter, unit density and [ct] as power
    coefficient; with neither a velocity nor a field it raises
    [TypeError]; with a field alone it is the power of the
    rotor-equivalent wind speed on a turbine that holds a kernel and a
    correction factor, and the "No kernel found" error on one that holds
    no kernel. *)
Theorem Turbine_get_power_cases (s : state) :
  (forall v ufield,
      Turbine.get_power key_search_r (Some v) ufield s
      = (Ok (0.5 * 1 * num (Turbine.diam (Turbine.self s)) ^ 2 / 4 * PI
             * num (Turbine.ct (Turbine.self s)) * v ^ 3), s))
  /\ Turbine.get_power key_search_r None None s = (Raise TypeError, s)
  /\ (forall u K m r,
         Turbine.kernel (Turbine.self s) = Some K ->
         Turbine.M (Turbine.self s) = Some m ->
         get_REWS u (Some K) (Some m) = Ok r ->
         Turbine.get_power key_search_r None (Some u) s
         = (Ok (get_power r (Turbine.diam (Turbine.self s)) 1
                          (Turbine.ct (Turbine.self s))), s))
  /\ (forall u,
         Turbine.kernel (Turbine.self s) = None ->
         Turbine.get_power key_search_r None (Some u) s
         = (Raise (ValueError "Turbine.get_REWS(): No kernel found"), s)).
Proof using Type.
  split; [| split; [| split]].
  - intros v ufield. rewrite get_power_value. reflexivity.
  - rewrite get_power_value. reflexivity.
  - intros u K m r HK HM Hr. rewrite get_power_value, get_REWS_value, HK, HM.
    cbn [Turbine.is_none andb fst]. rewrite Hr. reflexivity.
  - intros u HK. rewrite get_power_value, get_REWS_value, HK. reflexivity.
Qed.

(** *** Storing the correction factor *)


(** *** Rotation of the control points *)

Lemma zip3_rotated (c : R * R * R) (yaw tilt : R) (xc yc zc : list R) :
  let '(x0, y0, z0) := c in
  let xtmp := zip_with (fun x y =>
    (x - x0) * cos (yaw * PI / 180) - (y - y0) * sin (yaw * PI / 180) + x0) xc yc in
  let ytmp := zip_with (fun x y =>
    (x - x0) * sin (yaw * PI / 180) + (y - y0) * cos (yaw * PI / 180) + y0) xc yc in
  Turbine.zip3
    (zip_with (fun x z =>
       (x - x0) * cos (tilt * PI / 180) + (z - z0) * sin (tilt * PI / 180) + x0) xtmp zc)
    ytmp
    (zip_with (fun x z =>
       - (x - x0) * sin (tilt * PI / 180) + (z - z0) * cos (tilt * PI / 180) + z0) xtmp zc)
  = map (rotate_point c yaw tilt) (Turbine.zip3 xc yc zc).
Proof using Type.
  destruct c as [[x0 y0] z0]. cbv zeta.
  revert yc zc. induction xc as [| x xc IH]; intros [| y yc] [| z zc]; cbn;
    try reflexivity.
  f_equal. apply IH.
Qed.

(** What [_rotate_ctrl_pts] returns, point by point. *)
Lemma rotate_pointwise (s : state) (xc yc zc : list R) (yaw tilt : value) :
  Turbine.yaw (Turbine.self s) = Some yaw ->
  Turbine.tilt (Turbine.self s) = Some tilt ->
  num yaw <> 0 \/ num tilt <> 0 ->
  exists xc' yc' zc',
    Turbine._rotate_ctrl_pts xc yc zc s = (Ok (xc', yc', zc'), s)
    /\ Turbine.zip3 xc' yc' zc'
       = map (rotate_point (centre (Turbine.self s)) yaw tilt) (Turbine.zip3 xc yc zc).
Proof using Type.
  intros Hyaw Htilt Hne. unfold Turbine._rotate_ctrl_pts. run.
  rewrite Hyaw, Htilt. cbn [fst snd].
  assert (Hskip : Reqb yaw 0 = false \/ (Reqb yaw 0 = true /\ Reqb tilt 0 = false)).
  { unfold Reqb. destruct (Req_dec_T yaw 0), (Req_dec_T tilt 0); auto.
    destruct Hne; contradiction. }
  destruct Hskip as [-> | [-> ->]];
    (do 3 eexists; split; [reflexivity |];
     apply (zip3_rotated (centre (Turbine.self s)) yaw tilt xc yc zc)).
Qed.

Lemma rotate_point_distance (c p : R * R * R) (yaw tilt : R) :
  dist2 (rotate_point c yaw tilt p) c = dist2 p c.
Proof using Type.
  destruct c as [[x0 y0] z0], p as [[x y] z]. unfold rotate_point, dist2.
  set (sy := sin (yaw * PI / 180)). set (cy := cos (yaw * PI / 180)).
  set (st := sin (tilt * PI / 180)). set (ct := cos (tilt * PI / 180)).
  assert (Hy : sy * sy + cy * cy = 1)
    by (pose proof (sin2_cos2 (yaw * PI / 180)) as H; unfold Rsqr in H; exact H).
  assert (Ht : st * st + ct * ct = 1)
    by (pose proof (sin2_cos2 (tilt * PI / 180)) as H; unfold Rsqr in H; exact H).
  set (a := x - x0). set (b := y - y0). set (d := z - z0).
  transitivity (((a * cy - b * sy) ^ 2 + d ^ 2) * (st * st + ct * ct)
                + (a * sy + b * cy) ^ 2); [ring |].
  rewrite Ht.
  transitivity ((a ^ 2 + b ^ 2) * (sy * sy + cy * cy) + d ^ 2); [ring |].
  rewrite Hy. ring.
Qed.

Lemma rotate_keeps_distance_aux (s s' : state) (xc yc zc xc' yc' zc' : list R) :
  Turbine._rotate_ctrl_pts xc yc zc s = (Ok (xc', yc', zc'), s') ->
  length yc = length xc -> length zc = length xc ->
  map (fun p => dist2 p (centre (Turbine.self s))) (Turbine.zip3 xc' yc' zc')
  = map (fun p => dist2 p (centre (Turbine.self s))) (Turbine.zip3 xc yc zc)
  /\ length xc' = length xc /\ length yc' = length xc /\ length zc' = length xc.
Proof using Type.
  intros H Hy Hz.
  destruct (rotate_lengths s s' xc yc zc xc' yc' zc' H Hy Hz) as (-> & Lx & Ly & Lz).
  split; [| auto].
  destruct (Turbine.yaw (Turbine.self s)) as [yaw |] eqn:Hyaw;
    [| rewrite rotate_missing_yaw in H by exact Hyaw; discriminate].
  destruct (Turbine.tilt (Turbine.self s)) as [tilt |] eqn:Htilt.
  - destruct (Req_dec (num yaw) 0) as [Ey | Ey];
      [destruct (Req_dec (num tilt) 0) as [Et | Et] |].
    + rewrite (rotate_identity s xc yc zc yaw tilt Hyaw Htilt Ey Et) in H.
      injection H as <- <- <-. reflexivity.
    + destruct (rotate_pointwise s xc yc zc yaw tilt Hyaw Htilt (or_intror Et))
        as (xr & yr & zr & Hr & Hz3).
      rewrite Hr in H. injection H as <- <- <-.
      rewrite Hz3, map_map. apply map_ext. intros p. apply rotate_point_distance.
    + destruct (rotate_pointwise s xc yc zc yaw tilt Hyaw Htilt (or_introl Ey))
        as (xr & yr & zr & Hr & Hz3).
      rewrite Hr in H. injection H as <- <- <-.
      rewrite Hz3, map_map. apply map_ext. intros p. apply rotate_point_distance.
  - exfalso. revert H. unfold Turbine._rotate_ctrl_pts. run.
    rewrite Hyaw, Htilt. cbn. destruct (Reqb yaw 0); discriminate.
Qed.

(** The rotation is rigid about the disk centre: each control point comes
    back at the distance from the centre that it had, and as many points
    come back as went in. *)
Theorem rotate_keeps_distance (s s' : state) (xc yc zc xc' yc' zc' : list R) :
  Turbine._rotate_ctrl_pts xc yc zc s = (Ok (xc', yc', zc'), s') ->
  length yc = length xc -> length zc = length xc ->
  length xc' = length xc /\ length yc' = length xc /\ length zc' = length xc
  /\ map (fun p => dist2 p (centre (Turbine.self s))) (Turbine.zip3 xc' yc' zc')
     = map (fun p => dist2 p (centre (Turbine.self s))) (Turbine.zip3 xc yc zc).
Proof using Type.
  intros H Hy Hz.
  destruct (rotate_keeps_distance_aux s s' xc yc zc xc' yc' zc' H Hy Hz)
    as (Hd & Lx & Ly & Lz).
  auto.
Qed.

Lemma rotate_point_zero (c p : R * R * R) (yaw tilt : R) :
  yaw = 0 -> tilt = 0 -> rotate_point c yaw tilt p = p.
Proof using Type.
  intros -> ->. destruct c as [[x0 y0] z0], p as [[x y] z]. unfold rotate_point.
  replace (0 * PI / 180) with 0 by (unfold Rdiv; ring).
  rewrite cos_0, sin_0. apply f_equal2; [apply f_equal2 |]; ring.
Qed.

(** On three arrays of one length the rotation acts on each point as a yaw
    about the vertical through the disk centre followed by a tilt about the
    horizontal.  Without tilt
    the heights stay; without yaw the [y] coordinates stay; a yaw of 90
    degrees carries an offset along [+y] into the same offset along [-x],
    and a tilt of 90 degrees carries an offset along [+z] into the same
    offset along [+x]. *)
Theorem rotate_is_yaw_then_tilt (s : state) (xc yc zc : list R) (yaw tilt : value) :
  Turbine.yaw (Turbine.self s) = Some yaw ->
  Turbine.tilt (Turbine.self s) = Some tilt ->
  length yc = length xc -> length zc = length xc ->
  let c := centre (Turbine.self s) in
  let x0 := num (Turbine.xloc (Turbine.self s)) in
  let y0 := num (Turbine.yloc (Turbine.self s)) in
  let z0 := num (Turbine.zloc (Turbine.self s)) in
  (exists xc' yc' zc',
      Turbine._rotate_ctrl_pts xc yc zc s = (Ok (xc', yc', zc'), s)
      /\ Turbine.zip3 xc' yc' zc'
         = map (rotate_point c yaw tilt) (Turbine.zip3 xc yc zc))
  /\ (num tilt = 0 -> forall x y z, snd (rotate_point c yaw tilt (x, y, z)) = z)
  /\ (num yaw = 0 -> forall x y z, snd (fst (rotate_point c yaw tilt (x, y, z))) = y)
  /\ (num yaw = 90 -> num tilt = 0 ->
      forall x y z,
        rotate_point c yaw tilt (x, y, z) = (x0 - (y - y0), y0 + (x - x0), z))
  /\ (num yaw = 0 -> num tilt = 90 ->
      forall x y z,
        rotate_point c yaw tilt (x, y, z) = (x0 + (z - z0), y, z0 - (x - x0))).
Proof using Type.
  intros Hyaw Htilt _ _. cbv zeta. unfold centre.
  assert (Hquarter : 90 * PI / 180 = PI / 2) by (unfold Rdiv; field).
  assert (Hzero : 0 * PI / 180 = 0) by (unfold Rdiv; ring).
  split; [| split; [| split; [| split]]].
  - destruct (Req_dec (num yaw) 0) as [Ey | Ey];
      [destruct (Req_dec (num tilt) 0) as [Et | Et] |].
    + exists xc, yc, zc. split; [apply (rotate_identity s xc yc zc yaw tilt); assumption |].
      rewrite <- (map_id (Turbine.zip3 xc yc zc)) at 1.
      apply map_ext. intros p. symmetry. apply rotate_point_zero; assumption.
    + apply (rotate_pointwise s xc yc zc yaw tilt Hyaw Htilt). right. exact Et.
    + apply (rotate_pointwise s xc yc zc yaw tilt Hyaw Htilt). left. exact Ey.
  - intros Et x y z. unfold rotate_point. rewrite Et, Hzero, cos_0, sin_0.
    cbn [snd]. ring.
  - intros Ey x y z. unfold rotate_point. rewrite Ey, Hzero, cos_0, sin_0.
    cbn [fst snd]. ring.
  - intros Ey Et x y z. unfold rotate_point.
    rewrite Ey, Et, Hquarter, Hzero, cos_0, sin_0, cos_PI2, sin_PI2.
    apply f_equal2; [apply f_equal2 |]; ring.
  - intros Ey Et x y z. unfold rotate_point.
    rewrite Ey, Et, Hquarter, Hzero, cos_0, sin_0, cos_PI2, sin_PI2.
    apply f_equal2; [apply f_equal2 |]; ring.
Qed.

(** *** Control points *)

Lemma spacing_short (a : Axis) : (length a < 2)%nat -> Turbine.spacing a = Raise IndexError.
Proof using Type.
  intros H. destruct a as [| a0 [| a1 a]]; cbn in H; try lia; reflexivity.
Qed.

Lemma spacing_cases (a : Axis) :
  Turbine.spacing a = Raise IndexError \/ exists d, Turbine.spacing a = Ok d.
Proof using Type.
  destruct a as [| a0 [| a1 a]]; [left | left | right; eexists]; reflexivity.
Qed.

(** [_get_ctrl_pts] fails in this order: [IndexError] when an axis has
    fewer than two nodes, before any attribute is read; else, when the
    spacings [y[1] - y[0]] and [z[1] - z[0]] that [diam / 2] is divided by
    are not zero, [AttributeError] for [yaw] when the turbine has none;
    else [AttributeError] for [tilt] when the turbine has none; and it
    returns control points in every other case.  The call is counted in
    each case. *)
Theorem get_ctrl_pts_errors (s : state) (x y z : Axis) :
  ((length x < 2)%nat \/ (length y < 2)%nat \/ (length z < 2)%nat ->
   Turbine._get_ctrl_pts x y z s = (Raise IndexError, Turbine.ticked s))
  /\ (forall dx dy dz,
      Turbine.spacing x = Ok dx -> Turbine.spacing y = Ok dy ->
      Turbine.spacing z = Ok dz -> dy <> 0 -> dz <> 0 ->
      (Turbine.yaw (Turbine.self s) = None ->
       Turbine._get_ctrl_pts x y z s
       = (Raise (AttributeError "yaw"), Turbine.ticked s))
      /\ (Turbine.yaw (Turbine.self s) <> None ->
          Turbine.tilt (Turbine.self s) = None ->
          Turbine._get_ctrl_pts x y z s
          = (Raise (AttributeError "tilt"), Turbine.ticked s))
      /\ (Turbine.yaw (Turbine.self s) <> None ->
          Turbine.tilt (Turbine.self s) <> None ->
          exists pts, Turbine._get_ctrl_pts x y z s = (Ok pts, Turbine.ticked s))).
Proof using Type.
  split.
  - intros H. unfold Turbine._get_ctrl_pts. run.
    destruct (spacing_cases x) as [Ex | [dx Ex]]; rewrite Ex; [reflexivity |].
    destruct (spacing_cases y) as [Ey | [dy Ey]]; rewrite Ey; [reflexivity |].
    destruct (spacing_cases z) as [Ez | [dz Ez]]; rewrite Ez; [reflexivity |].
    exfalso. destruct H as [H | [H | H]]; apply spacing_short in H; congruence.
  - intros dx dy dz Ex Ey Ez _ _.
    rewrite (get_ctrl_pts_unfold s x y z dx dy dz Ex Ey Ez). cbv zeta.
    split; [| split].
    + intros Hyaw. apply rotate_missing_yaw. exact Hyaw.
    + intros Hyaw Htilt. unfold Turbine._rotate_ctrl_pts. run.
      cbn [Turbine.ticked Turbine.self].
      destruct (Turbine.yaw (Turbine.self s)) as [yaw |]; [| contradiction].
      rewrite Htilt. cbn. destruct (Reqb yaw 0); reflexivity.
    + intros Hyaw Htilt.
      destruct (Turbine.yaw (Turbine.self s)) as [yaw |] eqn:Eyaw; [| contradiction].
      destruct (Turbine.tilt (Turbine.self s)) as [tilt |] eqn:Etilt; [| contradiction].
      apply (rotate_total (Turbine.ticked s) _ _ _ yaw tilt); assumption.
Qed.

Lemma zip3_masked (P : R -> R -> bool) (x0 y0 z0 : R) (yr zr : list R) (count : nat) :
  Forall (fun p => exists yv zv, p = (0 + x0, yv + y0, zv + z0) /\ P yv zv = true)
         (Turbine.zip3 (map (fun v => v + x0) (repeat 0 count))
                       (map (fun v => v + y0) (select (zip_with P yr zr) yr))
                       (map (fun v => v + z0) (select (zip_with P yr zr) zr))).
Proof using Type.
  revert zr count. induction yr as [| yv yr IH]; intros [| zv zr] count;
    try (destruct count; constructor).
  cbn [zip_with select]. destruct (P yv zv) eqn:EP; [| apply IH].
  destruct count as [| count]; [constructor |].
  cbn [repeat map Turbine.zip3]. constructor; [| apply IH].
  exists yv, zv. auto.
Qed.

(** Every control point lies strictly inside the sphere of radius
    [diam / 2] about the disk centre, whatever the grid, the yaw and the
    tilt. *)
Theorem ctrl_pts_within_disk (s s' : state) (x y z : Axis) (xc yc zc : list R) :
  Turbine._get_ctrl_pts x y z s = (Ok (xc, yc, zc), s') ->
  Forall (fun p => dist2 p (centre (Turbine.self s))
                   < (num (Turbine.diam (Turbine.self s)) / 2) ^ 2)
         (Turbine.zip3 xc yc zc).
Proof using Type.
  intros H.
  assert (Hsp : exists dx dy dz, Turbine.spacing x = Ok dx /\ Turbine.spacing y = Ok dy
                                 /\ Turbine.spacing z = Ok dz).
  { revert H. unfold Turbine._get_ctrl_pts. run.
    destruct (Turbine.spacing x) as [dx |]; [| discriminate].
    destruct (Turbine.spacing y) as [dy |]; [| discriminate].
    destruct (Turbine.spacing z) as [dz |]; [| discriminate].
    intros _. exists dx, dy, dz. auto. }
  destruct Hsp as (dx & dy & dz & Ex & Ey & Ez).
  rewrite (get_ctrl_pts_unfold s x y z dx dy dz Ex Ey Ez) in H. cbv zeta in H.
  set (R0 := Turbine.diam (Turbine.self s) / 2) in *.
  set (yr := Turbine.yravel (Turbine.lattice_axis R0 dy) (Turbine.lattice_axis R0 dz)) in *.
  set (zr := Turbine.zravel (Turbine.lattice_axis R0 dy) (Turbine.lattice_axis R0 dz)) in *.
  pose proof (zip3_masked (fun yv zv => Rltb (yv ^ 2 + zv ^ 2) (R0 ^ 2))
                (Turbine.xloc (Turbine.self s)) (Turbine.yloc (Turbine.self s))
                (Turbine.zloc (Turbine.self s)) yr zr
                (count_true (Turbine.disk_mask R0 yr zr))) as Hin.
  fold (Turbine.disk_mask R0 yr zr) in Hin.
  assert (Hlen : length yr = length zr) by apply length_ravel.
  apply rotate_keeps_distance_aux in H.
  - destruct H as [Hd _]. rewrite !self_ticked in Hd.
    apply Forall_map with (f := fun p => dist2 p (centre (Turbine.self s)))
                          (P := fun d => d < R0 ^ 2).
    rewrite Hd. apply Forall_map.
    revert Hin. apply Forall_impl. intros p (yv & zv & -> & HP).
    unfold dist2, centre. unfold Rltb in HP.
    destruct (Rlt_dec (yv ^ 2 + zv ^ 2) (R0 ^ 2)); [| discriminate].
    replace ((0 + Turbine.xloc (Turbine.self s) - Turbine.xloc (Turbine.self s)) ^ 2
             + (yv + Turbine.yloc (Turbine.self s) - Turbine.yloc (Turbine.self s)) ^ 2
             + (zv + Turbine.zloc (Turbine.self s) - Turbine.zloc (Turbine.self s)) ^ 2)
      with (yv ^ 2 + zv ^ 2) by ring.
    assumption.
  - rewrite !length_map, repeat_length. apply length_select.
    unfold Turbine.disk_mask. apply length_zip_with. exact Hlen.
  - rewrite !length_map, repeat_length. apply length_select.
    unfold Turbine.disk_mask. rewrite length_zip_with by exact Hlen. exact Hlen.
Qed.

(** *** Kernel synthesis, node by node *)

Lemma floor_small_zero : Turbine.floor_small 0 = 0.
Proof using Type. apply floor_small_drops. lra. Qed.

(** What a successful accumulation has computed. *)
Lemma accumulate_inv (s s1 : state) (x y z : Axis) (fw buffer_fact : R) (K0 : Array3) :
  Turbine.accumulate get_xids x y z fw buffer_fact s = (Ok K0, s1) ->
  exists xc yc zc xlo xhi ylo yhi zlo zhi,
    Turbine._get_ctrl_pts x y z s = (Ok (xc, yc, zc), s1)
    /\ fw <> 0
    /\ extent xc xlo xhi /\ extent yc ylo yhi /\ extent zc zlo zhi
    /\ K0 = map3 Turbine.floor_small
              (fold_left
                 (Turbine.add_gaussian (Rpower (6 / PI / fw ^ 2) 1.5) fw x y z
                    (get_xids x y z
                       (xlo - buffer_fact * fw, xhi + buffer_fact * fw)
                       (ylo - buffer_fact * fw, yhi + buffer_fact * fw)
                       (zlo - buffer_fact * fw, zhi + buffer_fact * fw)))
                 (Turbine.zip3 xc yc zc)
                 (Turbine.zeros (length x) (length y) (length z))).
Proof using Type.
  unfold Turbine.accumulate, extent. run.
  destruct (Turbine._get_ctrl_pts x y z s) as [[[[xc yc] zc] | e] s2]; [| discriminate].
  unfold Turbine.normalising_constant.
  destruct (Reqb (fw ^ 2) 0) eqn:Efw; [discriminate |].
  destruct (py_min xc) as [xlo |] eqn:E1; [| discriminate].
  destruct (py_max xc) as [xhi |] eqn:E2; [| discriminate].
  destruct (py_min yc) as [ylo |] eqn:E3; [| discriminate].
  destruct (py_max yc) as [yhi |] eqn:E4; [| discriminate].
  destruct (py_min zc) as [zlo |] eqn:E5; [| discriminate].
  destruct (py_max zc) as [zhi |] eqn:E6; [| discriminate].
  intros H. injection H as <- <-.
  exists xc, yc, zc, xlo, xhi, ylo, yhi, zlo, zhi.
  split; [reflexivity |].
  split; [intros ->; rewrite Reqb_true in Efw by (cbn; ring); discriminate |].
  repeat split; assumption || reflexivity.
Qed.

(** What a successful request that reaches the synthesis has computed. *)
Lemma get_kernel_synth_inv (s s1 : state) (x y z : Axis) (ADM_type : Z)
      (fwidth : option R) (buffer_fact : R) (return_kernel normalize overwrite : bool)
      (r : option Array3) :
  Turbine.kernel (Turbine.self s) = None \/ overwrite = true ->
  Turbine.get_kernel key_search_r get_xids x y z ADM_type fwidth buffer_fact
                     return_kernel normalize overwrite s = (Ok r, s1) ->
  exists fw K0 dx dy dz,
    ADM_type = 5%Z
    /\ Turbine.resolve_fwidth key_search_r fwidth s = (Ok fw, s)
    /\ Turbine.accumulate get_xids x y z fw buffer_fact s = (Ok K0, Turbine.ticked s)
    /\ Turbine.spacing x = Ok dx /\ Turbine.spacing y = Ok dy /\ Turbine.spacing z = Ok dz
    /\ (r, s1)
       = if return_kernel
         then (Some (map3 (fun v => v / divisor normalize K0 dx dy dz) K0),
               Turbine.ticked s)
         else (None,
               Turbine.mkState
                 (Turbine.set_kernel
                    (map3 (fun v => v / divisor normalize K0 dx dy dz) K0)
                    (Turbine.self s))
                 (S (Turbine.ctrl_pts_calls s))).
Proof using Type.
  intros Hsynth H.
  destruct (Z.eq_dec ADM_type 5) as [-> | Hne];
    [| rewrite get_kernel_other_type in H by assumption; discriminate].
  rewrite get_kernel_synth in H by exact Hsynth.
  destruct (fst (Turbine.resolve_fwidth _ _ _)) as [fw |] eqn:Efw; [| discriminate].
  destruct (fst (Turbine.accumulate _ _ _ _ _ _ _)) as [K0 |] eqn:Eacc; [| discriminate].
  revert H. unfold Turbine.normalise, divisor.
  destruct (Turbine.spacing x) as [dx |]; [| discriminate].
  destruct (Turbine.spacing y) as [dy |]; [| discriminate].
  destruct (Turbine.spacing z) as [dz |]; [| discriminate].
  cbn [rbind]. intros H.
  exists fw, K0, dx, dy, dz.
  split; [reflexivity |].
  split; [rewrite resolve_fwidth_reader, Efw; reflexivity |].
  split; [rewrite accumulate_reader, Eacc; reflexivity |].
  repeat (split; [reflexivity |]).
  destruct normalize, return_kernel; injection H as <- <-; reflexivity.
Qed.

(** The kernel is a superposition of Gaussians on the grid.  A request
    that synthesises a kernel [K] has computed a field [K0] of the shape
    [(len(x), len(y), len(z))] that is, at every node, the sum over all
    control points of [C1 * exp(-6 / fwidth^2 * squared distance)] with
    [C1 = (6 / pi / fwidth^2)^1.5], floored at [1e-10], inside the index
    ranges that [get_xids] answered for the bounding box of the control
    points widened by [buffer_fact * fwidth], and 0 outside them.  [K] has
    the same shape and, when the divisor is not zero, is [K0] divided node
    by node by the total of [K0] ([normalize=True]) or by that total times
    the cell volume ([normalize=False]); so it is exactly 0 outside the
    index ranges. *)
Theorem kernel_is_superposition (s s1 : state) (x y z : Axis) (ADM_type : Z)
        (fwidth : option R) (buffer_fact : R) (normalize overwrite : bool) (K : Array3) :
  Turbine.kernel (Turbine.self s) = None \/ overwrite = true ->
  Turbine.get_kernel key_search_r get_xids x y z ADM_type fwidth buffer_fact
                     true normalize overwrite s = (Ok (Some K), s1) ->
  exists fw xc yc zc xlo xhi ylo yhi zlo zhi dx dy dz K0,
    Turbine.resolve_fwidth key_search_r fwidth s = (Ok fw, s)
    /\ Turbine._get_ctrl_pts x y z s = (Ok (xc, yc, zc), s1)
    /\ extent xc xlo xhi /\ extent yc ylo yhi /\ extent zc zlo zhi
    /\ Turbine.spacing x = Ok dx /\ Turbine.spacing y = Ok dy /\ Turbine.spacing z = Ok dz
    /\ has_shape (length x) (length y) (length z) K0
    /\ has_shape (length x) (length y) (length z) K
    /\ let ids := get_xids x y z
                    (xlo - buffer_fact * fw, xhi + buffer_fact * fw)
                    (ylo - buffer_fact * fw, yhi + buffer_fact * fw)
                    (zlo - buffer_fact * fw, zhi + buffer_fact * fw) in
       (forall i j k,
           (i < length x)%nat -> (j < length y)%nat -> (k < length z)%nat ->
           cell K0 i j k
           = Turbine.floor_small
               (superposition (Rpower (6 / PI / fw ^ 2) 1.5) fw x y z ids
                  (Turbine.zip3 xc yc zc) i j k))
       /\ (divisor normalize K0 dx dy dz <> 0 ->
           forall i j k,
             cell K i j k = cell K0 i j k / divisor normalize K0 dx dy dz
             /\ (in_box ids i j k = false -> cell K i j k = 0)).
Proof using Type.
  intros Hsynth H.
  destruct (get_kernel_synth_inv s s1 x y z ADM_type fwidth buffer_fact true normalize
              overwrite (Some K) Hsynth H)
    as (fw & K0 & dx & dy & dz & _ & Hfw & Hacc & Hdx & Hdy & Hdz & HK).
  injection HK as -> ->.
  destruct (accumulate_inv s _ x y z fw buffer_fact K0 Hacc)
    as (xc & yc & zc & xlo & xhi & ylo & yhi & zlo & zhi & Hc & _ & Hx & Hy & Hz & HK0).
  exists fw, xc, yc, zc, xlo, xhi, ylo, yhi, zlo, zhi, dx, dy, dz, K0.
  repeat (split; [assumption |]).
  subst K0. cbv zeta.
  set (ids := get_xids x y z _ _ _) in *.
  set (C1 := Rpower (6 / PI / fw ^ 2) 1.5) in *.
  set (K1 := fold_left _ _ _) in *.
  assert (Hacc1 : has_shape (length x) (length y) (length z) K1
                  /\ forall i j k,
                      cell K1 i j k
                      = if Nat.ltb i (length x) && Nat.ltb j (length y)
                           && Nat.ltb k (length z) && in_box ids i j k
                        then 0 + sum1 (map (fun c => Turbine.gaussian C1 fw x y z c i j k)
                                           (Turbine.zip3 xc yc zc))
                        else 0).
  { split.
    - apply (cell_accumulated C1 fw x y z ids (Turbine.zip3 xc yc zc) _
               (length x) (length y) (length z) 0%nat 0%nat 0%nat), has_shape_zeros.
    - intros i j k.
      destruct (cell_accumulated C1 fw x y z ids (Turbine.zip3 xc yc zc) _
                  (length x) (length y) (length z) i j k
                  (has_shape_zeros (length x) (length y) (length z))) as [_ Hcell].
      fold K1 in Hcell. rewrite Hcell, !cell_zeros. reflexivity. }
  destruct Hacc1 as [Hshape Hcell].
  split; [apply has_shape_map3, Hshape |].
  split; [apply has_shape_map3, has_shape_map3, Hshape |].
  split.
  - intros i j k Hi Hj Hk.
    rewrite cell_map3 by apply floor_small_zero.
    rewrite Hcell. unfold superposition.
    apply Nat.ltb_lt in Hi, Hj, Hk. rewrite Hi, Hj, Hk. cbn [andb].
    destruct (in_box ids i j k); [f_equal; ring | reflexivity].
  - intros _ i j k.
    assert (E : cell (map3 (fun v => v / divisor normalize
                                           (map3 Turbine.floor_small K1) dx dy dz)
                           (map3 Turbine.floor_small K1)) i j k
                = cell (map3 Turbine.floor_small K1) i j k
                  / divisor normalize (map3 Turbine.floor_small K1) dx dy dz).
    { apply cell_map3. unfold Rdiv. ring. }
    split; [exact E |].
    intros Hout. rewrite E.
    rewrite cell_map3 by apply floor_small_zero.
    rewrite Hcell, Hout, andb_false_r, floor_small_zero. unfold Rdiv. ring.
Qed.


(** A kernel synthesised with [normalize=True] is a weighting: when it
    sums to 1, each of its nodes lies between 0 and 1. *)
Theorem normalised_kernel_is_a_weighting (s s1 : state) (x y z : Axis) (ADM_type : Z)
        (fwidth : option R) (buffer_fact : R) (overwrite : bool) (K : Array3) :
  Turbine.kernel (Turbine.self s) = None \/ overwrite = true ->
  Turbine.get_kernel key_search_r get_xids x y z ADM_type fwidth buffer_fact
                     true true overwrite s = (Ok (Some K), s1) ->
  sum3 K = 1 ->
  all_nodes (fun v => 0 <= v <= 1) K.
Proof using Type.
  intros Hsynth H H1.
  destruct (get_kernel_synth_inv s s1 x y z ADM_type fwidth buffer_fact true true
              overwrite (Some K) Hsynth H)
    as (fw & K0 & dx & dy & dz & _ & _ & Hacc & _ & _ & _ & HK).
  injection HK as -> ->.
  destruct (accumulate_inv s _ x y z fw buffer_fact K0 Hacc)
    as (xc & yc & zc & xlo & xhi & ylo & yhi & zlo & zhi & _ & _ & _ & _ & _ & HK0).
  unfold divisor in *.
  assert (Hnn : all_nodes (fun v => 0 <= v) K0).
  { rewrite HK0. apply (all_nodes_map3 (fun _ => True)).
    - intros v _. apply floor_small_nonneg.
    - apply all_nodes_any. exact (fun _ => I). }
  pose proof (node_le_sum3 K0 Hnn) as Hle.
  rewrite sum3_scale in H1.
  assert (HS : sum3 K0 <> 0).
  { intros E. rewrite E in H1. unfold Rdiv in H1. rewrite Rmult_0_l in H1. lra. }
  assert (HS' : 0 < sum3 K0).
  { assert (0 <= sum3 K0); [| lra].
    unfold sum3. apply sum1_nonneg. rewrite Forall_forall.
    intros a Ha. apply in_map_iff in Ha. destruct Ha as (plane & <- & Hp).
    unfold sum2. apply sum1_nonneg. rewrite Forall_forall.
    intros a Ha. apply in_map_iff in Ha. destruct Ha as (row & <- & Hr).
    apply sum1_nonneg.
    unfold all_nodes in Hnn. rewrite Forall_forall in Hnn. specialize (Hnn plane Hp).
    rewrite Forall_forall in Hnn. exact (Hnn row Hr). }
  apply (all_nodes_map3 (fun v => 0 <= v <= sum3 K0)); [| exact Hle].
  intros v [Hv0 HvS]. split.
  - apply Rmult_le_pos; [exact Hv0 |]. apply Rlt_le, Rinv_0_lt_compat, HS'.
  - apply (Rmult_le_reg_r (sum3 K0)); [exact HS' |].
    unfold Rdiv. rewrite Rmult_assoc, Rinv_l by exact HS. lra.
Qed.

(** [return_kernel] chooses between handing the kernel out and storing it,
    and nothing else: a request with [return_kernel=True] that succeeds
    leaves the object as it was, also under [overwrite=True], and the same
    request with [return_kernel=False] returns [None] and leaves on
    [self.kernel] exactly the kernel that was handed out, after as many
    calls of [_get_ctrl_pts]. *)
Theorem get_kernel_return_or_store (s s1 : state) (x y z : Axis) (ADM_type : Z)
        (fwidth : option R) (buffer_fact : R) (normalize overwrite : bool) (K : Array3) :
  Turbine.get_kernel key_search_r get_xids x y z ADM_type fwidth buffer_fact
                     true normalize overwrite s = (Ok (Some K), s1) ->
  Turbine.self s1 = Turbine.self s
  /\ exists s2,
       Turbine.get_kernel key_search_r get_xids x y z ADM_type fwidth buffer_fact
                          false normalize overwrite s = (Ok None, s2)
       /\ Turbine.kernel (Turbine.self s2) = Some K
       /\ same_parameters (Turbine.self s) (Turbine.self s2)
       /\ Turbine.ctrl_pts_calls s2 = Turbine.ctrl_pts_calls s1.
Proof using Type.
  intros H.
  assert (Hcase : (exists K', Turbine.kernel (Turbine.self s) = Some K' /\ overwrite = false)
                  \/ (Turbine.kernel (Turbine.self s) = None \/ overwrite = true)).
  { destruct (Turbine.kernel (Turbine.self s)) as [K' |], overwrite; eauto. }
  destruct Hcase as [(K' & HK' & ->) | Hsynth].
  - rewrite (get_kernel_cached key_search_r get_xids s x y z ADM_type fwidth buffer_fact
               true normalize K' HK') in H.
    injection H as -> <-.
    split; [reflexivity |]. exists s.
    rewrite (get_kernel_cached key_search_r get_xids s x y z ADM_type fwidth buffer_fact
               false normalize K HK').
    repeat split; try reflexivity. exact HK'.
  - destruct (get_kernel_synth_inv s s1 x y z ADM_type fwidth buffer_fact true normalize
                overwrite (Some K) Hsynth H)
      as (fw & K0 & dx & dy & dz & -> & Hfw & Hacc & Hdx & Hdy & Hdz & HK).
    injection HK as -> ->.
    split; [apply self_ticked |].
    rewrite get_kernel_synth by exact Hsynth.
    rewrite resolve_fwidth_reader in Hfw. injection Hfw as Hfw. rewrite Hfw.
    rewrite accumulate_reader in Hacc. injection Hacc as Hacc. rewrite Hacc.
    unfold Turbine.normalise, divisor. rewrite Hdx, Hdy, Hdz. cbn [rbind].
    destruct normalize; eexists; (split; [reflexivity |]);
      repeat split; reflexivity.
Qed.

(** Without a filter width the synthesis does not start: when the
    [fwidth] argument is omitted and the namelist has no [filterwidth], a
    request of type 5 that gets past the cache raises the [ValueError] of
    line 232 before any control point is generated, and the object is as
    before. *)
Theorem get_kernel_missing_filterwidth (s : state) (x y z : Axis) (buffer_fact : R)
        (return_kernel normalize overwrite : bool) :
  Turbine.kernel (Turbine.self s) = None \/ overwrite = true ->
  key_search_r (Turbine.input_nml (Turbine.self s)) "filterwidth" = None ->
  Turbine.get_kernel key_search_r get_xids x y z 5 None buffer_fact
                     return_kernel normalize overwrite s
  = (Raise (ValueError
              "Turbine.get_kernel(): no filterwidth found in the turbine input file"),
     s).
Proof using Type.
  intros Hsynth Hnone. rewrite get_kernel_synth by exact Hsynth.
  unfold Turbine.resolve_fwidth. run. rewrite Hnone. reflexivity.
Qed.

(** The [fwidth] argument defaults to the namelist's [filterwidth]: when
    the namelist has one, omitting the argument is the same request as
    passing that value, whatever the other arguments and the state. *)
Theorem get_kernel_default_filterwidth (s : state) (x y z : Axis) (ADM_type : Z)
        (buffer_fact : R) (return_kernel normalize overwrite : bool) (v : value) :
  key_search_r (Turbine.input_nml (Turbine.self s)) "filterwidth" = Some v ->
  Turbine.get_kernel key_search_r get_xids x y z ADM_type None buffer_fact
                     return_kernel normalize overwrite s
  = Turbine.get_kernel key_search_r get_xids x y z ADM_type (Some (num v)) buffer_fact
                       return_kernel normalize overwrite s.
Proof using Type.
  intros Hv.
  assert (Hcase : (exists K', Turbine.kernel (Turbine.self s) = Some K' /\ overwrite = false)
                  \/ (Turbine.kernel (Turbine.self s) = None \/ overwrite = true)).
  { destruct (Turbine.kernel (Turbine.self s)) as [K' |], overwrite; eauto. }
  destruct Hcase as [(K' & HK' & ->) | Hsynth].
  - rewrite !(get_kernel_cached key_search_r get_xids s x y z ADM_type _ buffer_fact
                return_kernel normalize K' HK'). reflexivity.
  - destruct (Z.eq_dec ADM_type 5) as [-> | Hne].
    + rewrite !get_kernel_synth by exact Hsynth.
      unfold Turbine.resolve_fwidth. run. rewrite Hv. reflexivity.
    + rewrite !get_kernel_other_type by assumption. reflexivity.
Qed.

End MoreProperties.

(** ** The further properties on the example turbines *)

(** The normalised kernel on the unit grid sums to one. *)
Lemma example_kernel_sum :
  exists K,
    Turbine.get_kernel Example.key_search_r Example.whole_grid
      Example.unit_axis Example.unit_axis Example.unit_axis 5 None 3
      true true false (Turbine.mkState (Example.fresh 0) 0)
    = (Ok (Some K), Turbine.mkState (Example.fresh 0) 1)
    /\ sum3 K = 1.
Proof.
  destruct example_accumulate as (K0 & Hpos & Hacc).
  exists (map3 (fun v => v / sum3 K0) K0).
  rewrite get_kernel_synth by (left; reflexivity).
  cbn [Turbine.self]. rewrite example_resolve. cbn [fst].
  rewrite Hacc. cbn [fst].
  unfold Example.unit_axis.
  rewrite normalise_sum by (apply grid_axis_pair; lra).
  split; [reflexivity |]. rewrite sum3_scale. field. lra.
Qed.

(** A namelist that stops after [yloc] is refused for [zloc]. *)
Lemma init_required_witness :
  Turbine.__init__ Example.key_search_r
    [("xloc", VNum 0); ("yloc", VNum 0)]%string (-1) false "xloc"
  = Raise (AttributeError "zloc").
Proof.
  apply (proj2 (init_required Example.key_search_r
                  [("xloc", VNum 0); ("yloc", VNum 0)]%string (-1) false "xloc")
               ["xloc"; "yloc"]%string "zloc"%string ["ct"; "diam"]%string).
  - reflexivity.
  - repeat constructor; discriminate.
  - reflexivity.
Defined.

(** The example turbine as the constructor leaves it. *)
Lemma init_attributes_witness :
  Turbine.kernel (Example.fresh 0) = None
  /\ Turbine.yaw (Example.fresh 0) = Example.key_search_r (Example.nml_at 0) "yaw"
  /\ Turbine.pos (Example.fresh 0)
     = (Turbine.xloc (Example.fresh 0), Turbine.yloc (Example.fresh 0),
        Turbine.zloc (Example.fresh 0)).
Proof.
  destruct (init_attributes Example.key_search_r (Example.nml_at 0) (-1) false "xloc"
              (Example.fresh 0) eq_refl)
    as (H1 & _ & _ & _ & _ & _ & _ & _ & _ & H2 & _ & _ & _ & H3 & _).
  exact (conj H1 (conj H2 H3)).
Defined.

(** On the example turbine [set_sort] accepts ["yaw"] and refuses
    ["hub"]. *)
Lemma set_sort_checked_witness :
  Turbine.set_sort "yaw" (Turbine.mkState (Example.fresh 0) 0)
  = (Ok tt, Turbine.mkState (Turbine.set_sort_by "yaw" (Example.fresh 0)) 0)
  /\ Turbine.set_sort "hub" (Turbine.mkState (Example.fresh 0) 0)
     = (Raise (ValueError
          "Turbine.set_sort(): given variable does not exist for the turbine object"),
        Turbine.mkState (Example.fresh 0) 0).
Proof.
  split.
  - exact (proj1 (proj1 (set_sort_checked (fun _ _ => Ok false) "yaw"
                           (Turbine.mkState (Example.fresh 0) 0)) eq_refl)).
  - exact (proj2 (set_sort_checked (fun _ _ => Ok false) "hub"
                    (Turbine.mkState (Example.fresh 0) 0)) eq_refl).
Defined.

(** Sorting by ["yaw"] a turbine that has one against a turbine that has
    none. *)
Lemma lt_key_missing_on_other_witness :
  Turbine.__lt__ (fun _ _ => Ok false)
    (Turbine.set_sort_by "yaw" (Example.fresh 0)) Example.unrotated
  = Raise (KeyError "yaw").
Proof.
  apply (lt_key_missing_on_other (fun _ _ => Ok false)
           (Turbine.set_sort_by "yaw" (Example.fresh 0)) Example.unrotated).
  - discriminate.
  - reflexivity.
  - reflexivity.
Defined.

(** Turbines at 0, 1 and 2 along [x]. *)
Lemma lt_default_strict_order_witness :
  Turbine.__lt__ (fun _ _ => Ok false) (Example.fresh 0) (Example.fresh 2) = Ok true.
Proof.
  destruct (lt_default_strict_order (fun _ _ => Ok false)
              (Example.fresh 0) (Example.fresh 1) (Example.fresh 2) eq_refl eq_refl)
    as (H01 & _ & _ & _ & Htrans & _).
  destruct (lt_default_strict_order (fun _ _ => Ok false)
              (Example.fresh 1) (Example.fresh 2) (Example.fresh 0) eq_refl eq_refl)
    as (H12 & _).
  apply Htrans.
  - apply H01. left. cbn. lra.
  - apply H12. left. cbn. lra.
Defined.

(** The power of the example turbine from a one-node field. *)
Lemma Turbine_get_power_cases_witness :
  Turbine.get_power Example.key_search_r None (Some (Example.one_node 3))
    (Turbine.mkState
       (Example.turbine_of (Example.nml_at 0) (Some (Example.one_node 1)) (Some 1)
          0 0 0 (Some (VNum 0)) (Some (VNum 0))) 0)
  = (Ok (get_power ((3 * 1 + 0 + 0 + 0) * 1) 1 1 2),
     Turbine.mkState
       (Example.turbine_of (Example.nml_at 0) (Some (Example.one_node 1)) (Some 1)
          0 0 0 (Some (VNum 0)) (Some (VNum 0))) 0).
Proof.
  exact (proj1 (proj2 (proj2 (Turbine_get_power_cases Example.key_search_r
           (Turbine.mkState
              (Example.turbine_of (Example.nml_at 0) (Some (Example.one_node 1)) (Some 1)
                 0 0 0 (Some (VNum 0)) (Some (VNum 0))) 0))))
           (Example.one_node 3) (Example.one_node 1) 1 _ eq_refl eq_refl eq_refl).
Defined.


(** A turbine yawed by 90 degrees: a point half a diameter off the centre
    comes back at that distance. *)
Lemma rotate_keeps_distance_witness :
  exists xc' yc' zc',
    Turbine._rotate_ctrl_pts [0] [1 / 2] [0]
      (Turbine.mkState
         (Example.turbine_of (Example.nml_at 0) None None 0 0 0
            (Some (VNum 90)) (Some (VNum 0))) 0)
    = (Ok (xc', yc', zc'),
       Turbine.mkState
         (Example.turbine_of (Example.nml_at 0) None None 0 0 0
            (Some (VNum 90)) (Some (VNum 0))) 0)
    /\ map (fun p => dist2 p (0, 0, 0)) (Turbine.zip3 xc' yc' zc')
       = map (fun p => dist2 p (0, 0, 0)) (Turbine.zip3 [0] [1 / 2] [0]).
Proof.
  destruct (rotate_total
              (Turbine.mkState
                 (Example.turbine_of (Example.nml_at 0) None None 0 0 0
                    (Some (VNum 90)) (Some (VNum 0))) 0)
              [0] [1 / 2] [0] (VNum 90) (VNum 0) eq_refl eq_refl)
    as ([[xc' yc'] zc'] & H).
  exists xc', yc', zc'. split; [exact H |].
  exact (proj2 (proj2 (proj2 (rotate_keeps_distance _ _ _ _ _ _ _ _ H eq_refl eq_refl)))).
Defined.

(** A yaw of 90 degrees carries the point one unit along [+y] to one unit
    along [-x]. *)
Lemma rotate_is_yaw_then_tilt_witness :
  rotate_point (0, 0, 0) 90 0 (0, 1, 0) = (0 - (1 - 0), 0 + (0 - 0), 0).
Proof.
  destruct (rotate_is_yaw_then_tilt
              (Turbine.mkState
                 (Example.turbine_of (Example.nml_at 0) None None 0 0 0
                    (Some (VNum 90)) (Some (VNum 0))) 0)
              [0] [1] [0] (VNum 90) (VNum 0) eq_refl eq_refl eq_refl eq_refl)
    as (_ & _ & _ & H & _).
  exact (H eq_refl eq_refl 0 1 0).
Defined.

(** The turbine without [yaw] on the unit grid. *)
Lemma get_ctrl_pts_errors_witness :
  Turbine._get_ctrl_pts Example.unit_axis Example.unit_axis Example.unit_axis
    (Turbine.mkState Example.unrotated 0)
  = (Raise (AttributeError "yaw"), Turbine.mkState Example.unrotated 1).
Proof.
  refine (proj1 (proj2 (get_ctrl_pts_errors (Turbine.mkState Example.unrotated 0)
                          Example.unit_axis Example.unit_axis Example.unit_axis)
                       (1 - 0) (1 - 0) (1 - 0) eq_refl eq_refl eq_refl _ _) eq_refl); lra.
Defined.

(** The control point of the example turbine on the unit grid. *)
Lemma ctrl_pts_within_disk_witness :
  Forall (fun p => dist2 p (0, 0, 0) < (1 / 2) ^ 2)
         (Turbine.zip3 [0 + 0] [0 * (1 - 0) + 0] [0 * (1 - 0) + 0]).
Proof.
  exact (ctrl_pts_within_disk (Turbine.mkState (Example.fresh 0) 0) _
           [0; 1] [0; 1] [0; 1] _ _ _ (example_ctrl_pts 0 0 1 0 ltac:(lra))).
Defined.

(** The kernel of the example turbine on the unit grid has the shape of
    the grid. *)
Lemma kernel_is_superposition_witness :
  exists K,
    Turbine.get_kernel Example.key_search_r Example.whole_grid
      Example.unit_axis Example.unit_axis Example.unit_axis 5 None 3
      true true false (Turbine.mkState (Example.fresh 0) 0)
    = (Ok (Some K), Turbine.mkState (Example.fresh 0) 1)
    /\ has_shape 2 2 2 K.
Proof.
  destruct example_request as (K & HK). specialize (HK true 0%nat).
  exists K. split; [exact HK |].
  destruct (kernel_is_superposition Example.key_search_r Example.whole_grid
              (Turbine.mkState (Example.fresh 0) 0) (Turbine.mkState (Example.fresh 0) 1)
              Example.unit_axis Example.unit_axis Example.unit_axis 5 None 3 true false K
              (or_introl eq_refl) HK)
    as (fw & xc & yc & zc & xlo & xhi & ylo & yhi & zlo & zhi & dx & dy & dz & K0
        & _ & _ & _ & _ & _ & _ & _ & _ & _ & H & _).
  exact H.
Defined.


(** The normalised kernel of the example turbine on the unit grid. *)
Lemma normalised_kernel_is_a_weighting_witness :
  exists K,
    Turbine.get_kernel Example.key_search_r Example.whole_grid
      Example.unit_axis Example.unit_axis Example.unit_axis 5 None 3
      true true false (Turbine.mkState (Example.fresh 0) 0)
    = (Ok (Some K), Turbine.mkState (Example.fresh 0) 1)
    /\ all_nodes (fun v => 0 <= v <= 1) K.
Proof.
  destruct example_kernel_sum as (K & HK & Hone).
  exists K. split; [exact HK |].
  exact (normalised_kernel_is_a_weighting Example.key_search_r Example.whole_grid
           (Turbine.mkState (Example.fresh 0) 0) (Turbine.mkState (Example.fresh 0) 1)
           Example.unit_axis Example.unit_axis Example.unit_axis 5 None 3 false K
           (or_introl eq_refl) HK Hone).
Defined.

(** The kernel handed out on the unit grid is the kernel that the storing
    request leaves on the example turbine. *)
Lemma get_kernel_return_or_store_witness :
  exists K s2,
    Turbine.get_kernel Example.key_search_r Example.whole_grid
      Example.unit_axis Example.unit_axis Example.unit_axis 5 None 3
      true true false (Turbine.mkState (Example.fresh 0) 0)
    = (Ok (Some K), Turbine.mkState (Example.fresh 0) 1)
    /\ Turbine.get_kernel Example.key_search_r Example.whole_grid
         Example.unit_axis Example.unit_axis Example.unit_axis 5 None 3
         false true false (Turbine.mkState (Example.fresh 0) 0)
       = (Ok None, s2)
    /\ Turbine.kernel (Turbine.self s2) = Some K.
Proof.
  destruct example_request as (K & HK). specialize (HK true 0%nat).
  destruct (get_kernel_return_or_store Example.key_search_r Example.whole_grid
              (Turbine.mkState (Example.fresh 0) 0) (Turbine.mkState (Example.fresh 0) 1)
              Example.unit_axis Example.unit_axis Example.unit_axis 5 None 3 true false K
              HK) as (_ & s2 & H1 & H2 & _).
  exists K, s2. exact (conj HK (conj H1 H2)).
Defined.

(** A turbine whose namelist has the geometry only. *)
Lemma get_kernel_missing_filterwidth_witness :
  Turbine.get_kernel Example.key_search_r Example.whole_grid
    Example.unit_axis Example.unit_axis Example.unit_axis 5 None 3 true true false
    (Turbine.mkState
       (Example.turbine_of (Example.geometry 0 0 0) None None 0 0 0 None None) 0)
  = (Raise (ValueError
              "Turbine.get_kernel(): no filterwidth found in the turbine input file"),
     Turbine.mkState
       (Example.turbine_of (Example.geometry 0 0 0) None None 0 0 0 None None) 0).
Proof.
  apply (get_kernel_missing_filterwidth Example.key_search_r Example.whole_grid
           (Turbine.mkState
              (Example.turbine_of (Example.geometry 0 0 0) None None 0 0 0 None None) 0)).
  - left. reflexivity.
  - reflexivity.
Defined.

(** The example turbine, whose namelist has [filterwidth = 0.2]. *)
Lemma get_kernel_default_filterwidth_witness :
  Turbine.get_kernel Example.key_search_r Example.whole_grid
    Example.unit_axis Example.unit_axis Example.unit_axis 5 None 3 true true false
    (Turbine.mkState (Example.fresh 0) 0)
  = Turbine.get_kernel Example.key_search_r Example.whole_grid
      Example.unit_axis Example.unit_axis Example.unit_axis 5 (Some 0.2) 3 true true false
      (Turbine.mkState (Example.fresh 0) 0).
Proof.
  exact (get_kernel_default_filterwidth Example.key_search_r Example.whole_grid
           (Turbine.mkState (Example.fresh 0) 0)
           Example.unit_axis Example.unit_axis Example.unit_axis 5 3 true true false
           (VNum 0.2) eq_refl).
Defined.
